(** * ScriptFS: a shallow embedding of [src/scriptfs.c] and [src/operations.c]

    The file system handlers of ScriptFS are C functions over the state of a
    Unix process: the mirror directory, the descriptor table, [errno], the
    global [persistent] structure and the heap blocks that hold the per-open
    [FileStruct].  They are embedded here as functions in a state monad over
    a record [World] that holds exactly that state.  A computation that
    dereferences a null pointer has no result ([None]).

    Layout: constants, the state, the monad, the system calls the handlers
    use, then the handlers themselves (in a section over the behaviour of
    child processes), then the properties. *)

From Stdlib.Strings Require Import Ascii Byte.
From stdpp Require Import gmap strings list fin_maps.

Local Open Scope Z_scope.

(** ** Constants of the C library (Linux, x86-64) *)

Definition EPERM : Z := 1.
Definition ENOENT : Z := 2.
Definition EBADF : Z := 9.
Definition EACCES : Z := 13.
Definition EFAULT : Z := 14.
Definition EEXIST : Z := 17.
Definition EISDIR : Z := 21.
Definition EINVAL : Z := 22.
Definition ESPIPE : Z := 29.
Definition ELOOP : Z := 40.

Definition O_RDONLY : Z := 0.
Definition O_WRONLY : Z := 1.
Definition O_RDWR : Z := 2.
Definition O_ACCMODE : Z := 3.
Definition O_APPEND : Z := 0x400.

Definition R_OK : Z := 4.
Definition W_OK : Z := 2.
Definition X_OK : Z := 1.

Definition AT_SYMLINK_NOFOLLOW : Z := 0x100.

Definition S_IFMT : Z := 0xF000.
Definition S_IFIFO : Z := 0x1000.
Definition S_IFDIR : Z := 0x4000.
Definition S_IFREG : Z := 0x8000.
Definition S_IFLNK : Z := 0xA000.
Definition S_IRUSR : Z := 0x100.
Definition S_IWUSR : Z := 0x80.
Definition S_IXUSR : Z := 0x40.
Definition S_IWGRP : Z := 0x10.
Definition S_IWOTH : Z := 0x2.

Definition S_ISREG (m : Z) : bool := Z.land m S_IFMT =? S_IFREG.
Definition S_ISDIR (m : Z) : bool := Z.land m S_IFMT =? S_IFDIR.
Definition S_ISLNK (m : Z) : bool := Z.land m S_IFMT =? S_IFLNK.

(** The three write bits, [S_IWUSR | S_IWGRP | S_IWOTH]. *)
Definition S_IWALL : Z := Z.lor S_IWUSR (Z.lor S_IWGRP S_IWOTH).

(** Conversion of a 64-bit value to [int], and of an [int] to [uint64_t]. *)
Definition to_int (x : Z) : Z := (x + 2 ^ 31) mod 2 ^ 32 - 2 ^ 31.
Definition to_uint64 (x : Z) : Z := x mod 2 ^ 64.

(** ** Data of the program *)

(** [struct stat], the fields the handlers read or write. *)
Record stat := {
  st_ino : positive;
  st_mode : Z;
  st_uid : Z;
  st_gid : Z;
  st_size : Z;
  st_atim : Z * Z;
  st_mtim : Z * Z
}.

(** The function pointers stored in a [Test] and in a [Program]: one tag for
    each function of [operations.c] that can be stored there. *)
Inductive TestFunc :=
  | Ftest_true | Ftest_false | Ftest_shell | Ftest_executable
  | Ftest_shell_executable | Ftest_pattern | Ftest_program.

Inductive ProgramFunc := Fprogram_shell | Fprogram_external.

(** [struct Test] and [struct Program] as [operations.c] and [main] use them.
    [args] is a pointer to a null-terminated array of strings: the array
    lives in the store [w_argv] of the state, and the record holds its
    address.  [filearg] points at one cell of that array: it is the index of
    the cell.  [compiled] is the compiled regular expression, that is, the
    matcher [regexec] runs. *)
Record Test := {
  test_path : option string;
  test_args : option positive;
  test_filearg : option nat;
  test_filter : Z;
  test_compiled : option (string -> bool);
  test_func : option TestFunc
}.

Record Program := {
  prog_path : option string;
  prog_args : option positive;
  prog_filearg : option nat;
  prog_filter : Z;
  prog_func : ProgramFunc
}.

Record Procedure := {
  program : Program;
  test : option Test
}.

(** [struct Persistent], the fields the handlers read.  The linked list
    [Procedures] is a list. *)
Record Persistent := {
  mirror_fd : Z;
  procs : list Procedure;
  return_real_size : Z;
  tmp_template : string
}.

(** [FileStruct]: the state of one open file or directory. *)
Inductive FileType := T_FOLDER | T_FILE | T_SCRIPT.

Record FileStruct := {
  type : FileType;
  file_handle : Z;
  filename : string
}.

(** [struct fuse_file_info], the fields the handlers use. *)
Record fuse_file_info := {
  flags : Z;
  fh : Z;
  direct_io : Z
}.

(** ** The state of the process and of the file system *)

Record Inode := {
  i_mode : Z;
  i_uid : Z;
  i_gid : Z;
  i_data : list byte;
  i_atim : Z * Z;
  i_mtim : Z * Z;
  i_target : string
}.

(** An open file description: a file with its access flags and offset, or
    one end of a pipe. *)
Inductive OpenFile :=
  | OFile (ino : positive) (oflags : Z) (pos : Z)
  | OPipe (write_end : bool).

(** One call of [execute_program], as the child process sees it: the image,
    the argument vector up to the first null cell, the descriptor given for
    standard output and the bytes fed to standard input ([None] when
    standard input is closed). *)
Record Exec := {
  x_file : option string;
  x_argv : option (list string);
  x_out : Z;
  x_stdin : option (list byte)
}.

(** - [w_names] is the name space: a relative name is resolved in the mirror
      directory (every *-at call of the program passes [mirror_fd]), an
      absolute name is a file of the host (the temporary files).  Names are
      keys as they are passed; symbolic link targets are resolved as names
      of this map.
    - [w_heap] holds the [FileStruct] blocks by address, [w_brk] is the
      address [malloc] returns next.
    - [w_argv] holds the argument arrays of the procedures by address; a
      cell is a string or the null pointer.
    - [w_tmp_fault] is the error with which the temporary directory refuses
      to create a file (no space, no permission, too many descriptors), if
      it does; [w_seed] is the state of the name generator of [mkstemp].
    - [w_trace] records the calls of [execute_program], oldest first, each
      with what the child did: the bytes it wrote on its standard output
      and how it ended. *)
Record World := {
  persistent : Persistent;
  errno : Z;
  w_uid : Z;
  w_gid : Z;
  w_names : gmap string positive;
  w_inodes : gmap positive Inode;
  w_fds : gmap Z OpenFile;
  w_heap : gmap Z FileStruct;
  w_brk : Z;
  w_argv : gmap positive (list (option string));
  w_tmp_fault : option positive;
  w_seed : nat;
  w_trace : list (Exec * (list byte * option Z))
}.

Definition set_errno (e : Z) (w : World) : World :=
  {| persistent := persistent w; errno := e; w_uid := w_uid w; w_gid := w_gid w;
     w_names := w_names w; w_inodes := w_inodes w; w_fds := w_fds w;
     w_heap := w_heap w; w_brk := w_brk w; w_argv := w_argv w;
     w_tmp_fault := w_tmp_fault w; w_seed := w_seed w; w_trace := w_trace w |}.

Definition set_names (n : gmap string positive) (w : World) : World :=
  {| persistent := persistent w; errno := errno w; w_uid := w_uid w; w_gid := w_gid w;
     w_names := n; w_inodes := w_inodes w; w_fds := w_fds w;
     w_heap := w_heap w; w_brk := w_brk w; w_argv := w_argv w;
     w_tmp_fault := w_tmp_fault w; w_seed := w_seed w; w_trace := w_trace w |}.

Definition set_inodes (i : gmap positive Inode) (w : World) : World :=
  {| persistent := persistent w; errno := errno w; w_uid := w_uid w; w_gid := w_gid w;
     w_names := w_names w; w_inodes := i; w_fds := w_fds w;
     w_heap := w_heap w; w_brk := w_brk w; w_argv := w_argv w;
     w_tmp_fault := w_tmp_fault w; w_seed := w_seed w; w_trace := w_trace w |}.

Definition set_fds (f : gmap Z OpenFile) (w : World) : World :=
  {| persistent := persistent w; errno := errno w; w_uid := w_uid w; w_gid := w_gid w;
     w_names := w_names w; w_inodes := w_inodes w; w_fds := f;
     w_heap := w_heap w; w_brk := w_brk w; w_argv := w_argv w;
     w_tmp_fault := w_tmp_fault w; w_seed := w_seed w; w_trace := w_trace w |}.

Definition set_heap (h : gmap Z FileStruct) (b : Z) (w : World) : World :=
  {| persistent := persistent w; errno := errno w; w_uid := w_uid w; w_gid := w_gid w;
     w_names := w_names w; w_inodes := w_inodes w; w_fds := w_fds w;
     w_heap := h; w_brk := b; w_argv := w_argv w;
     w_tmp_fault := w_tmp_fault w; w_seed := w_seed w; w_trace := w_trace w |}.

Definition set_argv (a : gmap positive (list (option string))) (w : World) : World :=
  {| persistent := persistent w; errno := errno w; w_uid := w_uid w; w_gid := w_gid w;
     w_names := w_names w; w_inodes := w_inodes w; w_fds := w_fds w;
     w_heap := w_heap w; w_brk := w_brk w; w_argv := a;
     w_tmp_fault := w_tmp_fault w; w_seed := w_seed w; w_trace := w_trace w |}.

Definition set_seed (s : nat) (w : World) : World :=
  {| persistent := persistent w; errno := errno w; w_uid := w_uid w; w_gid := w_gid w;
     w_names := w_names w; w_inodes := w_inodes w; w_fds := w_fds w;
     w_heap := w_heap w; w_brk := w_brk w; w_argv := w_argv w;
     w_tmp_fault := w_tmp_fault w; w_seed := s; w_trace := w_trace w |}.

Definition set_trace (t : list (Exec * (list byte * option Z))) (w : World) : World :=
  {| persistent := persistent w; errno := errno w; w_uid := w_uid w; w_gid := w_gid w;
     w_names := w_names w; w_inodes := w_inodes w; w_fds := w_fds w;
     w_heap := w_heap w; w_brk := w_brk w; w_argv := w_argv w;
     w_tmp_fault := w_tmp_fault w; w_seed := w_seed w; w_trace := t |}.

(** ** The monad of the handlers: state, and no result on a null dereference *)

Definition M (A : Type) : Type := World -> option (A * World).

Definition ret {A} (a : A) : M A := fun w => Some (a, w).

Definition bind {A B} (m : M A) (k : A -> M B) : M B :=
  fun w => match m w with
           | Some (a, w') => k a w'
           | None => None
           end.

Definition fault {A} : M A := fun _ => None.
Definition gets {A} (f : World -> A) : M A := fun w => Some (f w, w).
Definition modify (f : World -> World) : M unit := fun w => Some (tt, f w).

Notation "x <- m ;; k" := (bind m (fun x => k))
  (at level 100, m at next level, right associativity).
Notation "m ;;; k" := (bind m (fun _ => k))
  (at level 100, right associativity).

(** A failing system call: [errno] is set and the call returns [r]. *)
Definition fail_with {A} (e : Z) (r : A) : M A :=
  modify (set_errno e) ;;; ret r.

(** ** The system calls the handlers use

    Each call returns what the C call returns ([-1] on failure, with [errno]
    set) and changes the state as the kernel does.  A path argument is an
    [option string]: [None] is the null pointer, which the kernel refuses
    with [EFAULT]. *)

Definition stat_of (ino : positive) (nd : Inode) : stat :=
  {| st_ino := ino; st_mode := i_mode nd; st_uid := i_uid nd; st_gid := i_gid nd;
     st_size := Z.of_nat (length (i_data nd));
     st_atim := i_atim nd; st_mtim := i_mtim nd |}.

(** Name resolution.  With [follow], a symbolic link is replaced by its
    target, at most 40 times (then [ELOOP]).  A name is looked up whole, as
    a key of [w_names]: the walk of the kernel through the components of a
    name (with [ENOTDIR] at a component that is no directory, and [.], [..]
    and a closing slash resolved on the way) is not part of the model, so a
    statement that rests on a name being absent is made for a name of one
    component only. *)
Fixpoint namei_loop (fuel : nat) (w : World) (follow : bool) (name : string)
  : Z + positive :=
  match w_names w !! name with
  | None => inl ENOENT
  | Some ino =>
      match w_inodes w !! ino with
      | None => inl ENOENT
      | Some nd =>
          if follow && S_ISLNK (i_mode nd) then
            match fuel with
            | O => inl ELOOP
            | S fuel' => namei_loop fuel' w follow (i_target nd)
            end
          else inr ino
      end
  end.

Definition namei (w : World) (follow : bool) (name : option string) : Z + positive :=
  match name with
  | None => inl EFAULT
  | Some n => namei_loop 40 w follow n
  end.

(** The permission check of the kernel for the bits [want] (read 4, write 2,
    execute 1) on an inode, for the credentials of the server. *)
Definition permitted (w : World) (nd : Inode) (want : Z) : bool :=
  if w_uid w =? 0 then
    if Z.land want X_OK =? 0 then true
    else S_ISDIR (i_mode nd) || negb (Z.land (i_mode nd) 0x49 =? 0)
  else
    let class :=
      if w_uid w =? i_uid nd then Z.shiftr (i_mode nd) 6
      else if w_gid w =? i_gid nd then Z.shiftr (i_mode nd) 3
      else i_mode nd in
    Z.land (Z.land class 7) want =? want.

Definition owner_or_root (w : World) (nd : Inode) : bool :=
  (w_uid w =? 0) || (w_uid w =? i_uid nd).

(** The lowest descriptor that is not open. *)
Fixpoint lowest_free (fds : gmap Z OpenFile) (n : nat) (k : Z) : Z :=
  match n with
  | O => k
  | S n' =>
      match fds !! k with
      | None => k
      | Some _ => lowest_free fds n' (k + 1)
      end
  end.

Definition fresh_fd (w : World) : Z := lowest_free (w_fds w) (size (w_fds w)) 0.

(** The open file description behind a descriptor; a negative number is
    never a descriptor. *)
Definition lookup_fd (w : World) (fd : Z) : option OpenFile :=
  if fd <? 0 then None else w_fds w !! fd.

Definition fstatat (name : option string) (stbuf : stat) (fl : Z) : M (Z * stat) :=
  w <- gets id ;;
  match namei w (Z.land fl AT_SYMLINK_NOFOLLOW =? 0) name with
  | inl e => fail_with e (-1, stbuf)
  | inr ino =>
      match w_inodes w !! ino with
      | None => fail_with ENOENT (-1, stbuf)
      | Some nd => ret (0, stat_of ino nd)
      end
  end.

Definition fstat (fd : Z) (stbuf : stat) : M (Z * stat) :=
  w <- gets id ;;
  match lookup_fd w fd with
  | Some (OFile ino _ _) =>
      match w_inodes w !! ino with
      | None => fail_with EBADF (-1, stbuf)
      | Some nd => ret (0, stat_of ino nd)
      end
  | Some (OPipe _) =>
      ret (0, {| st_ino := 1%positive; st_mode := Z.lor S_IFIFO 0x180;
                 st_uid := w_uid w; st_gid := w_gid w; st_size := 0;
                 st_atim := (0, 0); st_mtim := (0, 0) |})
  | None => fail_with EBADF (-1, stbuf)
  end.

Definition faccessat (name : option string) (mask : Z) : M Z :=
  w <- gets id ;;
  match namei w true name with
  | inl e => fail_with e (-1)
  | inr ino =>
      match w_inodes w !! ino with
      | None => fail_with ENOENT (-1)
      | Some nd => if permitted w nd mask then ret 0 else fail_with EACCES (-1)
      end
  end.

(** [openat] on an existing name ([O_CREAT] and [O_TRUNC] are not modelled:
    the handlers embedded here never create a file by [openat]). *)
Definition openat (name : option string) (fl : Z) : M Z :=
  w <- gets id ;;
  match namei w true name with
  | inl e => fail_with e (-1)
  | inr ino =>
      match w_inodes w !! ino with
      | None => fail_with ENOENT (-1)
      | Some nd =>
          let acc := Z.land fl O_ACCMODE in
          let want := if acc =? O_RDONLY then R_OK
                      else if acc =? O_WRONLY then W_OK
                      else Z.lor R_OK W_OK in
          if S_ISDIR (i_mode nd) && negb (acc =? O_RDONLY) then fail_with EISDIR (-1)
          else if negb (permitted w nd want) then fail_with EACCES (-1)
          else
            let fd := fresh_fd w in
            modify (set_fds (<[fd := OFile ino fl 0]> (w_fds w))) ;;;
            ret fd
      end
  end.

Definition close (fd : Z) : M Z :=
  w <- gets id ;;
  match lookup_fd w fd with
  | None => fail_with EBADF (-1)
  | Some _ => modify (set_fds (delete fd (w_fds w))) ;;; ret 0
  end.

(** [pipe]: the read end, then the write end, on the two lowest free
    descriptors. *)
Definition pipe : M (Z * Z) :=
  w <- gets id ;;
  let r := fresh_fd w in
  modify (set_fds (<[r := OPipe false]> (w_fds w))) ;;;
  w1 <- gets id ;;
  let wr := fresh_fd w1 in
  modify (set_fds (<[wr := OPipe true]> (w_fds w1))) ;;;
  ret (r, wr).

(** [read(fd, buf, n)]: the count and the bytes read. *)
Definition read (fd : Z) (n : Z) : M (Z * list byte) :=
  w <- gets id ;;
  match lookup_fd w fd with
  | Some (OFile ino fl pos) =>
      match w_inodes w !! ino with
      | None => fail_with EBADF (-1, [])
      | Some nd =>
          if Z.land fl O_ACCMODE =? O_WRONLY then fail_with EBADF (-1, [])
          else if S_ISDIR (i_mode nd) then fail_with EISDIR (-1, [])
          else
            let got := take (Z.to_nat n) (drop (Z.to_nat pos) (i_data nd)) in
            let k := Z.of_nat (length got) in
            modify (set_fds (<[fd := OFile ino fl (pos + k)]> (w_fds w))) ;;;
            ret (k, got)
      end
  | Some (OPipe _) => ret (0, [])
  | None => fail_with EBADF (-1, [])
  end.

(** The content of a file after [buf] is written at offset [pos]: a gap
    between the end of the file and [pos] reads as zero bytes. *)
Definition write_at (pos : nat) (buf data : list byte) : list byte :=
  match buf with
  | [] => data
  | _ => take pos data ++ replicate (pos - length data) "000"%byte ++ buf
           ++ drop (pos + length buf) data
  end.

Definition with_data (d : list byte) (nd : Inode) : Inode :=
  {| i_mode := i_mode nd; i_uid := i_uid nd; i_gid := i_gid nd; i_data := d;
     i_atim := i_atim nd; i_mtim := i_mtim nd; i_target := i_target nd |}.

(** [write(fd, buf, n)].  On a descriptor opened with [O_APPEND] the bytes
    go to the end of the file, wherever the offset stands; a write of no
    byte moves nothing. *)
Definition write (fd : Z) (buf : list byte) : M Z :=
  w <- gets id ;;
  match lookup_fd w fd with
  | Some (OFile ino fl pos) =>
      match w_inodes w !! ino with
      | None => fail_with EBADF (-1)
      | Some nd =>
          if Z.land fl O_ACCMODE =? O_RDONLY then fail_with EBADF (-1)
          else
            let k := Z.of_nat (length buf) in
            let start := if (Z.land fl O_APPEND =? 0) || (k =? 0) then pos
                         else Z.of_nat (length (i_data nd)) in
            let nd' := with_data (write_at (Z.to_nat start) buf (i_data nd)) nd in
            modify (set_inodes (<[ino := nd']> (w_inodes w))) ;;;
            modify (set_fds (<[fd := OFile ino fl (start + k)]> (w_fds w))) ;;;
            ret k
      end
  | Some (OPipe true) => ret (Z.of_nat (length buf))
  | Some (OPipe false) => fail_with EBADF (-1)
  | None => fail_with EBADF (-1)
  end.

(** [lseek(fd, off, SEEK_SET)]. *)
Definition lseek (fd : Z) (off : Z) : M Z :=
  w <- gets id ;;
  match lookup_fd w fd with
  | Some (OFile ino fl _) =>
      if off <? 0 then fail_with EINVAL (-1)
      else modify (set_fds (<[fd := OFile ino fl off]> (w_fds w))) ;;; ret off
  | Some (OPipe _) => fail_with ESPIPE (-1)
  | None => fail_with EBADF (-1)
  end.

(** [fsync]: only a file can be synchronised. *)
Definition fsync (fd : Z) : M Z :=
  w <- gets id ;;
  match lookup_fd w fd with
  | Some (OFile _ _ _) => ret 0
  | Some (OPipe _) => fail_with EINVAL (-1)
  | None => fail_with EBADF (-1)
  end.

Definition with_mode (m : Z) (nd : Inode) : Inode :=
  {| i_mode := Z.lor (Z.land (i_mode nd) S_IFMT) (Z.land m 0xFFF);
     i_uid := i_uid nd; i_gid := i_gid nd; i_data := i_data nd;
     i_atim := i_atim nd; i_mtim := i_mtim nd; i_target := i_target nd |}.

Definition with_times (ts : (Z * Z) * (Z * Z)) (nd : Inode) : Inode :=
  {| i_mode := i_mode nd; i_uid := i_uid nd; i_gid := i_gid nd; i_data := i_data nd;
     i_atim := ts.1; i_mtim := ts.2; i_target := i_target nd |}.

(** Change of an inode by its owner (or root): the body of [fchmod],
    [fchmodat], [futimens] and [utimensat] once the inode is found.  The
    time values [UTIME_NOW] and [UTIME_OMIT] are not modelled: times are
    stored as given. *)
Definition change_inode (ino : positive) (f : Inode -> Inode) : M Z :=
  w <- gets id ;;
  match w_inodes w !! ino with
  | None => fail_with ENOENT (-1)
  | Some nd =>
      if owner_or_root w nd
      then modify (set_inodes (<[ino := f nd]> (w_inodes w))) ;;; ret 0
      else fail_with EPERM (-1)
  end.

Definition change_path (name : option string) (f : Inode -> Inode) : M Z :=
  w <- gets id ;;
  match namei w true name with
  | inl e => fail_with e (-1)
  | inr ino => change_inode ino f
  end.

Definition change_fd (fd : Z) (f : Inode -> Inode) : M Z :=
  w <- gets id ;;
  match lookup_fd w fd with
  | Some (OFile ino _ _) => change_inode ino f
  | Some (OPipe _) => ret 0
  | None => fail_with EBADF (-1)
  end.

Definition fchmodat (name : option string) (mode : Z) : M Z :=
  change_path name (with_mode mode).
Definition fchmod (fd : Z) (mode : Z) : M Z := change_fd fd (with_mode mode).
Definition utimensat (name : option string) (ts : (Z * Z) * (Z * Z)) : M Z :=
  change_path name (with_times ts).
Definition futimens (fd : Z) (ts : (Z * Z) * (Z * Z)) : M Z :=
  change_fd fd (with_times ts).

Definition resize (n : nat) (d : list byte) : list byte :=
  take n d ++ replicate (n - length d) "000"%byte.

Definition ftruncate (fd : Z) (size : Z) : M Z :=
  w <- gets id ;;
  match lookup_fd w fd with
  | Some (OFile ino fl _) =>
      match w_inodes w !! ino with
      | None => fail_with EBADF (-1)
      | Some nd =>
          if (Z.land fl O_ACCMODE =? O_RDONLY) || (size <? 0) then fail_with EINVAL (-1)
          else
            modify (set_inodes
                      (<[ino := with_data (resize (Z.to_nat size) (i_data nd)) nd]>
                         (w_inodes w))) ;;;
            ret 0
      end
  | Some (OPipe _) => fail_with EINVAL (-1)
  | None => fail_with EBADF (-1)
  end.

Definition unlink (name : option string) : M Z :=
  w <- gets id ;;
  match namei w false name with
  | inl e => fail_with e (-1)
  | inr ino =>
      match name, w_inodes w !! ino with
      | Some n, Some nd =>
          if S_ISDIR (i_mode nd) then fail_with EISDIR (-1)
          else modify (set_names (delete n (w_names w))) ;;; ret 0
      | _, _ => fail_with ENOENT (-1)
      end
  end.

(** [mkstemp]: the template must end in six [X]; they are replaced by
    characters that make a name that does not exist; the file is created
    empty with mode 0600 and opened read-write.  The call returns the
    descriptor and the name it wrote into the template. *)
Definition tmp_letters : string :=
  "abcdefghijklmnopqrstuvwxyzABCDEFGHIJKLMNOPQRSTUVWXYZ0123456789".

Fixpoint tmp_suffix (len n : nat) : string :=
  match len with
  | O => EmptyString
  | S len' =>
      String (default "a"%char (String.get (n mod 62)%nat tmp_letters))
             (tmp_suffix len' (n / 62)%nat)
  end.

Fixpoint first_free_name (names : gmap string positive) (prefix : string)
    (fuel n : nat) : option (string * nat) :=
  match fuel with
  | O => None
  | S fuel' =>
      let nm := String.append prefix (tmp_suffix 6 n) in
      match names !! nm with
      | None => Some (nm, n)
      | Some _ => first_free_name names prefix fuel' (S n)
      end
  end.

Definition template_prefix (template : string) : option string :=
  let n := String.length template in
  if String.eqb (String.substring (n - 6) 6 template) "XXXXXX"
  then Some (String.substring 0 (n - 6) template)
  else None.

Definition new_file (w : World) : Inode :=
  {| i_mode := Z.lor S_IFREG 0x180; i_uid := w_uid w; i_gid := w_gid w;
     i_data := []; i_atim := (0, 0); i_mtim := (0, 0); i_target := EmptyString |}.

Definition mkstemp (template : string) : M (Z * string) :=
  w <- gets id ;;
  match template_prefix template with
  | None => fail_with EINVAL (-1, template)
  | Some prefix =>
      match w_tmp_fault w with
      | Some e => fail_with (Z.pos e) (-1, template)
      | None =>
          match first_free_name (w_names w) prefix (S (size (w_names w))) (w_seed w) with
          | None => fail_with EEXIST (-1, template)
          | Some (nm, n) =>
              let ino := fresh (dom (w_inodes w)) in
              let fd := fresh_fd w in
              modify (set_inodes (<[ino := new_file w]> (w_inodes w))) ;;;
              modify (set_names (<[nm := ino]> (w_names w))) ;;;
              modify (set_fds (<[fd := OFile ino O_RDWR 0]> (w_fds w))) ;;;
              modify (set_seed (S n)) ;;;
              ret (fd, nm)
          end
      end
  end.

(** [malloc] of a [FileStruct] followed by the assignment of its fields;
    the address is the value stored in [fi->fh]. *)
Definition new_FileStruct (v : FileStruct) : M Z :=
  w <- gets id ;;
  let a := w_brk w in
  modify (set_heap (<[a := v]> (w_heap w)) (a + 0x1010)) ;;;
  ret a.

(** The cells of an argument array, and the assignment of one cell. *)
Definition cells_of (w : World) (a : positive) : list (option string) :=
  default [] (w_argv w !! a).

Definition set_cell (a : positive) (i : nat) (v : option string) : M unit :=
  w <- gets id ;;
  modify (set_argv (<[a := <[i := v]> (cells_of w a)]> (w_argv w))).

(** The argument vector a null-terminated array denotes: the cells before
    the first null one. *)
Fixpoint argv_of (cells : list (option string)) : list string :=
  match cells with
  | Some s :: rest => s :: argv_of rest
  | _ => []
  end.

(** ** [scriptfs.c]: [relative_path] *)

Definition relative_path (path : option string) : option string :=
  match path with
  | None => None
  | Some EmptyString => None
  | Some (String c rest) =>
      if Ascii.eqb c "/" && String.eqb rest EmptyString then Some "."%string
      else Some rest
  end.

(** ** The handlers

    The behaviour of a child process is a parameter: [child w x] gives, for
    the call [x] of [execute_program] in the state [w], the bytes the child
    writes on its standard output and how it ends ([Some s]: it exits with
    status [s]; [None]: it is ended by a signal, as after the [abort] that
    follows a failed [call_program]).  [FILENAME_MAX_LENGTH] is the constant
    of [operations.h]. *)
Section Handlers.

Variable child : World -> Exec -> list byte * option Z.
Variable FILENAME_MAX_LENGTH : nat.

(** What the child does to the file behind the descriptor it was given as
    standard output: the descriptor is shared with the parent, offset
    included. *)
Definition child_output (out : Z) (buf : list byte) (w : World) : World :=
  match lookup_fd w out with
  | Some (OFile ino fl pos) =>
      match w_inodes w !! ino with
      | Some nd =>
          if Z.land fl O_ACCMODE =? O_RDONLY then w
          else
            set_fds (<[out := OFile ino fl (pos + Z.of_nat (length buf))]> (w_fds w))
              (set_inodes
                 (<[ino := with_data (write_at (Z.to_nat pos) buf (i_data nd)) nd]>
                    (w_inodes w)) w)
      | None => w
      end
  | _ => w
  end.

Definition fd_size (w : World) (fd : Z) : nat :=
  match lookup_fd w fd with
  | Some (OFile ino _ _) =>
      match w_inodes w !! ino with
      | Some nd => length (i_data nd)
      | None => O
      end
  | _ => O
  end.

(** *** [operations.c]: [execute_program] *)

(** The loop of the parent that copies the file to the pipe, [0x400] bytes
    at a time, until [read] returns nothing; the result is what went
    through the pipe. *)
Fixpoint feed_pipe (fuel : nat) (inf wr : Z) (sent : list byte) : M (list byte) :=
  match fuel with
  | O => ret sent
  | S fuel' =>
      r <- read inf 0x400 ;;
      (if 0 <? r.1 then write wr r.2 else ret 0) ;;;
      if 0 <? r.1 then feed_pipe fuel' inf wr (sent ++ r.2) else ret sent
  end.

Definition execute_program (file : option string) (args : option (list (option string)))
    (out : Z) (path_in : option string) : M Z :=
  stdin <-
    match path_in with
    | Some _ =>
        fds <- pipe ;;
        close fds.1 ;;;
        inf <- openat path_in O_RDONLY ;;
        sent <- (if inf <? 0 then ret []
                 else w <- gets id ;; feed_pipe (S (fd_size w inf)) inf fds.2 []) ;;
        fsync fds.2 ;;;
        close fds.2 ;;;
        ret (Some sent)
    | None => ret None
    end ;;
  w <- gets id ;;
  let x := {| x_file := file; x_argv := argv_of <$> args; x_out := out;
              x_stdin := stdin |} in
  let c := child w x in
  modify (fun w => if out =? 0 then w else child_output out c.1 w) ;;;
  modify (fun w => set_trace (w_trace w ++ [(x, c)]) w) ;;;
  match c.2 with
  | Some s => ret (Z.land s 0xff)
  | None => ret 1
  end.

(** *** [operations.c]: [temp_copy] *)

Fixpoint copy_loop (fuel : nat) (fin fout : Z) : M unit :=
  match fuel with
  | O => ret tt
  | S fuel' =>
      r <- read fin 0x400 ;;
      if 0 <? r.1 then write fout r.2 ;;; copy_loop fuel' fin fout
      else ret tt
  end.

Definition temp_copy (file : option string) : M (option string) :=
  fin <- openat file O_RDONLY ;;
  if fin =? -1 then ret None
  else
    template <- gets (fun w => tmp_template (persistent w)) ;;
    r <- mkstemp template ;;
    let fout := r.1 in
    let res := r.2 in
    if fout =? -1 then close fin ;;; ret None
    else
      w <- gets id ;;
      copy_loop (S (fd_size w fin)) fin fout ;;;
      st <- fstat fin (stat_of 1%positive (new_file w)) ;;
      (if st.1 =? -1 then ret 0
       else fchmod fout (Z.land (st_mode st.2) (Z.lor S_IRUSR S_IXUSR))) ;;;
      close fin ;;;
      close fout ;;;
      ret (Some res).

(** *** [operations.c]: the test functions *)

Definition test_true (t : Test) (file : option string) : M Z := ret 1.
Definition test_false (t : Test) (file : option string) : M Z := ret 0.

Definition test_shell (t : Test) (file : option string) : M Z :=
  fd <- openat file O_RDONLY ;;
  w <- gets id ;;
  match lookup_fd w fd with
  | None => ret 0
  | Some _ =>
      r <- read fd 2 ;;
      close fd ;;;
      match r.2 with
      | [c0; c1] => if Byte.eqb c0 "#"%byte && Byte.eqb c1 "!"%byte then ret 1 else ret 0
      | _ => ret 0
      end
  end.

Definition test_executable (t : Test) (file : option string) : M Z :=
  code <- faccessat file X_OK ;;
  ret (if code =? 0 then 1 else 0).

Definition test_shell_executable (t : Test) (file : option string) : M Z :=
  s <- test_shell t file ;;
  if negb (s =? 0) then ret 1
  else e <- test_executable t file ;; ret (if negb (e =? 0) then 1 else 0).

Definition test_pattern (t : Test) (file : option string) : M Z :=
  match test_compiled t with
  | None => ret 0
  | Some regexec =>
      match file with
      | None => fault
      | Some f => ret (if regexec f then 1 else 0)
      end
  end.

Definition test_program (t : Test) (file : option string) : M Z :=
  match test_args t, test_filearg t with
  | Some a, Some i => set_cell a i file
  | _, _ => ret tt
  end ;;;
  let f := if negb (test_filter t =? 0) then file else None in
  w <- gets id ;;
  code <- execute_program (test_path t) (cells_of w <$> test_args t) 0 f ;;
  match test_args t, test_filearg t with
  | Some a, Some i => set_cell a i (Some EmptyString)
  | _, _ => ret tt
  end ;;;
  ret (if code =? 0 then 1 else 0).

Definition call_test (f : TestFunc) : Test -> option string -> M Z :=
  match f with
  | Ftest_true => test_true
  | Ftest_false => test_false
  | Ftest_shell => test_shell
  | Ftest_executable => test_executable
  | Ftest_shell_executable => test_shell_executable
  | Ftest_pattern => test_pattern
  | Ftest_program => test_program
  end.

(** *** [operations.c]: the program functions *)

Definition program_shell (p : Program) (file : option string) (fd : Z) : M Z :=
  tmpfil <- temp_copy file ;;
  match tmpfil with
  | None => e <- gets errno ;; ret (- e)
  | Some _ =>
      code <- execute_program tmpfil (Some [tmpfil; None]) fd None ;;
      unlink tmpfil ;;;
      ret code
  end.

Definition program_external (p : Program) (file : option string) (fd : Z) : M Z :=
  match prog_args p, prog_filearg p with
  | Some a, Some i => tmp <- temp_copy file ;; set_cell a i tmp
  | _, _ => ret tt
  end ;;;
  let f := if negb (prog_filter p =? 0) && negb (bool_decide (is_Some (prog_filearg p)))
           then file else None in
  w <- gets id ;;
  code <- execute_program (prog_path p) (cells_of w <$> prog_args p) fd f ;;
  match prog_args p, prog_filearg p with
  | Some a, Some i =>
      w <- gets id ;;
      match mjoin (cells_of w a !! i) with
      | Some tmp => unlink (Some tmp) ;;; ret tt
      | None => ret tt
      end ;;;
      set_cell a i None
  | _, _ => ret tt
  end ;;;
  ret code.

Definition call_program_func (f : ProgramFunc) : Program -> option string -> Z -> M Z :=
  match f with
  | Fprogram_shell => program_shell
  | Fprogram_external => program_external
  end.

(** *** [operations.c]: [get_script] *)

(** The condition of the [if] in the loop: the procedure has a test, the
    test has a function, and the function returns non-zero on the file. *)
Definition test_matches (p : Procedure) (file : option string) : M bool :=
  match test p with
  | Some t =>
      match test_func t with
      | Some f => r <- call_test f t file ;; ret (negb (r =? 0))
      | None => ret false
      end
  | None => ret false
  end.

(** The [while (res==0 && procs!=0)] loop, by recursion on the list. *)
Fixpoint get_script_loop (res : option Procedure) (procs : list Procedure)
    (file : option string) : M (option Procedure) :=
  match res, procs with
  | None, p :: next =>
      hit <- test_matches p file ;;
      get_script_loop (if hit : bool then Some p else res) next file
  | _, _ => ret res
  end.

Definition get_script (procs : list Procedure) (file : option string)
  : M (option Procedure) :=
  get_script_loop None procs file.

(** *** [scriptfs.c]: [run_script] *)

Definition set_direct_io (v : Z) (fi : fuse_file_info) : fuse_file_info :=
  {| flags := flags fi; fh := fh fi; direct_io := v |}.

Definition set_fh (v : Z) (fi : fuse_file_info) : fuse_file_info :=
  {| flags := flags fi; fh := v; direct_io := direct_io fi |}.

(** [temp_filename] is a copy of [persistent.tmp_template] in an array of
    the same size, so the copy is the template itself. *)
Definition run_script (relative : option string) (proc : Procedure)
    (fi : option fuse_file_info) : M (Z * option fuse_file_info) :=
  temp_filename <- gets (fun w => tmp_template (persistent w)) ;;
  r <- mkstemp temp_filename ;;
  let handle := r.1 in
  if handle <=? 0 then e <- gets errno ;; ret (- e, fi)
  else
    unlink (Some r.2) ;;;
    call_program_func (prog_func (program proc)) (program proc) relative handle ;;;
    ret (handle, set_direct_io 1 <$> fi).

(** *** [scriptfs.c]: [sfs_getattr] *)

Definition clear_write_bits (st : stat) : stat :=
  {| st_ino := st_ino st; st_mode := Z.land (st_mode st) (Z.lnot S_IWALL);
     st_uid := st_uid st; st_gid := st_gid st; st_size := st_size st;
     st_atim := st_atim st; st_mtim := st_mtim st |}.

Definition set_st_size (n : Z) (st : stat) : stat :=
  {| st_ino := st_ino st; st_mode := st_mode st;
     st_uid := st_uid st; st_gid := st_gid st; st_size := n;
     st_atim := st_atim st; st_mtim := st_mtim st |}.

(** The result of a handler that ends in [return (code==0)?0:-errno]. *)
Definition code_or_errno (code : Z) : M Z :=
  if code =? 0 then ret 0 else e <- gets errno ;; ret (- e).

Definition sfs_getattr (path : option string) (stbuf : stat)
    (fi : option fuse_file_info) : M (Z * stat * option fuse_file_info) :=
  match path with
  | Some _ =>
      let relative := relative_path path in
      r <- fstatat relative stbuf AT_SYMLINK_NOFOLLOW ;;
      let code := r.1 in
      let stbuf := r.2 in
      ps <- gets (fun w => procs (persistent w)) ;;
      proc <- (if (code =? 0) && S_ISREG (st_mode stbuf)
               then get_script ps relative else ret None) ;;
      match proc with
      | Some proc =>
          let stbuf := clear_write_bits stbuf in
          real <- gets (fun w => return_real_size (persistent w)) ;;
          if negb (real =? 0) then
            h <- run_script relative proc fi ;;
            let handle := h.1 in
            rs <- fstat handle stbuf ;;
            let stbuf := if rs.1 =? 0 then set_st_size (st_size rs.2) stbuf else stbuf in
            close handle ;;;
            c <- code_or_errno code ;;
            ret (c, stbuf, h.2)
          else
            c <- code_or_errno code ;;
            ret (c, stbuf, fi)
      | None =>
          c <- code_or_errno code ;;
          ret (c, stbuf, fi)
      end
  | None =>
      match fi with
      | None => ret (- EBADF, stbuf, fi)
      | Some i =>
          r <- fstat (to_int (fh i)) stbuf ;;
          c <- code_or_errno r.1 ;;
          ret (c, r.2, fi)
      end
  end.

(** *** [scriptfs.c]: [sfs_chmod], [sfs_truncate], [sfs_utimens] *)

Definition sfs_chmod (path : option string) (mode : Z)
    (fi : option fuse_file_info) : M Z :=
  match path with
  | Some _ =>
      let relative := relative_path path in
      w <- gets id ;;
      r <- fstatat relative (stat_of 1%positive (new_file w)) 0 ;;
      ps <- gets (fun w => procs (persistent w)) ;;
      proc <- (if (r.1 =? 0) && S_ISREG (st_mode r.2)
                  && negb (Z.land mode S_IWALL =? 0)
               then get_script ps relative else ret None) ;;
      let mode := if bool_decide (is_Some proc)
                  then Z.land mode (Z.lnot S_IWALL) else mode in
      code <- fchmodat relative mode ;;
      code_or_errno code
  | None =>
      match fi with
      | None => ret (- EBADF)
      | Some i =>
          code <- fchmod (to_int (fh i)) mode ;;
          code_or_errno code
      end
  end.

(** [fd] is declared [uint64_t]: the test [fd<0] is never true, and the
    descriptor passed to [ftruncate] and [close] is [fd] converted back to
    [int]. *)
Definition sfs_truncate (path : option string) (size : Z)
    (fi : option fuse_file_info) : M Z :=
  match path with
  | Some _ =>
      let relative := relative_path path in
      w <- gets id ;;
      r <- fstatat relative (stat_of 1%positive (new_file w)) 0 ;;
      ps <- gets (fun w => procs (persistent w)) ;;
      proc <- (if (r.1 =? 0) && S_ISREG (st_mode r.2)
               then get_script ps relative else ret None) ;;
      match proc with
      | Some _ => ret (- EACCES)
      | None =>
          o <- openat relative O_WRONLY ;;
          let fd := to_uint64 o in
          if fd <? 0 then e <- gets errno ;; ret (- e)
          else
            code <- ftruncate (to_int fd) size ;;
            close (to_int fd) ;;;
            code_or_errno code
      end
  | None =>
      match fi with
      | None => ret (- EBADF)
      | Some i =>
          let fd := to_uint64 (fh i) in
          if fd <? 0 then e <- gets errno ;; ret (- e)
          else
            code <- ftruncate (to_int fd) size ;;
            close (to_int fd) ;;;
            code_or_errno code
      end
  end.

Definition sfs_utimens (path : option string) (ts : (Z * Z) * (Z * Z))
    (fi : option fuse_file_info) : M Z :=
  match path with
  | Some _ =>
      let relative := relative_path path in
      w <- gets id ;;
      r <- fstatat relative (stat_of 1%positive (new_file w)) 0 ;;
      ps <- gets (fun w => procs (persistent w)) ;;
      proc <- (if (r.1 =? 0) && S_ISREG (st_mode r.2)
               then get_script ps relative else ret None) ;;
      match proc with
      | Some _ => ret (- EACCES)
      | None =>
          code <- utimensat relative ts ;;
          code_or_errno code
      end
  | None =>
      match fi with
      | None => fault
      | Some i =>
          code <- futimens (to_int (fh i)) ts ;;
          code_or_errno code
      end
  end.

(** *** [scriptfs.c]: [sfs_open], [sfs_read], [sfs_write], [sfs_release] *)

(** [strncpy(fs->filename, relative, FILENAME_MAX_LENGTH-1)] and the
    terminating zero. *)
Definition copy_filename (relative : string) : string :=
  String.substring 0 (FILENAME_MAX_LENGTH - 1) relative.

Definition sfs_open (path : option string) (fi : fuse_file_info)
  : M (Z * fuse_file_info) :=
  let relative := relative_path path in
  ps <- gets (fun w => procs (persistent w)) ;;
  proc <- get_script ps relative ;;
  r <- match proc with
       | Some proc =>
           if negb (Z.land (flags fi) O_WRONLY =? 0) || negb (Z.land (flags fi) O_RDWR =? 0)
           then ret (inl (- EACCES), fi)
           else
             h <- run_script relative proc (Some fi) ;;
             let fi := default fi h.2 in
             if h.1 <=? 0 then ret (inl h.1, fi)
             else ret (inr (T_SCRIPT, h.1), fi)
       | None =>
           handle <- openat relative (flags fi) ;;
           if handle <=? 0 then e <- gets errno ;; ret (inl (- e), fi)
           else ret (inr (T_FILE, handle), set_direct_io 0 fi)
       end ;;
  match r.1 with
  | inl code => ret (code, r.2)
  | inr (typ, handle) =>
      match relative with
      | None => fault
      | Some rel =>
          fs <- new_FileStruct {| type := typ; file_handle := handle;
                                  filename := copy_filename rel |} ;;
          ret (0, set_fh fs r.2)
      end
  end.

(** The [FileStruct] a handle points to; there is no result when the
    handle is not the address of one. *)
Definition deref (a : Z) : M FileStruct :=
  w <- gets id ;;
  match w_heap w !! a with
  | Some fs => ret fs
  | None => fault
  end.

Definition is_folder (fs : FileStruct) : bool :=
  match type fs with T_FOLDER => true | _ => false end.

Definition sfs_read (path : option string) (size : Z) (offset : Z)
    (fi : option fuse_file_info) : M (Z * list byte) :=
  match fi with
  | None => ret (- EBADF, [])
  | Some i =>
      if fh i =? 0 then ret (- EBADF, [])
      else
        fs <- deref (fh i) ;;
        if is_folder fs then ret (- EISDIR, [])
        else
          res <- lseek (file_handle fs) offset ;;
          if res <? 0 then e <- gets errno ;; ret (- e, [])
          else
            r <- read (file_handle fs) size ;;
            if 0 <=? r.1 then ret r else e <- gets errno ;; ret (- e, [])
  end.

Definition sfs_write (path : option string) (buf : list byte) (offset : Z)
    (fi : option fuse_file_info) : M Z :=
  match fi with
  | None => ret (- EBADF)
  | Some i =>
      if fh i =? 0 then ret (- EBADF)
      else
        fs <- deref (fh i) ;;
        if is_folder fs then ret (- EISDIR)
        else
          res <- lseek (file_handle fs) offset ;;
          if res <? 0 then e <- gets errno ;; ret (- e)
          else
            num <- write (file_handle fs) buf ;;
            if 0 <=? num then ret num else e <- gets errno ;; ret (- e)
  end.

Definition sfs_release (path : option string) (fi : option fuse_file_info) : M Z :=
  match fi with
  | None => ret (- EBADF)
  | Some i =>
      if fh i =? 0 then ret (- EBADF)
      else
        fs <- deref (fh i) ;;
        if is_folder fs then ret (- EISDIR)
        else
          code <- close (file_handle fs) ;;
          modify (fun w => set_heap (delete (fh i) (w_heap w)) (w_brk w) w) ;;;
          code_or_errno code
  end.

End Handlers.

(** *** [scriptfs.c]: [sfs_access], [sfs_fsync], [sfs_flush] *)

Section MoreHandlers.

Variable child : World -> Exec -> list byte * option Z.

Definition sfs_access (path : option string) (mask : Z) : M Z :=
  let relative := relative_path path in
  code <- faccessat relative mask ;;
  w <- gets id ;;
  early <-
    (if (code =? 0) && negb (Z.land mask W_OK =? 0) then
       st <- fstatat relative (stat_of 1%positive (new_file w)) 0 ;;
       if negb (st.1 =? 0) then ret (Some (- st.1))
       else
         ps <- gets (fun w => procs (persistent w)) ;;
         proc <- (if S_ISREG (st_mode st.2) then get_script child ps relative
                  else ret None) ;;
         ret (if bool_decide (is_Some proc) then Some (-1) else None)
     else ret None) ;;
  match early with
  | Some r => ret r
  | None => code_or_errno code
  end.

Definition sfs_fsync (path : option string) (isdatasync : Z)
    (fi : option fuse_file_info) : M Z :=
  match fi with
  | None => ret (- EBADF)
  | Some i =>
      if fh i =? 0 then ret (- EBADF)
      else
        fs <- deref (fh i) ;;
        if is_folder fs then ret (- EISDIR)
        else
          code <- fsync (file_handle fs) ;;
          code_or_errno code
  end.

Definition sfs_flush (path : option string) (fi : option fuse_file_info) : M Z :=
  match fi with
  | None => ret (- EBADF)
  | Some i =>
      if fh i =? 0 then ret (- EBADF)
      else
        fs <- deref (fh i) ;;
        if is_folder fs then ret (- EISDIR)
        else
          match type fs with
          | T_SCRIPT => ret 0
          | _ =>
              code <- fsync (file_handle fs) ;;
              code_or_errno code
          end
  end.

End MoreHandlers.

(** *** [operations.c]: [call_program]

    [call_program] runs in the child.  What is embedded here is its choice
    of the program and of the argument vector from the first line of the
    file, as a function of the bytes of the file; the argument array is not
    null.  The calls that open the file and the program are left to the
    behaviour [child] of the child. *)

Definition is_blank (c : byte) : bool := Byte.eqb c " " || Byte.eqb c "009".
Definition is_newline (c : byte) : bool := Byte.eqb c "010".
Definition is_backslash (c : byte) : bool := Byte.eqb c "\".

(** [getline]: the bytes of the file up to the first newline, included. *)
Fixpoint getline (data : list byte) : list byte :=
  match data with
  | [] => []
  | c :: rest => if is_newline c then [c] else c :: getline rest
  end.

(** [while (i<n && (line[i]==' ' || line[i]=='\t')) ++i;] *)
Fixpoint skip_blanks (fuel : nat) (line : list byte) (i : nat) : nat :=
  match fuel with
  | O => i
  | S fuel' =>
      match line !! i with
      | Some c => if is_blank c then skip_blanks fuel' line (S i) else i
      | None => i
      end
  end.

(** [while (j<n && (line[j-1]=='\\' || (line[j]!=' ' && line[j]!='\t'
    && line[j]!='\n'))) ++j;] *)
Fixpoint end_of_path (fuel : nat) (line : list byte) (j : nat) : nat :=
  match fuel with
  | O => j
  | S fuel' =>
      match line !! j with
      | Some c =>
          if default false (is_backslash <$> line !! (j - 1)%nat)
             || negb (is_blank c || is_newline c)
          then end_of_path fuel' line (S j)
          else j
      | None => j
      end
  end.

(** A character array read as a C string: the bytes before the first zero. *)
Fixpoint until_nul (l : list byte) : list byte :=
  match l with
  | [] => []
  | c :: rest => if Byte.eqb c "000" then [] else c :: until_nul rest
  end.

(** The interpreter named on a line that begins with [#!]: [None] when
    [call_program] returns without naming one. *)
Definition shebang_interpreter (line : list byte) : option (list byte) :=
  let n := length line in
  let i := skip_blanks n line 2 in
  match line !! i with
  | None => None
  | Some c =>
      if is_newline c then None
      else
        let j := end_of_path n line i in
        Some (until_nul (take (j - i) (drop i line)))
  end.

(** What [call_program] asks [fexecve] to run for a file with the content
    [data]: the name it opens in the mirror and the argument vector;
    [None] when it returns without a call. *)
Definition call_program_request (data : list byte) (file : option string)
    (args : list (option string)) : option (option string * list string) :=
  let line := getline data in
  match line with
  | c0 :: c1 :: _ =>
      if Byte.eqb c0 "#" && Byte.eqb c1 "!" then
        match shebang_interpreter line with
        | None => None
        | Some path =>
            Some (Some (String.string_of_list_byte path),
                  String.string_of_list_byte path :: argv_of args)
        end
      else Some (file, argv_of args)
  | _ => Some (file, argv_of args)
  end.

(** *** [scriptfs.c]: the procedure [main] installs when no [-p] is given

    [main] leaves [filter] of the program unset; [program_shell] does not
    read it. *)
Definition default_procedure : Procedure :=
  {| program := {| prog_path := None; prog_args := None; prog_filearg := None;
                   prog_filter := 0; prog_func := Fprogram_shell |};
     test := Some {| test_path := None; test_args := None; test_filearg := None;
                     test_filter := 0; test_compiled := None;
                     test_func := Some Ftest_shell_executable |} |}.

(** * Properties *)

(** ** A concrete mirror for the examples

    The mirror holds a directory [d], the script [hello_script] of the
    README (mode 0755), the text file [hello_text] (mode 0644) and a file
    [locked] that nobody may read.  The server runs as user 1000 with its
    standard descriptors open and the mirror directory on descriptor 3. *)
Module Scenario.

Definition bytes (s : string) : list byte := String.list_byte_of_string s.
Definition nl : string := String (ascii_of_nat 10) EmptyString.

Definition file_node (type_bits perm : Z) (content : string) : Inode :=
  {| i_mode := Z.lor type_bits perm; i_uid := 1000; i_gid := 1000;
     i_data := bytes content; i_atim := (0, 0); i_mtim := (0, 0);
     i_target := EmptyString |}.

Definition hello_script : string :=
  String.append "#!/bin/bash" (String.append nl (String.append nl
    (String.append "echo Hi" nl))).

Definition hello_text : string :=
  String.append "A" (String.append nl (String.append "B" nl)).

Definition world (ps : list Procedure) (real_size : Z) : World :=
  {| persistent := {| mirror_fd := 3; procs := ps; return_real_size := real_size;
                      tmp_template := "/dev/shm/sfs.XXXXXX" |};
     errno := 0; w_uid := 1000; w_gid := 1000;
     w_names := list_to_map [("."%string, 1%positive); ("d"%string, 2%positive);
                             ("hello_script"%string, 3%positive);
                             ("hello_text"%string, 4%positive);
                             ("locked"%string, 5%positive)];
     w_inodes := list_to_map [(1%positive, file_node S_IFDIR 0x1ed EmptyString);
                              (2%positive, file_node S_IFDIR 0x1ed EmptyString);
                              (3%positive, file_node S_IFREG 0x1ed hello_script);
                              (4%positive, file_node S_IFREG 0x1a4 hello_text);
                              (5%positive, file_node S_IFREG 0 hello_text)];
     w_fds := list_to_map [(0, OPipe false); (1, OPipe true); (2, OPipe true);
                           (3, OFile 1 O_RDONLY 0)];
     w_heap := ∅; w_brk := 0x55550000;
     w_argv := list_to_map [(1%positive, [Some "/bin/echo"%string; Some "!"%string])];
     w_tmp_fault := None; w_seed := 0; w_trace := [] |}.

(** A child that prints [Hi] and exits with status 0, and one that cannot
    be started: it writes nothing and is ended by [abort]. *)
Definition child_hi (w : World) (x : Exec) : list byte * option Z :=
  (bytes (String.append "Hi" nl), Some 0).

Definition child_aborts (w : World) (x : Exec) : list byte * option Z :=
  ([], None).

(** The procedure of [-p "/bin/echo !;always"]: an external program with
    the file placeholder in cell 1 of its argument array, and the test
    [test_true]. *)
Definition echo_always : Procedure :=
  {| program := {| prog_path := Some "/bin/echo"%string; prog_args := Some 1%positive;
                   prog_filearg := Some 1%nat; prog_filter := 0;
                   prog_func := Fprogram_external |};
     test := Some {| test_path := None; test_args := None; test_filearg := None;
                     test_filter := 0; test_compiled := None;
                     test_func := Some Ftest_true |} |}.

(** The procedure of [-p "/bin/echo !"]: the same command line is the
    program and the test, and both use the argument array at address 1. *)
Definition echo_both : Procedure :=
  {| program := {| prog_path := Some "/bin/echo"%string; prog_args := Some 1%positive;
                   prog_filearg := Some 1%nat; prog_filter := 0;
                   prog_func := Fprogram_external |};
     test := Some {| test_path := Some "/bin/echo"%string; test_args := Some 1%positive;
                     test_filearg := Some 1%nat; test_filter := 0;
                     test_compiled := None; test_func := Some Ftest_program |} |}.

Definition no_stat : stat :=
  {| st_ino := 1; st_mode := 0; st_uid := 0; st_gid := 0; st_size := 0;
     st_atim := (0, 0); st_mtim := (0, 0) |}.

Definition read_only : fuse_file_info := {| flags := O_RDONLY; fh := 0; direct_io := 0 |}.

End Scenario.

(** ** [relative_path] *)

(** C9.  [relative_path] maps ["/"] to ["."], and every other path that
    starts with a slash to the same string without that slash; nothing else
    is changed: dot-dot components, repeated and trailing slashes stay. *)
Theorem relative_path_strips_leading_slash :
  relative_path (Some "/"%string) = Some "."%string
  /\ (forall (c : ascii) (rest : string),
        relative_path (Some (String "/" (String c rest))) = Some (String c rest))
  /\ relative_path (Some "/x/y"%string) = Some "x/y"%string
  /\ relative_path (Some "/a/../b//c/"%string) = Some "a/../b//c/"%string.
Proof.
  repeat split; try reflexivity.
Qed.

(** ** [get_script] *)

Section Classifier.

Variable child : World -> Exec -> list byte * option Z.

(** The tests of the procedures of [l], run in order from the state [w],
    all fail, and leave the state [w']. *)
Fixpoint none_match (l : list Procedure) (file : option string) (w w' : World) : Prop :=
  match l with
  | [] => w' = w
  | p :: rest =>
      exists w1, test_matches child p file w = Some (false, w1)
                 /\ none_match rest file w1 w'
  end.

(** What it is to be the first match of [procs]: [procs] splits around [p],
    no test before [p] matches, and the test of [p] does. *)
Definition first_match (procs : list Procedure) (file : option string)
    (w : World) (r : option Procedure) (w' : World) : Prop :=
  match r with
  | Some p =>
      exists before after w1,
        procs = before ++ p :: after
        /\ none_match before file w w1
        /\ test_matches child p file w1 = Some (true, w')
  | None => none_match procs file w w'
  end.

Lemma get_script_loop_found p l file w :
  get_script_loop child (Some p) l file w = Some (Some p, w).
Proof. destruct l; reflexivity. Qed.

Lemma get_script_loop_first_match l : forall file w r w',
  get_script_loop child None l file w = Some (r, w') <-> first_match l file w r w'.
Proof.
  induction l as [|p l IH]; intros file w r w'.
  - simpl. unfold ret. split.
    + intros [= <- <-]. reflexivity.
    + destruct r as [q|]; simpl.
      * intros (before & after & w1 & Hsplit & _). destruct before; discriminate.
      * intros ->. reflexivity.
  - cbn [get_script_loop]. unfold bind.
    destruct (test_matches child p file w) as [[[|] w1]|] eqn:Hp.
    + rewrite get_script_loop_found. split.
      * intros [= <- <-]. exists [], l, w. simpl. auto.
      * destruct r as [q|]; simpl.
        -- intros (before & after & w2 & Hsplit & Hnone & Hq).
           destruct before as [|p' before]; simpl in *.
           ++ injection Hsplit as -> ->. subst w2. congruence.
           ++ injection Hsplit as -> ->.
              destruct Hnone as (w3 & Hfalse & _). congruence.
        -- intros (w3 & Hfalse & _). congruence.
    + rewrite IH. split.
      * destruct r as [q|]; simpl.
        -- intros (before & after & w2 & -> & Hnone & Hq).
           exists (p :: before), after, w2. simpl. eauto.
        -- intros Hnone. eauto.
      * destruct r as [q|]; simpl.
        -- intros (before & after & w2 & Hsplit & Hnone & Hq).
           destruct before as [|p' before]; simpl in *.
           ++ injection Hsplit as -> ->. subst w2. congruence.
           ++ injection Hsplit as -> ->.
              destruct Hnone as (w3 & Hfalse & Hnone).
              assert (w3 = w1) as -> by congruence.
              exists before, after, w2. auto.
        -- intros (w3 & Hfalse & Hnone).
           assert (w3 = w1) as -> by congruence. exact Hnone.
    + split; [discriminate|].
      destruct r as [q|]; simpl.
      * intros (before & after & w2 & Hsplit & Hnone & Hq).
        destruct before as [|p' before]; simpl in *.
        -- injection Hsplit as -> ->. subst w2. congruence.
        -- injection Hsplit as -> ->. destruct Hnone as (w3 & Hfalse & _). congruence.
      * intros (w3 & Hfalse & _). congruence.
Qed.

(** C4.  [get_script] returns the first procedure, in list order, whose
    test matches, and none when no test matches.  In particular a procedure
    [p1] whose test matches is chosen whatever follows it, also when the
    test of a later [p2] would match as well. *)
Theorem get_script_first_match :
  (forall procs file w r w',
      get_script child procs file w = Some (r, w') <-> first_match procs file w r w')
  /\ (forall before p1 between p2 after file w w1 w',
        none_match before file w w1 ->
        test_matches child p1 file w1 = Some (true, w') ->
        get_script child (before ++ p1 :: between ++ p2 :: after) file w
        = Some (Some p1, w')).
Proof.
  split.
  - intros. apply get_script_loop_first_match.
  - intros before p1 between p2 after file w w1 w' Hnone Hp1.
    apply get_script_loop_first_match.
    exists before, (between ++ p2 :: after), w1. auto.
Qed.

End Classifier.

(** With the procedures [-p "/bin/echo !;always"] and the default one, in
    that order, [hello_script] matches both tests and gets the first. *)
Lemma get_script_first_match_witness :
  test_matches Scenario.child_hi default_procedure (Some "hello_script"%string)
    (Scenario.world [Scenario.echo_always; default_procedure] 0)
  = Some (true, Scenario.world [Scenario.echo_always; default_procedure] 0)
  /\ get_script Scenario.child_hi [Scenario.echo_always; default_procedure]
       (Some "hello_script"%string)
       (Scenario.world [Scenario.echo_always; default_procedure] 0)
     = Some (Some Scenario.echo_always,
             Scenario.world [Scenario.echo_always; default_procedure] 0).
Proof.
  split.
  - vm_compute. reflexivity.
  - apply (proj2 (get_script_first_match Scenario.child_hi)
             [] Scenario.echo_always [] default_procedure [] _ _ _ _ eq_refl).
    reflexivity.
Defined.

(** ** Reasoning about the computations

    Decomposition of a run of a computation into the runs of its steps, the
    effect of each system call on the state, and two facts used throughout:
    the tests of the classifier change nothing but [errno], the descriptor
    table, the argument arrays and the trace ([quiet]); and every
    computation but a null dereference has a result ([total]). *)

Lemma bind_Some {A B} (m : M A) (k : A -> M B) w b w' :
  bind m k w = Some (b, w') <-> exists a w1, m w = Some (a, w1) /\ k a w1 = Some (b, w').
Proof.
  unfold bind. destruct (m w) as [[a w1]|].
  - split; [eauto|]. intros (? & ? & [= <- <-] & ?). done.
  - split; [done|]. intros (? & ? & ? & ?). done.
Qed.

Lemma lowest_free_free (fds : gmap Z OpenFile) n : forall k : Z,
  (size (filter (fun kv : Z * OpenFile => (k <= kv.1)%Z) fds) <= n)%nat ->
  fds !! lowest_free fds n k = None.
Proof.
  induction n as [|n IH]; intros k Hsize; simpl.
  - destruct (fds !! k) as [v|] eqn:Hk; [|done].
    assert (filter (fun kv : Z * OpenFile => (k <= kv.1)%Z) fds !! k = Some v) as Hin.
    { apply map_lookup_filter_Some. split; [done|]. simpl. lia. }
    assert (size (filter (fun kv : Z * OpenFile => (k <= kv.1)%Z) fds) = 0%nat) as H0 by lia.
    apply map_size_empty_iff in H0. rewrite H0 in Hin. by rewrite lookup_empty in Hin.
  - destruct (fds !! k) as [v|] eqn:Hk; [|done].
    apply IH.
    assert (filter (fun kv : Z * OpenFile => (k + 1 <= kv.1)%Z) fds
            = delete k (filter (fun kv : Z * OpenFile => (k <= kv.1)%Z) fds)) as ->.
    { apply map_eq. intros j. apply option_eq. intros x.
      rewrite lookup_delete_Some, !map_lookup_filter_Some. simpl. intuition lia. }
    rewrite map_size_delete.
    assert (filter (fun kv : Z * OpenFile => (k <= kv.1)%Z) fds !! k = Some v) as ->.
    { apply map_lookup_filter_Some. split; [done|]. simpl. lia. }
    lia.
Qed.

Lemma lowest_free_ge (fds : gmap Z OpenFile) n : forall k, k <= lowest_free fds n k.
Proof.
  induction n as [|n IH]; intros k; simpl; [lia|].
  destruct (fds !! k); [|lia]. specialize (IH (k + 1)). lia.
Qed.

Lemma fresh_fd_free w : w_fds w !! fresh_fd w = None.
Proof.
  apply lowest_free_free. apply map_subseteq_size, map_filter_subseteq.
Qed.

Lemma fresh_fd_nonneg w : 0 <= fresh_fd w.
Proof. apply lowest_free_ge. Qed.

Definition err_only (w w' : World) : Prop := exists e, w' = set_errno e w.

Ltac run_prim H :=
  unfold fail_with in H; unfold bind, ret, gets, modify, fault in H; simpl in H;
  repeat (case_match; simplify_eq/=); simplify_eq/=; unfold err_only.

Lemma lookup_fd_Some w fd o : lookup_fd w fd = Some o <-> 0 <= fd /\ w_fds w !! fd = Some o.
Proof. unfold lookup_fd. destruct (Z.ltb_spec fd 0); intuition (try done; lia). Qed.

Lemma fstatat_spec name sb fl w r w' :
  fstatat name sb fl w = Some (r, w') -> (r.1 = 0 /\ w' = w) \/ (r = (-1, sb) /\ err_only w w').
Proof. unfold fstatat. intros H. run_prim H; eauto. Qed.

Lemma fstat_spec fd sb w r w' :
  fstat fd sb w = Some (r, w') -> (r.1 = 0 /\ w' = w) \/ (r = (-1, sb) /\ err_only w w').
Proof. unfold fstat. intros H. run_prim H; eauto. Qed.

Lemma faccessat_spec name mask w r w' :
  faccessat name mask w = Some (r, w') -> w' = w \/ err_only w w'.
Proof. unfold faccessat. intros H. run_prim H; eauto. Qed.

Lemma openat_spec name fl w r w' :
  openat name fl w = Some (r, w') ->
  (r = -1 /\ err_only w w')
  \/ (exists ino, 0 <= r /\ w_fds w !! r = None
                  /\ w' = set_fds (<[r := OFile ino fl 0]> (w_fds w)) w).
Proof.
  unfold openat. intros H. run_prim H; eauto;
    right; eexists; (split; [apply fresh_fd_nonneg|]); (split; [apply fresh_fd_free|done]).
Qed.

Lemma close_spec fd w r w' :
  close fd w = Some (r, w') ->
  err_only w w' \/ w' = set_fds (delete fd (w_fds w)) w.
Proof. unfold close. intros H. run_prim H; eauto. Qed.

Lemma fsync_spec fd w r w' :
  fsync fd w = Some (r, w') -> w' = w \/ err_only w w'.
Proof. unfold fsync. intros H. run_prim H; eauto. Qed.

Lemma pipe_spec w r w' :
  pipe w = Some (r, w') ->
  0 <= r.1 /\ 0 <= r.2 /\ r.1 <> r.2
  /\ w_fds w !! r.1 = None /\ w_fds w !! r.2 = None
  /\ w' = set_fds (<[r.2 := OPipe true]> (<[r.1 := OPipe false]> (w_fds w))) w.
Proof.
  unfold pipe. intros H. run_prim H.
  set (w1 := set_fds (<[fresh_fd w := OPipe false]> (w_fds w)) w).
  pose proof (fresh_fd_free w) as F1. pose proof (fresh_fd_free w1) as F2.
  pose proof (fresh_fd_nonneg w). pose proof (fresh_fd_nonneg w1).
  assert (fresh_fd w <> fresh_fd w1) as Hne.
  { intros Heq. rewrite <- Heq in F2. subst w1. simpl in F2.
    by rewrite lookup_insert_eq in F2. }
  repeat split; try done.
  subst w1. simpl in F2. by rewrite lookup_insert_ne in F2.
Qed.

Lemma read_spec fd n w r w' :
  read fd n w = Some (r, w') ->
  err_only w w' \/ w' = w
  \/ (exists ino fl pos k, lookup_fd w fd = Some (OFile ino fl pos)
        /\ w' = set_fds (<[fd := OFile ino fl k]> (w_fds w)) w).
Proof. unfold read. intros H. run_prim H; eauto 10. Qed.

Lemma write_spec fd buf w r w' :
  write fd buf w = Some (r, w') ->
  err_only w w' \/ w' = w
  \/ (exists ino fl pos k nd d,
        lookup_fd w fd = Some (OFile ino fl pos) /\ w_inodes w !! ino = Some nd
        /\ w' = set_fds (<[fd := OFile ino fl k]> (w_fds w))
                  (set_inodes (<[ino := with_data d nd]> (w_inodes w)) w)).
Proof. unfold write. intros H. run_prim H; eauto 12. Qed.

Lemma change_fd_spec fd f w r w' :
  change_fd fd f w = Some (r, w') ->
  err_only w w' \/ w' = w
  \/ (exists ino fl pos nd,
        lookup_fd w fd = Some (OFile ino fl pos) /\ w_inodes w !! ino = Some nd
        /\ w' = set_inodes (<[ino := f nd]> (w_inodes w)) w).
Proof. unfold change_fd, change_inode. intros H. run_prim H; eauto 12. Qed.

Lemma unlink_spec name w r w' :
  unlink name w = Some (r, w') ->
  err_only w w' \/ (exists n, name = Some n /\ w' = set_names (delete n (w_names w)) w).
Proof. unfold unlink. intros H. run_prim H; eauto. Qed.

Lemma set_cell_spec a i v w r w' :
  set_cell a i v w = Some (r, w') -> exists s, w' = set_argv s w.
Proof. unfold set_cell. intros H. run_prim H; eauto. Qed.

Arguments tmp_suffix : simpl never.

Lemma first_free_name_free names prefix fuel : forall n nm k,
  first_free_name names prefix fuel n = Some (nm, k) -> names !! nm = None.
Proof.
  induction fuel as [|fuel IH]; intros n nm k; cbn [first_free_name]; [done|].
  destruct (names !! String.append prefix (tmp_suffix 6 n)) eqn:E.
  - apply IH.
  - intros [= <- <-]. exact E.
Qed.

Arguments first_free_name : simpl never.

Lemma mkstemp_spec template w r w' :
  mkstemp template w = Some (r, w') ->
  (r.1 = -1 /\ exists e, 0 < e /\ w' = set_errno e w)
  \/ (exists ino n,
        0 <= r.1 /\ w_fds w !! r.1 = None
        /\ w_inodes w !! ino = None /\ w_names w !! r.2 = None
        /\ w' = set_seed n
                  (set_fds (<[r.1 := OFile ino O_RDWR 0]> (w_fds w))
                     (set_names (<[r.2 := ino]> (w_names w))
                        (set_inodes (<[ino := new_file w]> (w_inodes w)) w)))).
Proof.
  unfold mkstemp. intros H. run_prim H;
    try (left; split; [done|]; eexists; split; [|done]; unfold EINVAL, EEXIST; lia).
  right. exists (fresh (dom (w_inodes w))). eexists.
  split; [apply fresh_fd_nonneg|]. split; [apply fresh_fd_free|].
  split; [apply not_elem_of_dom, is_fresh|]. split; [|done].
  eapply first_free_name_free; eauto.
Qed.

(** ret and friends *)
Lemma ret_Some {A} (a : A) w b w' : ret a w = Some (b, w') <-> b = a /\ w' = w.
Proof. unfold ret. split; [intros [= <- <-]; done | intros [-> ->]; done]. Qed.

Lemma gets_Some {A} (f : World -> A) w b w' : gets f w = Some (b, w') <-> b = f w /\ w' = w.
Proof. unfold gets. split; [intros [= <- <-]; done | intros [-> ->]; done]. Qed.

Lemma modify_Some f w b w' : modify f w = Some (b, w') <-> w' = f w.
Proof. unfold modify. split; [intros [= <- <-]; done | intros ->; by destruct b]. Qed.

Tactic Notation "mstep" hyp(H) "as" ident(a) ident(w1) ident(H1) :=
  apply bind_Some in H; destruct H as (a & w1 & H1 & H).

Ltac mret H :=
  first [ apply ret_Some in H | apply gets_Some in H ]; destruct H as [? ?]; subst;
  cbv [id] in *.

Ltac mmod H := apply modify_Some in H; subst.

Record quiet (w w' : World) : Prop := {
  q_persistent : persistent w' = persistent w;
  q_uid : w_uid w' = w_uid w;
  q_gid : w_gid w' = w_gid w;
  q_names : w_names w' = w_names w;
  q_inodes : w_inodes w' = w_inodes w;
  q_heap : w_heap w' = w_heap w;
  q_brk : w_brk w' = w_brk w;
  q_fault : w_tmp_fault w' = w_tmp_fault w;
  q_seed : w_seed w' = w_seed w
}.

Lemma quiet_refl w : quiet w w.
Proof. by split. Qed.

Lemma quiet_trans w1 w2 w3 : quiet w1 w2 -> quiet w2 w3 -> quiet w1 w3.
Proof. intros [] []. split; congruence. Qed.

Lemma quiet_errno e w : quiet w (set_errno e w).
Proof. by split. Qed.
Lemma quiet_fds f w : quiet w (set_fds f w).
Proof. by split. Qed.
Lemma quiet_argv a w : quiet w (set_argv a w).
Proof. by split. Qed.
Lemma quiet_trace t w : quiet w (set_trace t w).
Proof. by split. Qed.

Create HintDb quiet.
#[local] Hint Resolve quiet_refl quiet_errno quiet_fds quiet_argv quiet_trace : quiet.

Ltac quiet_of H lem :=
  apply lem in H; unfold err_only in H;
  repeat match goal with
         | H : _ \/ _ |- _ => destruct H
         | H : _ /\ _ |- _ => destruct H
         | H : exists _, _ |- _ => destruct H
         end; subst; auto with quiet.

Lemma fstatat_quiet name sb fl w r w' : fstatat name sb fl w = Some (r, w') -> quiet w w'.
Proof. intros H. quiet_of H fstatat_spec. Qed.
Lemma fstat_quiet fd sb w r w' : fstat fd sb w = Some (r, w') -> quiet w w'.
Proof. intros H. quiet_of H fstat_spec. Qed.
Lemma faccessat_quiet name mask w r w' : faccessat name mask w = Some (r, w') -> quiet w w'.
Proof. intros H. quiet_of H faccessat_spec. Qed.
Lemma openat_quiet name fl w r w' : openat name fl w = Some (r, w') -> quiet w w'.
Proof. intros H. quiet_of H openat_spec. Qed.
Lemma close_quiet fd w r w' : close fd w = Some (r, w') -> quiet w w'.
Proof. intros H. quiet_of H close_spec. Qed.
Lemma fsync_quiet fd w r w' : fsync fd w = Some (r, w') -> quiet w w'.
Proof. intros H. quiet_of H fsync_spec. Qed.
Lemma pipe_quiet w r w' : pipe w = Some (r, w') -> quiet w w'.
Proof. intros H. quiet_of H pipe_spec. Qed.
Lemma read_quiet fd n w r w' : read fd n w = Some (r, w') -> quiet w w'.
Proof. intros H. quiet_of H read_spec. Qed.
Lemma set_cell_quiet a i v w r w' : set_cell a i v w = Some (r, w') -> quiet w w'.
Proof. intros H. quiet_of H set_cell_spec. Qed.

Lemma write_pipe_quiet fd buf w r w' b :
  lookup_fd w fd = Some (OPipe b) -> write fd buf w = Some (r, w') -> quiet w w'.
Proof. intros Hp H. quiet_of H write_spec. congruence. Qed.

(** The binding of a descriptor after a step. *)
Lemma read_keeps_pipe fd n w r w' wr b :
  lookup_fd w wr = Some (OPipe b) -> read fd n w = Some (r, w') ->
  lookup_fd w' wr = Some (OPipe b).
Proof.
  intros Hp H. apply read_spec in H as [[e ->]|[->|(ino & fl & pos & k & Hfd & ->)]]; try done.
  unfold lookup_fd in *. simpl. destruct (wr <? 0); [done|].
  destruct (decide (fd = wr)) as [->|Hne].
  - destruct (wr <? 0); congruence.
  - by rewrite lookup_insert_ne.
Qed.

Lemma write_keeps_pipe fd buf w r w' wr b :
  lookup_fd w wr = Some (OPipe b) -> write fd buf w = Some (r, w') ->
  lookup_fd w' wr = Some (OPipe b).
Proof.
  intros Hp H.
  apply write_spec in H as [[e ->]|[->|(ino & fl & pos & k & nd & d & Hfd & Hnd & ->)]]; try done.
  unfold lookup_fd in *. simpl. destruct (wr <? 0); [done|].
  destruct (decide (fd = wr)) as [->|Hne].
  - destruct (wr <? 0); congruence.
  - by rewrite lookup_insert_ne.
Qed.

Lemma lookup_fd_set_errno e w fd : lookup_fd (set_errno e w) fd = lookup_fd w fd.
Proof. done. Qed.

Lemma lookup_fd_insert_ne w fd fd' o :
  fd <> fd' -> lookup_fd (set_fds (<[fd := o]> (w_fds w)) w) fd' = lookup_fd w fd'.
Proof. intros. unfold lookup_fd. simpl. by rewrite lookup_insert_ne. Qed.

Lemma lookup_fd_insert_eq w fd o :
  0 <= fd -> lookup_fd (set_fds (<[fd := o]> (w_fds w)) w) fd = Some o.
Proof.
  intros. unfold lookup_fd. simpl. rewrite lookup_insert_eq.
  destruct (Z.ltb_spec fd 0); [lia|done].
Qed.

Lemma lookup_fd_delete_ne w fd fd' :
  fd <> fd' -> lookup_fd (set_fds (delete fd (w_fds w)) w) fd' = lookup_fd w fd'.
Proof. intros. unfold lookup_fd. simpl. by rewrite lookup_delete_ne. Qed.

Lemma lookup_fd_None_of w fd : w_fds w !! fd = None -> lookup_fd w fd = None.
Proof. unfold lookup_fd. intros ->. by destruct (fd <? 0). Qed.

Lemma close_keeps fd w r w' fd' o :
  fd <> fd' -> lookup_fd w fd' = Some o -> close fd w = Some (r, w') ->
  lookup_fd w' fd' = Some o.
Proof.
  intros Hne Hb H. apply close_spec in H as [[e ->]| ->]; [done|].
  by rewrite lookup_fd_delete_ne.
Qed.

Lemma openat_keeps name fl w r w' fd' o :
  lookup_fd w fd' = Some o -> openat name fl w = Some (r, w') ->
  lookup_fd w' fd' = Some o /\ r <> fd'.
Proof.
  intros Hb H. apply lookup_fd_Some in Hb as Hb'. destruct Hb' as [Hpos Hb'].
  apply openat_spec in H as [[-> [e ->]]|(ino & Hr & Hfree & ->)].
  - split; [done|lia].
  - assert (r <> fd') by congruence. by rewrite lookup_fd_insert_ne.
Qed.

Section Frames.

Variable child : World -> Exec -> list byte * option Z.

Lemma feed_pipe_quiet fuel : forall inf wr sent w r w',
  lookup_fd w wr = Some (OPipe true) ->
  feed_pipe fuel inf wr sent w = Some (r, w') -> quiet w w'.
Proof.
  induction fuel as [|fuel IH]; intros inf wr sent w r w' Hp H; simpl in H.
  - mret H. apply quiet_refl.
  - mstep H as rd w1 Hrd. mstep H as wrote w2 Hwr.
    pose proof (read_quiet _ _ _ _ _ Hrd) as Q1.
    pose proof (read_keeps_pipe _ _ _ _ _ _ _ Hp Hrd) as P1.
    destruct (0 <? rd.1).
    + pose proof (write_pipe_quiet _ _ _ _ _ _ P1 Hwr) as Q2.
      pose proof (write_keeps_pipe _ _ _ _ _ _ _ P1 Hwr) as P2.
      eapply quiet_trans; [exact Q1|]. eapply quiet_trans; [exact Q2|]. eauto.
    + mret Hwr. mret H. exact Q1.
Qed.

Lemma execute_program_quiet file args path_in w r w' :
  execute_program child file args 0 path_in w = Some (r, w') -> quiet w w'.
Proof.
  unfold execute_program. intros H. mstep H as stdin w0 Hin.
  assert (quiet w w0) as Q0.
  { destruct path_in as [p|].
    - mstep Hin as fds w1 Hpipe. mstep Hin as c1 w2 Hc1. mstep Hin as inf w3 Hopen.
      mstep Hin as sent w4 Hfeed. mstep Hin as sy w45 Hsync.
      mstep Hin as c2 w5 Hc2. mret Hin.
      apply pipe_spec in Hpipe as Hp.
      destruct Hp as (Hr & Hwr & Hne & Fr & Fwr & ->).
      assert (lookup_fd (set_fds (<[fds.2:=OPipe true]> (<[fds.1:=OPipe false]> (w_fds w))) w) fds.2
              = Some (OPipe true)) as P0.
      { unfold lookup_fd. simpl. rewrite lookup_insert_eq.
        destruct (Z.ltb_spec fds.2 0); [lia|done]. }
      pose proof (close_keeps _ _ _ _ _ _ Hne P0 Hc1) as P1.
      pose proof (openat_keeps _ _ _ _ _ _ _ P1 Hopen) as [P2 _].
      eapply quiet_trans; [apply quiet_fds|].
      eapply quiet_trans; [eapply close_quiet; eauto|].
      eapply quiet_trans; [eapply openat_quiet; eauto|].
      assert (quiet w3 w4) as Q4.
      { destruct (inf <? 0).
        - mret Hfeed. apply quiet_refl.
        - mstep Hfeed as wc w6 Hg. mret Hg.
          eapply feed_pipe_quiet; eauto. }
      eapply quiet_trans; [exact Q4|].
      eapply quiet_trans; [eapply fsync_quiet; eauto|].
      eapply close_quiet; eauto.
    - mret Hin. apply quiet_refl. }
  mstep H as wc w1 Hg. mret Hg.
  mstep H as u1 w2 Hm1. mstep H as u2 w3 Hm2.
  mmod Hm1. mmod Hm2. simpl in *.
  eapply quiet_trans; [exact Q0|].
  destruct (child w0 _).2; mret H; apply quiet_trace.
Qed.

Lemma test_shell_quiet t file w r w' :
  test_shell t file w = Some (r, w') -> quiet w w'.
Proof.
  unfold test_shell. intros H. mstep H as fd w1 Hopen. mstep H as wc w2 Hg. mret Hg.
  pose proof (openat_quiet _ _ _ _ _ Hopen) as Q1.
  destruct (lookup_fd w1 fd).
  - mstep H as rd w2 Hrd. mstep H as c w3 Hc.
    eapply quiet_trans; [exact Q1|].
    eapply quiet_trans; [eapply read_quiet; eauto|].
    eapply quiet_trans; [eapply close_quiet; eauto|].
    repeat case_match; mret H; apply quiet_refl.
  - mret H. exact Q1.
Qed.

Lemma test_executable_quiet t file w r w' :
  test_executable t file w = Some (r, w') -> quiet w w'.
Proof.
  unfold test_executable. intros H. mstep H as c w1 Hc. mret H.
  eapply faccessat_quiet; eauto.
Qed.

Lemma test_program_quiet t file w r w' :
  test_program child t file w = Some (r, w') -> quiet w w'.
Proof.
  unfold test_program. intros H.
  mstep H as u1 w1 Hs1. mstep H as wc w2 Hg. mret Hg.
  mstep H as code w3 Hx. mstep H as u2 w4 Hs2.
  assert (w' = w4) as -> by (apply ret_Some in H; tauto). clear H.
  assert (quiet w w1) as Q1.
  { destruct (test_args t), (test_filearg t); try (mret Hs1; apply quiet_refl).
    eapply set_cell_quiet; eauto. }
  assert (quiet w3 w4) as Q3.
  { destruct (test_args t), (test_filearg t); try (mret Hs2; apply quiet_refl).
    eapply set_cell_quiet; eauto. }
  eapply quiet_trans; [exact Q1|].
  eapply quiet_trans; [eapply execute_program_quiet; eauto|]. exact Q3.
Qed.

Lemma call_test_quiet f t file w r w' :
  call_test child f t file w = Some (r, w') -> quiet w w'.
Proof.
  destruct f; simpl; intros H.
  - mret H. apply quiet_refl.
  - mret H. apply quiet_refl.
  - eapply test_shell_quiet; eauto.
  - eapply test_executable_quiet; eauto.
  - unfold test_shell_executable in H. mstep H as s w1 Hs.
    pose proof (test_shell_quiet _ _ _ _ _ Hs) as Q1.
    destruct (negb (s =? 0)).
    + mret H. exact Q1.
    + mstep H as e w2 He. mret H.
      eapply quiet_trans; [exact Q1|]. eapply test_executable_quiet; eauto.
  - unfold test_pattern in H. destruct (test_compiled t); [|mret H; apply quiet_refl].
    destruct file; [|discriminate]. mret H. apply quiet_refl.
  - eapply test_program_quiet; eauto.
Qed.

Lemma test_matches_quiet p file w r w' :
  test_matches child p file w = Some (r, w') -> quiet w w'.
Proof.
  unfold test_matches. intros H.
  destruct (test p) as [t|]; [|mret H; apply quiet_refl].
  destruct (test_func t) as [f|]; [|mret H; apply quiet_refl].
  mstep H as c w1 Hc. mret H. eapply call_test_quiet; eauto.
Qed.

Lemma get_script_loop_quiet l : forall res file w r w',
  get_script_loop child res l file w = Some (r, w') -> quiet w w'.
Proof.
  induction l as [|p l IH]; intros res file w r w' H.
  - destruct res; mret H; apply quiet_refl.
  - destruct res as [q|]; [mret H; apply quiet_refl|].
    cbn [get_script_loop] in H. mstep H as hit w1 Hhit.
    eapply quiet_trans; [eapply test_matches_quiet; eauto|]. eauto.
Qed.

Lemma get_script_quiet procs file w r w' :
  get_script child procs file w = Some (r, w') -> quiet w w'.
Proof. apply get_script_loop_quiet. Qed.

End Frames.

(** Totality *)
Definition total {A} (m : M A) : Prop := forall w, exists a w', m w = Some (a, w').

Lemma total_ret {A} (a : A) : total (ret a).
Proof. intros w. by exists a, w. Qed.
Lemma total_gets {A} (f : World -> A) : total (gets f).
Proof. intros w. by exists (f w), w. Qed.
Lemma total_modify f : total (modify f).
Proof. intros w. by exists tt, (f w). Qed.
Lemma total_bind {A B} (m : M A) (k : A -> M B) :
  total m -> (forall a, total (k a)) -> total (bind m k).
Proof.
  intros Hm Hk w. destruct (Hm w) as (a & w1 & E). destruct (Hk a w1) as (b & w2 & E2).
  exists b, w2. unfold bind. by rewrite E.
Qed.
Lemma total_fail_with {A} e (r : A) : total (fail_with e r).
Proof. unfold fail_with. apply total_bind; [apply total_modify|intros; apply total_ret]. Qed.

Create HintDb total.
#[local] Hint Resolve total_ret total_gets total_modify total_fail_with : total.

Ltac total_tac :=
  repeat first
    [ solve [auto with total]
    | apply total_bind; [|intros]
    | progress cbv zeta
    | case_match ].

Lemma total_fstatat n sb fl : total (fstatat n sb fl).
Proof. unfold fstatat. total_tac. Qed.
Lemma total_fstat fd sb : total (fstat fd sb).
Proof. unfold fstat. total_tac. Qed.
Lemma total_faccessat n m : total (faccessat n m).
Proof. unfold faccessat. total_tac. Qed.
Lemma total_openat n fl : total (openat n fl).
Proof. unfold openat. total_tac. Qed.
Lemma total_close fd : total (close fd).
Proof. unfold close. total_tac. Qed.
Lemma total_pipe : total pipe.
Proof. unfold pipe. total_tac. Qed.
Lemma total_read fd n : total (read fd n).
Proof. unfold read. total_tac. Qed.
Lemma total_write fd b : total (write fd b).
Proof. unfold write. total_tac. Qed.
Lemma total_lseek fd o : total (lseek fd o).
Proof. unfold lseek. total_tac. Qed.
Lemma total_fsync fd : total (fsync fd).
Proof. unfold fsync. total_tac. Qed.
Lemma total_change_inode i f : total (change_inode i f).
Proof. unfold change_inode. total_tac. Qed.
#[local] Hint Resolve total_change_inode : total.
Lemma total_change_path n f : total (change_path n f).
Proof. unfold change_path. total_tac. Qed.
Lemma total_change_fd fd f : total (change_fd fd f).
Proof. unfold change_fd. total_tac. Qed.
Lemma total_ftruncate fd n : total (ftruncate fd n).
Proof. unfold ftruncate. total_tac. Qed.
Lemma total_unlink n : total (unlink n).
Proof. unfold unlink. total_tac. Qed.
Lemma total_mkstemp t : total (mkstemp t).
Proof. unfold mkstemp. total_tac. Qed.
Lemma total_new_FileStruct v : total (new_FileStruct v).
Proof. unfold new_FileStruct. total_tac. Qed.
Lemma total_set_cell a i v : total (set_cell a i v).
Proof. unfold set_cell. total_tac. Qed.
#[local] Hint Resolve total_fstatat total_fstat total_faccessat total_openat total_close
  total_pipe total_read total_write total_lseek total_fsync total_change_path total_change_fd
  total_ftruncate total_unlink total_mkstemp total_new_FileStruct total_set_cell : total.
#[local] Hint Extern 1 (total (fchmod _ _)) => apply total_change_fd : total.
#[local] Hint Extern 1 (total (futimens _ _)) => apply total_change_fd : total.
#[local] Hint Extern 1 (total (fchmodat _ _)) => apply total_change_path : total.
#[local] Hint Extern 1 (total (utimensat _ _)) => apply total_change_path : total.

Section Totality.
Variable child : World -> Exec -> list byte * option Z.

Lemma total_feed_pipe fuel : forall inf wr sent, total (feed_pipe fuel inf wr sent).
Proof. induction fuel; intros; simpl; total_tac. Qed.
Lemma total_copy_loop fuel : forall fin fout, total (copy_loop fuel fin fout).
Proof. induction fuel; intros; simpl; total_tac. Qed.
#[local] Hint Resolve total_feed_pipe total_copy_loop : total.
Lemma total_execute_program file args out path_in :
  total (execute_program child file args out path_in).
Proof. unfold execute_program. total_tac. Qed.
Lemma total_temp_copy file : total (temp_copy file).
Proof. unfold temp_copy. total_tac. Qed.
#[local] Hint Resolve total_execute_program total_temp_copy : total.
Lemma total_program_shell p file fd : total (program_shell child p file fd).
Proof. unfold program_shell. total_tac. Qed.
Lemma total_program_external p file fd : total (program_external child p file fd).
Proof. unfold program_external. total_tac. Qed.
Lemma total_call_program_func f p file fd : total (call_program_func child f p file fd).
Proof. destruct f; [apply total_program_shell|apply total_program_external]. Qed.
#[local] Hint Resolve total_call_program_func : total.
Lemma total_run_script relative proc fi : total (run_script child relative proc fi).
Proof. unfold run_script. total_tac. Qed.
End Totality.

Arguments relative_path : simpl never.
Arguments get_script : simpl never.

Lemma bind_run {A B} (m : M A) (k : A -> M B) w a w1 :
  m w = Some (a, w1) -> bind m k w = k a w1.
Proof. unfold bind. by intros ->. Qed.

(** ** Paths that name a file of the mirror *)

(** [name] resolves to the inode [ino], whose content is [nd]. *)
Definition resolves (w : World) (follow : bool) (name : option string)
    (ino : positive) (nd : Inode) : Prop :=
  namei w follow name = inr ino /\ w_inodes w !! ino = Some nd.

Lemma fstatat_resolves w fl name sb ino nd :
  resolves w (Z.land fl AT_SYMLINK_NOFOLLOW =? 0) name ino nd ->
  fstatat name sb fl w = Some ((0, stat_of ino nd), w).
Proof. intros [Hn Hi]. unfold fstatat, bind, gets. simpl. by rewrite Hn, Hi. Qed.

Lemma namei_quiet w w' follow name :
  quiet w w' -> namei w' follow name = namei w follow name.
Proof.
  intros Q. destruct Q as [_ _ _ Qn Qi _ _ _ _]. destruct name as [n|]; [|done]. simpl.
  generalize 40%nat. intros fuel. revert n.
  induction fuel as [|fuel IH]; intros n; simpl; rewrite Qn, Qi;
    repeat case_match; eauto.
Qed.

Lemma resolves_quiet w w' follow name ino nd :
  quiet w w' -> resolves w follow name ino nd -> resolves w' follow name ino nd.
Proof.
  intros Q [Hn Hi]. split; [by rewrite (namei_quiet _ _ _ _ Q)|].
  destruct Q. congruence.
Qed.

Lemma write_bits_cleared m : Z.land (Z.land m (Z.lnot S_IWALL)) S_IWALL = 0.
Proof.
  rewrite <- Z.land_assoc. replace (Z.land (Z.lnot S_IWALL) S_IWALL) with 0 by reflexivity.
  apply Z.land_0_r.
Qed.

Lemma other_bits_kept m n :
  0 <= n -> Z.testbit S_IWALL n = false ->
  Z.testbit (Z.land m (Z.lnot S_IWALL)) n = Z.testbit m n.
Proof.
  intros Hn Hb. rewrite Z.land_spec, Z.lnot_spec by done. rewrite Hb. apply andb_true_r.
Qed.

Lemma with_mode_no_write_bits mode nd :
  Z.land (i_mode (with_mode (Z.land mode (Z.lnot S_IWALL)) nd)) S_IWALL = 0.
Proof.
  simpl. rewrite Z.land_lor_distr_l.
  rewrite <- (Z.land_assoc (i_mode nd)). replace (Z.land S_IFMT S_IWALL) with 0 by reflexivity.
  rewrite Z.land_0_r, Z.lor_0_l.
  rewrite (Z.land_comm _ 0xFFF), <- Z.land_assoc, write_bits_cleared. apply Z.land_0_r.
Qed.

Section WriteProtection.

Variable child : World -> Exec -> list byte * option Z.
Variable FILENAME_MAX_LENGTH : nat.

(** C1 (as amended).  Let the classifier match [path].  Opening it with
    [O_WRONLY] or [O_RDWR] fails with [EACCES], whatever [path] names.  When
    [path] names a regular file of the mirror, [sfs_truncate] and
    [sfs_utimens] by path fail with [EACCES] too.  The state after the
    failed call is the one the classifier left: the names and the inodes of
    the mirror are those of before the call. *)
Theorem scripts_refuse_writes (path : string) (w : World) (proc : Procedure) (w1 : World) :
  get_script child (procs (persistent w)) (relative_path (Some path)) w
    = Some (Some proc, w1) ->
  (forall fi, Z.land (flags fi) O_WRONLY <> 0 \/ Z.land (flags fi) O_RDWR <> 0 ->
      sfs_open child FILENAME_MAX_LENGTH (Some path) fi w = Some ((- EACCES, fi), w1))
  /\ (forall ino nd, resolves w true (relative_path (Some path)) ino nd ->
        S_ISREG (i_mode nd) = true ->
        (forall size fi, sfs_truncate child (Some path) size fi w = Some (- EACCES, w1))
        /\ (forall ts fi, sfs_utimens child (Some path) ts fi w = Some (- EACCES, w1)))
  /\ w_names w1 = w_names w /\ w_inodes w1 = w_inodes w.
Proof.
  intros Hget. split; [|split].
  - intros fi Hfl. unfold sfs_open, bind, gets. simpl. rewrite Hget.
    assert (negb (Z.land (flags fi) O_WRONLY =? 0) || negb (Z.land (flags fi) O_RDWR =? 0) = true) as ->.
    { destruct Hfl as [H|H]; apply Z.eqb_neq in H; rewrite H; simpl; [done|apply orb_true_r]. }
    reflexivity.
  - intros ino nd Hres Hreg. split; intros.
    + unfold sfs_truncate, bind, gets. simpl.
      rewrite (fstatat_resolves w 0 _ _ ino nd Hres). simpl. rewrite Hreg, Hget. reflexivity.
    + unfold sfs_utimens, bind, gets. simpl.
      rewrite (fstatat_resolves w 0 _ _ ino nd Hres). simpl. rewrite Hreg, Hget. reflexivity.
  - apply get_script_quiet in Hget as []. done.
Qed.

End WriteProtection.

Lemma scripts_refuse_writes_witness :
  sfs_open Scenario.child_hi 4096 (Some "/hello_script"%string)
    {| flags := O_WRONLY; fh := 0; direct_io := 0 |}
    (Scenario.world [default_procedure] 0)
  = Some ((- EACCES, {| flags := O_WRONLY; fh := 0; direct_io := 0 |}),
          Scenario.world [default_procedure] 0)
  /\ sfs_truncate Scenario.child_hi (Some "/hello_script"%string) 0 None
       (Scenario.world [default_procedure] 0)
     = Some (- EACCES, Scenario.world [default_procedure] 0)
  /\ sfs_utimens Scenario.child_hi (Some "/hello_script"%string) ((5, 0), (6, 0)) None
       (Scenario.world [default_procedure] 0)
     = Some (- EACCES, Scenario.world [default_procedure] 0).
Proof.
  assert (get_script Scenario.child_hi
            (procs (persistent (Scenario.world [default_procedure] 0)))
            (relative_path (Some "/hello_script"%string))
            (Scenario.world [default_procedure] 0)
          = Some (Some default_procedure, Scenario.world [default_procedure] 0)) as Hget
    by (vm_compute; reflexivity).
  destruct (scripts_refuse_writes Scenario.child_hi 4096 _ _ _ _ Hget)
    as (Hopen & Hpath & _).
  split; [apply Hopen; left; discriminate|].
  destruct (Hpath 3%positive
              (Scenario.file_node S_IFREG 0x1ed Scenario.hello_script))
    as [Htr Hut]; [split; vm_compute; reflexivity | reflexivity |].
  split; [apply Htr | apply Hut].
Defined.

(** C1 as stated fails on a path that is not a regular file.  The default
    procedure matches the directory [d] (it is executable); [sfs_utimens] on
    it succeeds and changes its modification time, and [sfs_truncate]
    answers [EBADF]. *)
Lemma utimens_on_matched_directory :
  exists w1 w2 w3,
    get_script Scenario.child_hi [default_procedure] (relative_path (Some "/d"%string))
      (Scenario.world [default_procedure] 0) = Some (Some default_procedure, w1)
    /\ sfs_utimens Scenario.child_hi (Some "/d"%string) ((5, 0), (6, 0)) None
         (Scenario.world [default_procedure] 0) = Some (0, w2)
    /\ i_mtim <$> w_inodes (Scenario.world [default_procedure] 0) !! 2%positive
       = Some (0, 0)
    /\ i_mtim <$> w_inodes w2 !! 2%positive = Some (6, 0)
    /\ sfs_truncate Scenario.child_hi (Some "/d"%string) 0 None
         (Scenario.world [default_procedure] 0) = Some (- EBADF, w3).
Proof.
  do 3 eexists. repeat split; vm_compute; reflexivity.
Qed.

Section Chmod.

Variable child : World -> Exec -> list byte * option Z.

Lemma owner_or_root_quiet w w' nd : quiet w w' -> owner_or_root w' nd = owner_or_root w nd.
Proof. intros []. unfold owner_or_root. congruence. Qed.

(** C2 (as amended).  For a regular file of the mirror that the classifier
    matches, [sfs_chmod] by path with a mode that has a write bit does not
    fail with [EACCES]: it clears the three write bits of the requested mode
    and applies the rest with [fchmodat].  When the server owns the file (or
    is root) the call returns 0 and the file gets that mode, which has no
    write bit; otherwise [fchmodat] fails and the call returns [-EPERM]. *)
Theorem chmod_on_script_strips_write_bits (path : string) (mode : Z)
    (fi : option fuse_file_info) (w : World) (ino : positive) (nd : Inode)
    (proc : Procedure) (w1 : World) :
  resolves w true (relative_path (Some path)) ino nd ->
  S_ISREG (i_mode nd) = true ->
  Z.land mode S_IWALL <> 0 ->
  get_script child (procs (persistent w)) (relative_path (Some path)) w
    = Some (Some proc, w1) ->
  sfs_chmod child (Some path) mode fi w
  = (if owner_or_root w nd
     then Some (0, set_inodes
                     (<[ino := with_mode (Z.land mode (Z.lnot S_IWALL)) nd]> (w_inodes w1))
                     w1)
     else Some (- EPERM, set_errno EPERM w1))
  /\ Z.land (i_mode (with_mode (Z.land mode (Z.lnot S_IWALL)) nd)) S_IWALL = 0.
Proof.
  intros Hres Hreg Hmode Hget. split; [|apply with_mode_no_write_bits].
  pose proof (get_script_quiet _ _ _ _ _ _ Hget) as Q.
  pose proof (resolves_quiet _ _ _ _ _ _ Q Hres) as [Hn1 Hi1].
  unfold sfs_chmod, bind, gets. simpl.
  rewrite (fstatat_resolves w 0 _ _ ino nd Hres). simpl. rewrite Hreg.
  apply Z.eqb_neq in Hmode. rewrite Hmode. simpl. rewrite Hget. simpl.
  unfold fchmodat, change_path, change_inode, bind, gets. simpl.
  rewrite Hn1, Hi1, (owner_or_root_quiet _ _ _ Q).
  destruct (owner_or_root w nd); reflexivity.
Qed.

End Chmod.

Lemma chmod_on_script_strips_write_bits_witness :
  sfs_chmod Scenario.child_hi (Some "/hello_script"%string) 0x1b6 None
    (Scenario.world [default_procedure] 0)
  = Some (0, set_inodes
               (<[3%positive :=
                    with_mode (Z.land 0x1b6 (Z.lnot S_IWALL))
                      (Scenario.file_node S_IFREG 0x1ed Scenario.hello_script)]>
                  (w_inodes (Scenario.world [default_procedure] 0)))
               (Scenario.world [default_procedure] 0)).
Proof.
  refine (proj1 (chmod_on_script_strips_write_bits Scenario.child_hi
                   "/hello_script" 0x1b6 None (Scenario.world [default_procedure] 0)
                   3%positive (Scenario.file_node S_IFREG 0x1ed Scenario.hello_script)
                   default_procedure (Scenario.world [default_procedure] 0) _ _ _ _)).
  - split; vm_compute; reflexivity.
  - reflexivity.
  - discriminate.
  - vm_compute; reflexivity.
Defined.

(** chmod 0666 on the script [hello_script] (mode 0755): the call succeeds
    and the script now has mode 0444. *)
Lemma chmod_writable_on_script_succeeds :
  exists w1 w2,
    get_script Scenario.child_hi [default_procedure]
      (relative_path (Some "/hello_script"%string))
      (Scenario.world [default_procedure] 0) = Some (Some default_procedure, w1)
    /\ sfs_chmod Scenario.child_hi (Some "/hello_script"%string) 0x1b6 None
         (Scenario.world [default_procedure] 0) = Some (0, w2)
    /\ i_mode <$> w_inodes (Scenario.world [default_procedure] 0) !! 3%positive
       = Some (Z.lor S_IFREG 0x1ed)
    /\ i_mode <$> w_inodes w2 !! 3%positive = Some (Z.lor S_IFREG 0x124).
Proof.
  do 2 eexists. repeat split; vm_compute; reflexivity.
Qed.

Section Getattr.

Variable child : World -> Exec -> list byte * option Z.

Lemma code_or_errno_0 w : code_or_errno 0 w = Some (0, w).
Proof. reflexivity. Qed.

(** What [sfs_getattr] does for a script, once the mirror's attributes are
    read and the classifier has answered. *)
Lemma sfs_getattr_script path sb fi w ino nd proc w1 :
  resolves w false (relative_path (Some path)) ino nd ->
  S_ISREG (i_mode nd) = true ->
  get_script child (procs (persistent w)) (relative_path (Some path)) w
    = Some (Some proc, w1) ->
  sfs_getattr child (Some path) sb fi w
  = (if negb (return_real_size (persistent w) =? 0) then
       h <- run_script child (relative_path (Some path)) proc fi ;;
       rs <- fstat h.1 (clear_write_bits (stat_of ino nd)) ;;
       close h.1 ;;;
       ret (0, (if rs.1 =? 0 then set_st_size (st_size rs.2) (clear_write_bits (stat_of ino nd))
                else clear_write_bits (stat_of ino nd)), h.2)
     else ret (0, clear_write_bits (stat_of ino nd), fi)) w1.
Proof.
  intros Hres Hreg Hget.
  pose proof (get_script_quiet _ _ _ _ _ _ Hget) as [Hp _ _ _ _ _ _ _ _].
  unfold sfs_getattr. unfold bind at 1.
  rewrite (fstatat_resolves w AT_SYMLINK_NOFOLLOW _ _ ino nd Hres).
  unfold bind at 1. unfold gets at 1. cbn [fst snd].
  unfold bind at 1. simpl (0 =? 0). cbn [st_mode stat_of andb]. rewrite Hreg, Hget.
  unfold bind at 1. unfold gets at 1. rewrite Hp.
  destruct (negb (return_real_size (persistent w) =? 0)); [|reflexivity].
  unfold bind. destruct (run_script _ _ _ _ w1) as [[h w2]|]; [|done].
  destruct (fstat _ _ w2) as [[rs w3]|]; [|done].
  destruct (close _ w3) as [[c w4]|]; done.
Qed.

(** C8.  For a regular file of the mirror that the classifier matches,
    [sfs_getattr] returns 0 and the attributes of the mirror file with the
    three write bits cleared in [st_mode] (every other bit of the mode, the
    inode number, the owner, the group and the times are those of the
    mirror).  For a file that is not regular, or that no test matches, the
    attributes are returned unchanged. *)
Theorem getattr_clears_write_bits_of_scripts (path : string) (sb : stat)
    (fi : option fuse_file_info) (w : World) (ino : positive) (nd : Inode) :
  resolves w false (relative_path (Some path)) ino nd ->
  (forall proc w1,
      S_ISREG (i_mode nd) = true ->
      get_script child (procs (persistent w)) (relative_path (Some path)) w
        = Some (Some proc, w1) ->
      exists st fi' w',
        sfs_getattr child (Some path) sb fi w = Some ((0, st, fi'), w')
        /\ st_mode st = Z.land (i_mode nd) (Z.lnot S_IWALL)
        /\ Z.land (st_mode st) S_IWALL = 0
        /\ (forall n, 0 <= n -> Z.testbit S_IWALL n = false ->
              Z.testbit (st_mode st) n = Z.testbit (i_mode nd) n)
        /\ st_ino st = ino /\ st_uid st = i_uid nd /\ st_gid st = i_gid nd
        /\ st_atim st = i_atim nd /\ st_mtim st = i_mtim nd)
  /\ (S_ISREG (i_mode nd) = false ->
      sfs_getattr child (Some path) sb fi w = Some ((0, stat_of ino nd, fi), w))
  /\ (forall w1,
        S_ISREG (i_mode nd) = true ->
        get_script child (procs (persistent w)) (relative_path (Some path)) w
          = Some (None, w1) ->
        sfs_getattr child (Some path) sb fi w = Some ((0, stat_of ino nd, fi), w1)).
Proof.
  intros Hres. split; [|split].
  - intros proc w1 Hreg Hget.
    rewrite (sfs_getattr_script _ _ _ _ _ _ _ _ Hres Hreg Hget).
    destruct (negb (return_real_size (persistent w) =? 0)).
    + destruct (total_run_script child (relative_path (Some path)) proc fi w1)
        as (h & w2 & Hrun).
      destruct (total_fstat h.1 (clear_write_bits (stat_of ino nd)) w2) as (rs & w3 & Hrs).
      destruct (total_close h.1 w3) as (c & w4 & Hc).
      unfold bind. rewrite Hrun, Hrs, Hc. unfold ret.
      do 3 eexists. split; [reflexivity|].
      destruct (rs.1 =? 0); simpl;
        repeat split; auto using write_bits_cleared, other_bits_kept.
    + unfold ret. do 3 eexists. split; [reflexivity|]. simpl.
      repeat split; auto using write_bits_cleared, other_bits_kept.
  - intros Hreg. unfold sfs_getattr, bind, gets.
    rewrite (fstatat_resolves w AT_SYMLINK_NOFOLLOW _ _ ino nd Hres).
    simpl. rewrite Hreg. reflexivity.
  - intros w1 Hreg Hget. unfold sfs_getattr, bind, gets.
    rewrite (fstatat_resolves w AT_SYMLINK_NOFOLLOW _ _ ino nd Hres).
    simpl. rewrite Hreg, Hget. reflexivity.
Qed.

End Getattr.

Lemma getattr_clears_write_bits_of_scripts_witness :
  exists st fi' w',
    sfs_getattr Scenario.child_hi (Some "/hello_script"%string) Scenario.no_stat None
      (Scenario.world [default_procedure] 0) = Some ((0, st, fi'), w')
    /\ st_mode st = Z.lor S_IFREG 0x16d.
Proof.
  assert (resolves (Scenario.world [default_procedure] 0) false
            (relative_path (Some "/hello_script"%string)) 3%positive
            (Scenario.file_node S_IFREG 0x1ed Scenario.hello_script)) as Hres
    by (split; vm_compute; reflexivity).
  assert (get_script Scenario.child_hi
            (procs (persistent (Scenario.world [default_procedure] 0)))
            (relative_path (Some "/hello_script"%string))
            (Scenario.world [default_procedure] 0)
          = Some (Some default_procedure, Scenario.world [default_procedure] 0)) as Hget
    by (vm_compute; reflexivity).
  destruct (proj1 (getattr_clears_write_bits_of_scripts Scenario.child_hi
                     "/hello_script" Scenario.no_stat None _ _ _ Hres)
              default_procedure _ eq_refl Hget)
    as (st & fi' & w' & Hrun & Hmode & _).
  exists st, fi', w'. split; [exact Hrun|]. rewrite Hmode. reflexivity.
Defined.

(** ** A descriptor that is open stays open through the classifier *)

Definition opened (w : World) (fd : Z) : Prop := is_Some (lookup_fd w fd).

Lemma opened_errno e w fd : opened w fd -> opened (set_errno e w) fd.
Proof. done. Qed.

Lemma opened_insert w fd fd' o :
  opened w fd -> opened (set_fds (<[fd' := o]> (w_fds w)) w) fd.
Proof.
  unfold opened, lookup_fd. simpl. destruct (fd <? 0); [done|].
  intros H. destruct (decide (fd' = fd)) as [->|Hne].
  - rewrite lookup_insert_eq. eauto.
  - by rewrite lookup_insert_ne.
Qed.

Lemma openat_opened name fl w r w' fd :
  opened w fd -> openat name fl w = Some (r, w') -> opened w' fd /\ r <> fd.
Proof.
  intros [o Ho] H. apply lookup_fd_Some in Ho as Ho'. destruct Ho' as [Hpos Ho'].
  apply openat_spec in H as [[-> [e ->]]|(ino & Hr & Hfree & ->)].
  - split; [by exists o|lia].
  - split; [apply opened_insert; by exists o|congruence].
Qed.

Lemma close_opened fd' w r w' fd :
  fd' <> fd -> opened w fd -> close fd' w = Some (r, w') -> opened w' fd.
Proof.
  intros Hne [o Ho] H. exists o. eapply close_keeps; eauto.
Qed.

Lemma fsync_opened fd' w r w' fd :
  opened w fd -> fsync fd' w = Some (r, w') -> opened w' fd.
Proof. intros Ho H. apply fsync_spec in H as [->|[e ->]]; done. Qed.

Lemma read_opened fd' n w r w' fd :
  opened w fd -> read fd' n w = Some (r, w') -> opened w' fd.
Proof.
  intros Ho H. apply read_spec in H as [[e ->]|[->|(ino & fl & pos & k & Hfd & ->)]]; try done.
  by apply opened_insert.
Qed.

Lemma write_opened fd' buf w r w' fd :
  opened w fd -> write fd' buf w = Some (r, w') -> opened w' fd.
Proof.
  intros Ho H.
  apply write_spec in H as [[e ->]|[->|(ino & fl & pos & k & nd & d & Hfd & Hnd & ->)]]; try done.
  apply (opened_insert (set_inodes _ w)). exact Ho.
Qed.

Lemma pipe_opened w r w' fd :
  opened w fd -> pipe w = Some (r, w') -> opened w' fd /\ r.1 <> fd /\ r.2 <> fd.
Proof.
  intros Ho H. apply pipe_spec in H as (Hr & Hwr & Hne & Fr & Fwr & ->).
  destruct Ho as [o Ho]. apply lookup_fd_Some in Ho as Ho'. destruct Ho' as [Hpos Ho'].
  split; [|split; congruence].
  apply (opened_insert (set_fds _ w)). apply opened_insert. by exists o.
Qed.

Lemma set_cell_opened a i v w r w' fd :
  opened w fd -> set_cell a i v w = Some (r, w') -> opened w' fd.
Proof. intros Ho H. apply set_cell_spec in H as [s ->]. exact Ho. Qed.

Lemma faccessat_opened name mask w r w' fd :
  opened w fd -> faccessat name mask w = Some (r, w') -> opened w' fd.
Proof. intros Ho H. apply faccessat_spec in H as [->|[e ->]]; done. Qed.

Section OpenedThroughTests.

Variable child : World -> Exec -> list byte * option Z.

Lemma feed_pipe_opened fuel : forall inf wr sent w r w' fd,
  opened w fd -> feed_pipe fuel inf wr sent w = Some (r, w') -> opened w' fd.
Proof.
  induction fuel as [|fuel IH]; intros inf wr sent w r w' fd Ho H; simpl in H.
  - mret H. exact Ho.
  - mstep H as rd w1 Hrd. mstep H as wrote w2 Hwr.
    pose proof (read_opened _ _ _ _ _ _ Ho Hrd) as O1.
    destruct (0 <? rd.1).
    + pose proof (write_opened _ _ _ _ _ _ O1 Hwr) as O2. eauto.
    + mret Hwr. mret H. exact O1.
Qed.

Lemma child_output_opened out buf w fd :
  opened w fd -> opened (child_output out buf w) fd.
Proof.
  intros Ho. unfold child_output. repeat case_match; try done.
  apply (opened_insert (set_inodes _ w)). exact Ho.
Qed.

Lemma execute_program_opened file args out path_in w r w' fd :
  opened w fd -> execute_program child file args out path_in w = Some (r, w') ->
  opened w' fd.
Proof.
  unfold execute_program. intros Ho H. mstep H as stdin w0 Hin.
  assert (opened w0 fd) as O0.
  { destruct path_in as [p|].
    - mstep Hin as fds w1 Hpipe. mstep Hin as c1 w2 Hc1. mstep Hin as inf w3 Hopen.
      mstep Hin as sent w4 Hfeed. mstep Hin as sy w45 Hsync.
      mstep Hin as c2 w5 Hc2. mret Hin.
      destruct (pipe_opened _ _ _ _ Ho Hpipe) as (O1 & N1 & N2).
      pose proof (close_opened _ _ _ _ _ N1 O1 Hc1) as O2.
      destruct (openat_opened _ _ _ _ _ _ O2 Hopen) as [O3 _].
      assert (opened w4 fd) as O4.
      { destruct (inf <? 0).
        - mret Hfeed. exact O3.
        - mstep Hfeed as wc w6 Hg. mret Hg. eapply feed_pipe_opened; eauto. }
      pose proof (fsync_opened _ _ _ _ _ O4 Hsync) as O45.
      eapply close_opened; eauto.
    - mret Hin. exact Ho. }
  mstep H as wc w1 Hg. mret Hg.
  mstep H as u1 w2 Hm1. mstep H as u2 w3 Hm2.
  mmod Hm1. mmod Hm2.
  assert (opened w' fd) as Hfin; [|exact Hfin].
  destruct (child w0 _).2; mret H; simpl;
    (destruct (out =? 0); [exact O0|by apply child_output_opened]).
Qed.

Lemma test_shell_opened t file w r w' fd :
  opened w fd -> test_shell t file w = Some (r, w') -> opened w' fd.
Proof.
  unfold test_shell. intros Ho H. mstep H as fd1 w1 Hopen. mstep H as wc w2 Hg. mret Hg.
  destruct (openat_opened _ _ _ _ _ _ Ho Hopen) as [O1 N1].
  destruct (lookup_fd w1 fd1).
  - mstep H as rd w2 Hrd. mstep H as c w3 Hc.
    pose proof (read_opened _ _ _ _ _ _ O1 Hrd) as O2.
    pose proof (close_opened _ _ _ _ _ N1 O2 Hc) as O3.
    repeat case_match; mret H; exact O3.
  - mret H. exact O1.
Qed.

Lemma test_program_opened t file w r w' fd :
  opened w fd -> test_program child t file w = Some (r, w') -> opened w' fd.
Proof.
  unfold test_program. intros Ho H.
  mstep H as u1 w1 Hs1. mstep H as wc w2 Hg. mret Hg.
  mstep H as code w3 Hx. mstep H as u2 w4 Hs2.
  assert (w' = w4) as -> by (apply ret_Some in H; tauto). clear H.
  assert (opened w1 fd) as O1.
  { destruct (test_args t), (test_filearg t);
      first [mret Hs1; exact Ho | eapply set_cell_opened; eauto]. }
  pose proof (execute_program_opened _ _ _ _ _ _ _ _ O1 Hx) as O3.
  destruct (test_args t), (test_filearg t);
    first [mret Hs2; exact O3 | eapply set_cell_opened; eauto].
Qed.

Lemma call_test_opened f t file w r w' fd :
  opened w fd -> call_test child f t file w = Some (r, w') -> opened w' fd.
Proof.
  destruct f; simpl; intros Ho H.
  - mret H. exact Ho.
  - mret H. exact Ho.
  - eapply test_shell_opened; eauto.
  - unfold test_executable in H. mstep H as c w1 Hc. mret H.
    eapply faccessat_opened; eauto.
  - unfold test_shell_executable in H. mstep H as s w1 Hs.
    pose proof (test_shell_opened _ _ _ _ _ _ Ho Hs) as O1.
    destruct (negb (s =? 0)).
    + mret H. exact O1.
    + mstep H as e w2 He. mret H.
      unfold test_executable in He. mstep He as c w3 Hc. mret He.
      eapply faccessat_opened; eauto.
  - unfold test_pattern in H. destruct (test_compiled t); [|mret H; exact Ho].
    destruct file; [|discriminate]. mret H. exact Ho.
  - eapply test_program_opened; eauto.
Qed.

Lemma get_script_loop_opened l : forall res file w r w' fd,
  opened w fd -> get_script_loop child res l file w = Some (r, w') -> opened w' fd.
Proof.
  induction l as [|p l IH]; intros res file w r w' fd Ho H.
  - destruct res; mret H; exact Ho.
  - destruct res as [q|]; [mret H; exact Ho|].
    cbn [get_script_loop] in H. mstep H as hit w1 Hhit.
    eapply IH; [|exact H].
    unfold test_matches in Hhit.
    destruct (test p) as [t|]; [|mret Hhit; exact Ho].
    destruct (test_func t) as [f|]; [|mret Hhit; exact Ho].
    mstep Hhit as c w2 Hc. mret Hhit. eapply call_test_opened; eauto.
Qed.

Lemma get_script_opened procs file w r w' fd :
  opened w fd -> get_script child procs file w = Some (r, w') -> opened w' fd.
Proof. apply get_script_loop_opened. Qed.

End OpenedThroughTests.

Lemma mkstemp_result w t h nm w2 :
  opened w 0 -> mkstemp t w = Some ((h, nm), w2) ->
  (h = -1 /\ 0 < errno w2) \/ 0 < h.
Proof.
  intros [o Ho] H. apply lookup_fd_Some in Ho as [_ Ho].
  apply mkstemp_spec in H. simpl in H.
  destruct H as [[-> (e & He & ->)]|(ino & n & Hh & Hfree & _)]; simpl in *.
  - left. done.
  - right. assert (h <> 0) by congruence. lia.
Qed.

Section Open.

Variable child : World -> Exec -> list byte * option Z.
Variable FILENAME_MAX_LENGTH : nat.

Lemma run_script_after_mkstemp relative proc fi w h nm w2 :
  mkstemp (tmp_template (persistent w)) w = Some ((h, nm), w2) ->
  run_script child relative proc fi w
  = if h <=? 0 then Some ((- errno w2, fi), w2)
    else (unlink (Some nm) ;;;
          call_program_func child (prog_func (program proc)) (program proc) relative h ;;;
          ret (h, set_direct_io 1 <$> fi)) w2.
Proof.
  intros Hmk. unfold run_script. unfold bind at 1. unfold gets at 1.
  unfold bind at 1. rewrite Hmk. cbn [fst snd].
  destruct (h <=? 0); reflexivity.
Qed.

Lemma sfs_open_script path fi w proc w1 :
  get_script child (procs (persistent w)) (relative_path path) w = Some (Some proc, w1) ->
  Z.land (flags fi) O_WRONLY = 0 -> Z.land (flags fi) O_RDWR = 0 ->
  sfs_open child FILENAME_MAX_LENGTH path fi w
  = (h <- run_script child (relative_path path) proc (Some fi) ;;
     if h.1 <=? 0 then ret (h.1, default fi h.2)
     else match relative_path path with
          | None => fault
          | Some rel =>
              fs <- new_FileStruct {| type := T_SCRIPT; file_handle := h.1;
                                      filename := copy_filename FILENAME_MAX_LENGTH rel |} ;;
              ret (0, set_fh fs (default fi h.2))
          end) w1.
Proof.
  intros Hget Hwr Hrw. unfold sfs_open. unfold bind at 1. unfold gets at 1.
  unfold bind at 1. rewrite Hget, Hwr, Hrw. simpl negb. simpl orb. cbv iota.
  unfold bind. destruct (run_script _ _ _ _ w1) as [[h w2]|]; [|done].
  destruct (h.1 <=? 0); reflexivity.
Qed.

(** C6.  Let the classifier match [path], with the standard input of the
    server open.  [sfs_open] with a write mode fails with [EACCES].
    Otherwise its result is decided by [mkstemp] alone, for every behaviour
    [child] of the child process: when [mkstemp] fails, [sfs_open] returns
    the negated [errno]; when it gives a descriptor, [sfs_open] returns 0
    and a handle on a [FileStruct] of type [T_SCRIPT] that holds this
    descriptor. *)
Theorem open_script_succeeds_whatever_the_child (path rel : string)
    (fi : fuse_file_info) (w : World) (proc : Procedure) (w1 : World) :
  relative_path (Some path) = Some rel ->
  opened w 0 ->
  get_script child (procs (persistent w)) (Some rel) w = Some (Some proc, w1) ->
  (Z.land (flags fi) O_WRONLY <> 0 \/ Z.land (flags fi) O_RDWR <> 0 ->
     sfs_open child FILENAME_MAX_LENGTH (Some path) fi w = Some ((- EACCES, fi), w1))
  /\ (Z.land (flags fi) O_WRONLY = 0 -> Z.land (flags fi) O_RDWR = 0 ->
      exists h nm w2,
        mkstemp (tmp_template (persistent w1)) w1 = Some ((h, nm), w2)
        /\ ((h = -1 /\ 0 < errno w2
             /\ sfs_open child FILENAME_MAX_LENGTH (Some path) fi w
                = Some ((- errno w2, fi), w2))
            \/ (0 < h
                /\ exists a w',
                     sfs_open child FILENAME_MAX_LENGTH (Some path) fi w
                     = Some ((0, set_fh a (set_direct_io 1 fi)), w')
                     /\ w_heap w' !! a
                        = Some {| type := T_SCRIPT; file_handle := h;
                                  filename := copy_filename FILENAME_MAX_LENGTH rel |}))).
Proof.
  intros Hrel Hstdin Hget. split.
  - intros Hfl. unfold sfs_open, bind, gets. rewrite Hrel, Hget.
    assert (negb (Z.land (flags fi) O_WRONLY =? 0) || negb (Z.land (flags fi) O_RDWR =? 0) = true) as ->.
    { destruct Hfl as [H|H]; apply Z.eqb_neq in H; rewrite H; simpl; [done|apply orb_true_r]. }
    reflexivity.
  - intros Hwr Hrw.
    destruct (total_mkstemp (tmp_template (persistent w1)) w1) as ([h nm] & w2 & Hmk).
    exists h, nm, w2. split; [exact Hmk|].
    rewrite <- Hrel in Hget.
    rewrite (sfs_open_script _ _ _ _ _ Hget Hwr Hrw).
    pose proof (get_script_opened _ _ _ _ _ _ _ Hstdin Hget) as Hstdin1.
    pose proof (run_script_after_mkstemp (relative_path (Some path)) proc (Some fi)
                  _ _ _ _ Hmk) as Hrs.
    destruct (mkstemp_result _ _ _ _ _ Hstdin1 Hmk) as [[-> He]|Hh].
    + left. split; [done|]. split; [done|].
      simpl in Hrs. rewrite (bind_run _ _ _ _ _ Hrs). cbn [fst snd].
      destruct (Z.leb_spec (- errno w2) 0); [reflexivity|lia].
    + right. split; [done|].
      destruct (Z.leb_spec h 0) as [|_]; [lia|].
      destruct (total_unlink (Some nm) w2) as (c & w3 & Hun).
      destruct (total_call_program_func child (prog_func (program proc)) (program proc)
                  (relative_path (Some path)) h w3) as (code & w4 & Hrun).
      rewrite (bind_run _ _ _ _ _ Hun), (bind_run _ _ _ _ _ Hrun) in Hrs.
      rewrite (bind_run _ _ _ _ _ Hrs). cbn [fst snd].
      destruct (Z.leb_spec h 0) as [|_]; [lia|].
      rewrite Hrel. unfold bind, new_FileStruct, gets, modify, ret. simpl.
      do 2 eexists. split; [reflexivity|]. simpl. apply lookup_insert_eq.
Qed.

End Open.

Lemma open_script_succeeds_whatever_the_child_witness :
  exists h nm w2,
    mkstemp "/dev/shm/sfs.XXXXXX" (Scenario.world [default_procedure] 0)
      = Some ((h, nm), w2)
    /\ ((h = -1 /\ 0 < errno w2
         /\ sfs_open Scenario.child_aborts 4096 (Some "/hello_script"%string)
              Scenario.read_only (Scenario.world [default_procedure] 0)
            = Some ((- errno w2, Scenario.read_only), w2))
        \/ (0 < h
            /\ exists a w',
                 sfs_open Scenario.child_aborts 4096 (Some "/hello_script"%string)
                   Scenario.read_only (Scenario.world [default_procedure] 0)
                 = Some ((0, set_fh a (set_direct_io 1 Scenario.read_only)), w')
                 /\ w_heap w' !! a
                    = Some {| type := T_SCRIPT; file_handle := h;
                              filename := copy_filename 4096 "hello_script" |})).
Proof.
  apply (proj2 (open_script_succeeds_whatever_the_child Scenario.child_aborts 4096
                  "/hello_script" "hello_script" Scenario.read_only
                  (Scenario.world [default_procedure] 0) default_procedure
                  (Scenario.world [default_procedure] 0) eq_refl
                  (ex_intro _ (OPipe false) eq_refl) eq_refl));
    reflexivity.
Defined.

(** ** The temporary artifact while the program runs *)

Section Artifact.

Variable child : World -> Exec -> list byte * option Z.
Variable h : Z.
Variable i : positive.

(** The artifact is open on [h] with the description [o], its inode [i]
    holds [nd], and the trace is [t]. *)
Definition art (o : OpenFile) (nd : Inode) (t : list (Exec * (list byte * option Z)))
    (w : World) : Prop :=
  lookup_fd w h = Some o /\ w_inodes w !! i = Some nd /\ w_trace w = t.

(** The descriptor [fd] is not a file on the inode of the artifact. *)
Definition not_on (w : World) (fd : Z) : Prop :=
  forall j fl p, lookup_fd w fd = Some (OFile j fl p) -> j <> i.

Lemma art_h_nonneg o nd t w : art o nd t w -> 0 <= h.
Proof. intros [Ho _]. by apply lookup_fd_Some in Ho as [? _]. Qed.

Lemma art_errno o nd t w e : art o nd t w -> art o nd t (set_errno e w).
Proof. done. Qed.

Lemma art_insert_fd o nd t w fd o' :
  fd <> h -> art o nd t w -> art o nd t (set_fds (<[fd := o']> (w_fds w)) w).
Proof. intros Hne (Ho & Hi & Ht). split; [|done]. by rewrite lookup_fd_insert_ne. Qed.

Lemma openat_art o nd t name fl w r w' :
  art o nd t w -> openat name fl w = Some (r, w') -> art o nd t w' /\ r <> h.
Proof.
  intros A H. destruct (openat_keeps _ _ _ _ _ _ _ (proj1 A) H) as [Hk Hne].
  split; [|done]. destruct A as (Ho & Hi & Ht).
  apply openat_spec in H as [[-> [e ->]]|(ino & Hr & Hfree & ->)]; done.
Qed.

Lemma close_art o nd t fd w r w' :
  fd <> h -> art o nd t w -> close fd w = Some (r, w') -> art o nd t w'.
Proof.
  intros Hne (Ho & Hi & Ht) H. apply close_spec in H as [[e ->]| ->]; [done|].
  split; [|done]. by rewrite lookup_fd_delete_ne.
Qed.

Lemma fsync_art o nd t fd w r w' :
  art o nd t w -> fsync fd w = Some (r, w') -> art o nd t w'.
Proof. intros A H. apply fsync_spec in H as [->|[e ->]]; done. Qed.

Lemma read_art o nd t fd n w r w' :
  fd <> h -> art o nd t w -> read fd n w = Some (r, w') -> art o nd t w'.
Proof.
  intros Hne A H.
  apply read_spec in H as [[e ->]|[->|(ino & fl & pos & k & Hfd & ->)]]; try done.
  by apply art_insert_fd.
Qed.

Lemma write_art o nd t fd buf w r w' :
  fd <> h -> not_on w fd -> art o nd t w -> write fd buf w = Some (r, w') -> art o nd t w'.
Proof.
  intros Hne Hno (Ho & Hi & Ht) H.
  apply write_spec in H as [[e ->]|[->|(ino & fl & pos & k & nd' & d & Hfd & Hnd & ->)]];
    try done.
  pose proof (Hno _ _ _ Hfd) as Hji.
  split; [|split; [|done]].
  - rewrite <- Ho. unfold lookup_fd. simpl. by rewrite lookup_insert_ne.
  - simpl. by rewrite lookup_insert_ne.
Qed.

Lemma change_fd_art o nd t fd f w r w' :
  not_on w fd -> art o nd t w -> change_fd fd f w = Some (r, w') -> art o nd t w'.
Proof.
  intros Hno (Ho & Hi & Ht) H.
  apply change_fd_spec in H as [[e ->]|[->|(ino & fl & pos & nd' & Hfd & Hnd & ->)]];
    try done.
  pose proof (Hno _ _ _ Hfd) as Hji.
  split; [done|split; [|done]]. simpl. by rewrite lookup_insert_ne.
Qed.

Lemma unlink_art o nd t name w r w' :
  art o nd t w -> unlink name w = Some (r, w') -> art o nd t w'.
Proof. intros A H. apply unlink_spec in H as [[e ->]|(n & -> & ->)]; done. Qed.

Lemma set_cell_art o nd t a k v w r w' :
  art o nd t w -> set_cell a k v w = Some (r, w') -> art o nd t w'.
Proof. intros A H. apply set_cell_spec in H as [s ->]. done. Qed.

Lemma fstat_art o nd t fd sb w r w' :
  art o nd t w -> fstat fd sb w = Some (r, w') -> art o nd t w'.
Proof. intros A H. apply fstat_spec in H as [[_ ->]|[_ [e ->]]]; done. Qed.

Lemma pipe_art o nd t w r w' :
  art o nd t w -> pipe w = Some (r, w') ->
  art o nd t w' /\ r.1 <> h /\ r.2 <> h /\ r.1 <> r.2
  /\ lookup_fd w' r.2 = Some (OPipe true).
Proof.
  intros A H. pose proof A as (Ho & Hi & Ht).
  apply lookup_fd_Some in Ho as [Hpos Ho].
  apply pipe_spec in H as (Hr & Hwr & Hne & Fr & Fwr & ->).
  assert (r.1 <> h) by congruence. assert (r.2 <> h) by congruence.
  split; [|repeat split; try done].
  - apply (art_insert_fd _ _ _ (set_fds _ w)); [done|]. by apply art_insert_fd.
  - apply (lookup_fd_insert_eq (set_fds _ w)). done.
Qed.

Lemma mkstemp_art o nd t template w r w' :
  art o nd t w -> mkstemp template w = Some (r, w') ->
  art o nd t w' /\ (r.1 = -1 \/ (r.1 <> h /\ not_on w' r.1)).
Proof.
  intros A H. pose proof A as (Ho & Hi & Ht).
  apply lookup_fd_Some in Ho as [Hpos Ho].
  apply mkstemp_spec in H as [[-> (e & He & ->)]|(ino & n & Hh & Hfree & Hino & Hnm & ->)].
  - split; [done|by left].
  - assert (r.1 <> h) as Hne by congruence.
    assert (ino <> i) as Hii by congruence.
    split; [|right; split; [done|]].
    + destruct A as (Ho' & _ & _). split; [|split; [|done]].
      * rewrite <- Ho'. unfold lookup_fd. simpl. by rewrite lookup_insert_ne.
      * simpl. by rewrite lookup_insert_ne.
    + intros j fl p Hl. unfold lookup_fd in Hl. simpl in Hl.
      rewrite lookup_insert_eq in Hl. destruct (r.1 <? 0); congruence.
Qed.

(** The inode behind a descriptor does not change by reading or writing. *)
Lemma read_not_on fd n w r w' fd' :
  not_on w fd' -> read fd n w = Some (r, w') -> not_on w' fd'.
Proof.
  intros Hno H.
  apply read_spec in H as [[e ->]|[->|(ino & fl & pos & k & Hfd & ->)]]; try done.
  intros j fl' p Hl. unfold lookup_fd in Hl. simpl in Hl.
  destruct (decide (fd = fd')) as [->|Hne].
  - rewrite lookup_insert_eq in Hl. unfold not_on in Hno.
    destruct (fd' <? 0) eqn:E; [done|]. injection Hl as <- <- <-.
    eapply Hno. exact Hfd.
  - rewrite lookup_insert_ne in Hl by done. eapply Hno. exact Hl.
Qed.

Lemma write_not_on fd buf w r w' fd' :
  not_on w fd' -> write fd buf w = Some (r, w') -> not_on w' fd'.
Proof.
  intros Hno H.
  apply write_spec in H as [[e ->]|[->|(ino & fl & pos & k & nd' & d & Hfd & Hnd & ->)]];
    try done.
  intros j fl' p Hl. unfold lookup_fd in Hl. simpl in Hl.
  destruct (decide (fd = fd')) as [->|Hne].
  - rewrite lookup_insert_eq in Hl.
    destruct (fd' <? 0) eqn:E; [done|]. injection Hl as <- <- <-.
    eapply Hno. exact Hfd.
  - rewrite lookup_insert_ne in Hl by done. eapply Hno. exact Hl.
Qed.

Lemma fstat_not_on fd sb w r w' fd' :
  not_on w fd' -> fstat fd sb w = Some (r, w') -> not_on w' fd'.
Proof. intros A H. apply fstat_spec in H as [[_ ->]|[_ [e ->]]]; done. Qed.

Lemma pipe_not_on w fd b : lookup_fd w fd = Some (OPipe b) -> not_on w fd.
Proof. intros Hp j fl p Hl. congruence. Qed.

Lemma copy_loop_art o nd t fuel : forall fin fout w r w',
  fin <> h -> fout <> h -> not_on w fout -> art o nd t w ->
  copy_loop fuel fin fout w = Some (r, w') -> art o nd t w' /\ not_on w' fout.
Proof.
  induction fuel as [|fuel IH]; intros fin fout w r w' Hfin Hfout Hno A H; simpl in H.
  - mret H. done.
  - mstep H as rd w1 Hrd.
    pose proof (read_art _ _ _ _ _ _ _ _ Hfin A Hrd) as A1.
    pose proof (read_not_on _ _ _ _ _ _ Hno Hrd) as N1.
    destruct (0 <? rd.1).
    + mstep H as wr w2 Hwr.
      pose proof (write_art _ _ _ _ _ _ _ _ Hfout N1 A1 Hwr) as A2.
      pose proof (write_not_on _ _ _ _ _ _ N1 Hwr) as N2.
      eauto.
    + mret H. done.
Qed.

Lemma temp_copy_art o nd t file w r w' :
  art o nd t w -> temp_copy file w = Some (r, w') -> art o nd t w'.
Proof.
  unfold temp_copy. intros A H. mstep H as fin w1 Hopen.
  destruct (openat_art _ _ _ _ _ _ _ _ A Hopen) as [A1 Hfin].
  destruct (fin =? -1); [mret H; done|].
  mstep H as template w2 Hg. mret Hg.
  mstep H as mk w2 Hmk.
  destruct (mkstemp_art _ _ _ _ _ _ _ A1 Hmk) as [A2 Hcase].
  destruct (Z.eqb_spec mk.1 (-1)) as [Hm1|Hm1].
  - mstep H as c w3 Hc. mret H. eapply close_art; eauto.
  - destruct Hcase as [?|[Hfout Hno]]; [done|].
    mstep H as wc w3 Hg. mret Hg.
    mstep H as u w3 Hcopy.
    destruct (copy_loop_art _ _ _ _ _ _ _ _ _ Hfin Hfout Hno A2 Hcopy) as [A3 N3].
    mstep H as st w4 Hst.
    pose proof (fstat_art _ _ _ _ _ _ _ _ A3 Hst) as A4.
    pose proof (fstat_not_on _ _ _ _ _ _ N3 Hst) as N4.
    mstep H as ch w5 Hch.
    assert (art o nd t w5) as A5.
    { destruct (st.1 =? -1); [mret Hch; done|]. eapply change_fd_art; eauto. }
    mstep H as c1 w6 Hc1. mstep H as c2 w7 Hc2. mret H.
    eapply close_art; [exact Hfout| |exact Hc2].
    eapply close_art; [exact Hfin|exact A5|exact Hc1].
Qed.

Lemma feed_pipe_art o nd t fuel : forall inf wr sent w r w',
  inf <> h -> wr <> h -> lookup_fd w wr = Some (OPipe true) -> art o nd t w ->
  feed_pipe fuel inf wr sent w = Some (r, w') -> art o nd t w'.
Proof.
  induction fuel as [|fuel IH]; intros inf wr sent w r w' Hinf Hwr Hp A H; simpl in H.
  - mret H. done.
  - mstep H as rd w1 Hrd. mstep H as wrote w2 Hw.
    pose proof (read_art _ _ _ _ _ _ _ _ Hinf A Hrd) as A1.
    pose proof (read_keeps_pipe _ _ _ _ _ _ _ Hp Hrd) as P1.
    destruct (0 <? rd.1).
    + pose proof (write_art _ _ _ _ _ _ _ _ Hwr (pipe_not_on _ _ _ P1) A1 Hw) as A2.
      pose proof (write_keeps_pipe _ _ _ _ _ _ _ P1 Hw) as P2.
      eauto.
    + mret Hw. mret H. done.
Qed.

Lemma stdin_phase_art o nd t (path_in : option string) w r w' :
  art o nd t w ->
  match path_in with
  | Some _ =>
      fds <- pipe ;;
      close fds.1 ;;;
      inf <- openat path_in O_RDONLY ;;
      sent <- (if inf <? 0 then ret []
               else w <- gets id ;; feed_pipe (S (fd_size w inf)) inf fds.2 []) ;;
      fsync fds.2 ;;;
      close fds.2 ;;;
      ret (Some sent)
  | None => ret None
  end w = Some (r, w') ->
  art o nd t w'.
Proof.
  intros A Hin. destruct path_in as [p|]; [|mret Hin; done].
  mstep Hin as fds w1 Hpipe. mstep Hin as c1 w2 Hc1. mstep Hin as inf w3 Hopen.
  mstep Hin as sent w4 Hfeed. mstep Hin as sy w45 Hsync.
  mstep Hin as c2 w5 Hc2. mret Hin.
  destruct (pipe_art _ _ _ _ _ _ A Hpipe) as (A1 & N1 & N2 & N12 & P1).
  pose proof (close_art _ _ _ _ _ _ _ N1 A1 Hc1) as A2.
  pose proof (close_keeps _ _ _ _ _ _ N12 P1 Hc1) as P2.
  destruct (openat_art _ _ _ _ _ _ _ _ A2 Hopen) as [A3 Ninf].
  destruct (openat_keeps _ _ _ _ _ _ _ P2 Hopen) as [P3 _].
  assert (art o nd t w4) as A4.
  { destruct (inf <? 0).
    - mret Hfeed. done.
    - mstep Hfeed as wc w6 Hg. mret Hg.
      exact (feed_pipe_art _ _ _ _ _ _ _ _ _ _ Ninf N2 P3 A3 Hfeed). }
  exact (close_art _ _ _ _ _ _ _ N2 (fsync_art _ _ _ _ _ _ _ A4 Hsync) Hc2).
Qed.

Lemma execute_program_art fl pos nd t file args path_in w r w' :
  art (OFile i fl pos) nd t w -> 0 < h ->
  (Z.land fl O_ACCMODE =? O_RDONLY) = false ->
  execute_program child file args h path_in w = Some (r, w') ->
  exists stdin wc,
    let x := {| x_file := file; x_argv := argv_of <$> args; x_out := h;
                x_stdin := stdin |} in
    art (OFile i fl (pos + Z.of_nat (length (child wc x).1)))
        (with_data (write_at (Z.to_nat pos) (child wc x).1 (i_data nd)) nd)
        (t ++ [(x, child wc x)]) w'.
Proof.
  intros A Hh Hfl H. unfold execute_program in H. mstep H as stdin w0 Hin.
  pose proof (stdin_phase_art _ _ _ _ _ _ _ A Hin) as (Ho & Hi & Ht).
  mstep H as wc w1 Hg. mret Hg.
  mstep H as u1 w2 Hm1. mstep H as u2 w3 Hm2. mmod Hm1. mmod Hm2.
  exists stdin, w0. cbv zeta.
  set (x := {| x_file := file; x_argv := argv_of <$> args; x_out := h; x_stdin := stdin |}) in *.
  assert (w' = set_trace
                 (w_trace (if h =? 0 then w0 else child_output h (child w0 x).1 w0)
                    ++ [(x, child w0 x)])
                 (if h =? 0 then w0 else child_output h (child w0 x).1 w0)) as ->.
  { destruct (child w0 x).2; mret H; reflexivity. }
  destruct (Z.eqb_spec h 0) as [|_]; [lia|].
  unfold child_output. rewrite Ho, Hi, Hfl.
  split; [|split].
  - apply (lookup_fd_insert_eq (set_inodes _ w0)). lia.
  - simpl. apply lookup_insert_eq.
  - reflexivity.
Qed.

(** The bytes the children of the calls [new] wrote. *)
Definition captured (new : list (Exec * (list byte * option Z))) : list byte :=
  concat (map (fun e => e.2.1) new).

Lemma write_at_empty buf : write_at 0 buf [] = buf.
Proof. destruct buf; [done|]. unfold write_at. simpl. by rewrite app_nil_r. Qed.

(** A program run on a new, empty artifact leaves in it what its child
    wrote, and nothing when no child was started. *)
Lemma call_program_func_art nd t f p file w code w' :
  art (OFile i O_RDWR 0) nd t w -> i_data nd = [] -> 0 < h ->
  call_program_func child f p file h w = Some (code, w') ->
  exists new nd',
    art (OFile i O_RDWR (Z.of_nat (length (captured new)))) nd' (t ++ new) w'
    /\ i_data nd' = captured new
    /\ (length new <= 1)%nat
    /\ Forall (fun e => x_out e.1 = h) new.
Proof.
  intros A Hempty Hh H.
  assert (forall x wc w2,
            art (OFile i O_RDWR (0 + Z.of_nat (length (child wc x).1)))
              (with_data (write_at (Z.to_nat 0) (child wc x).1 (i_data nd)) nd)
              (t ++ [(x, child wc x)]) w2 ->
            art (OFile i O_RDWR (Z.of_nat (length (captured [(x, child wc x)]))))
              (with_data (child wc x).1 nd) (t ++ [(x, child wc x)]) w2) as Hone.
  { intros x wc w2. rewrite Hempty. simpl Z.to_nat. rewrite write_at_empty.
    unfold captured. simpl. by rewrite app_nil_r. }
  destruct f; simpl in H.
  - unfold program_shell in H. mstep H as tmp w1 Htmp.
    pose proof (temp_copy_art _ _ _ _ _ _ _ A Htmp) as A1.
    destruct tmp as [tmp|].
    + mstep H as c w2 Hx. mstep H as u w3 Hun. mret H.
      destruct (execute_program_art _ _ _ _ _ _ _ _ _ _ A1 Hh eq_refl Hx) as (stdin & wc & A2).
      cbv zeta in A2. apply Hone in A2.
      eexists [_], _. split; [|split; [|split]].
      * eapply unlink_art; [exact A2|exact Hun].
      * unfold captured. simpl. by rewrite app_nil_r.
      * simpl. lia.
      * repeat constructor.
    + mstep H as e w2 Hg. mret Hg. mret H.
      exists [], nd. rewrite app_nil_r.
      split; [exact A1|]. split; [by rewrite Hempty|]. split; [simpl; lia|constructor].
  - unfold program_external in H.
    mstep H as u1 w1 Hs1. mstep H as wc w2 Hg. mret Hg.
    mstep H as c w3 Hx. mstep H as u2 w4 Hs2. mret H.
    assert (art (OFile i O_RDWR 0) nd t w1) as A1.
    { destruct (prog_args p), (prog_filearg p); try (mret Hs1; exact A).
      mstep Hs1 as tmp w5 Htmp.
      eapply set_cell_art; [|exact Hs1]. eapply temp_copy_art; eauto. }
    assert (forall o nd' t', art o nd' t' w3 -> art o nd' t' w4) as Hclean.
    { intros o nd' t' A3.
      destruct (prog_args p), (prog_filearg p); try (mret Hs2; exact A3).
      mstep Hs2 as wc2 w5 Hg. mret Hg. mstep Hs2 as u3 w6 Hun.
      eapply set_cell_art; [|exact Hs2].
      destruct (mjoin _).
      - mstep Hun as c2 w7 Hun2. mret Hun. eapply unlink_art; eauto.
      - mret Hun. exact A3. }
    destruct (execute_program_art _ _ _ _ _ _ _ _ _ _ A1 Hh eq_refl Hx) as (stdin & wc & A2).
    cbv zeta in A2. apply Hone in A2. apply Hclean in A2.
    eexists [_], _. split; [exact A2|]. split; [|split].
    + unfold captured. simpl. by rewrite app_nil_r.
    + simpl. lia.
    + repeat constructor.
Qed.

End Artifact.

Section EagerSize.

Variable child : World -> Exec -> list byte * option Z.

Lemma run_script_art relative proc fi w h nm w2 r w' :
  mkstemp (tmp_template (persistent w)) w = Some ((h, nm), w2) -> 0 < h ->
  run_script child relative proc fi w = Some (r, w') ->
  r = (h, set_direct_io 1 <$> fi)
  /\ exists i new nd',
       art h i (OFile i O_RDWR (Z.of_nat (length (captured new)))) nd'
         (w_trace w ++ new) w'
       /\ i_data nd' = captured new
       /\ (length new <= 1)%nat
       /\ Forall (fun e => x_out e.1 = h) new.
Proof.
  intros Hmk Hh Hrun.
  rewrite (run_script_after_mkstemp _ _ _ _ _ _ _ _ Hmk) in Hrun.
  destruct (Z.leb_spec h 0) as [|_]; [lia|].
  mstep Hrun as u w3 Hun. mstep Hrun as code w4 Hprog. mret Hrun.
  split; [done|].
  apply mkstemp_spec in Hmk. simpl in Hmk.
  destruct Hmk as [[-> _]|(ino & n & Hh0 & Hfree & Hino & Hnm & ->)]; [lia|].
  exists ino.
  assert (art h ino (OFile ino O_RDWR 0) (new_file w) (w_trace w)
            (set_seed n
               (set_fds (<[h:=OFile ino O_RDWR 0]> (w_fds w))
                  (set_names (<[nm:=ino]> (w_names w))
                     (set_inodes (<[ino:=new_file w]> (w_inodes w)) w))))) as A.
  { split; [|split; [|done]].
    - unfold lookup_fd. simpl. rewrite lookup_insert_eq.
      destruct (Z.ltb_spec h 0); [lia|done].
    - simpl. apply lookup_insert_eq. }
  pose proof (unlink_art _ _ _ _ _ _ _ _ _ A Hun) as A1.
  exact (call_program_func_art child h ino _ _ _ _ _ _ _ _ A1 eq_refl Hh Hprog).
Qed.

(** C5 (as amended).  Let [path] name a regular file of the mirror that the
    classifier matches.  Without [-l], [sfs_getattr] reports the size of the
    mirror file.  With [-l] it never fails, and: when the artifact cannot be
    created ([mkstemp] fails) it reports the size of the mirror file; when
    it is created it reports the number of bytes that the children started
    by the program (at most one, with the artifact as standard output)
    wrote, which is 0 when none was started or the child wrote nothing. *)
Theorem getattr_size_of_scripts (path : string) (sb : stat) (fi : option fuse_file_info)
    (w : World) (ino : positive) (nd : Inode) (proc : Procedure) (w1 : World) :
  resolves w false (relative_path (Some path)) ino nd ->
  S_ISREG (i_mode nd) = true ->
  opened w 0 ->
  get_script child (procs (persistent w)) (relative_path (Some path)) w
    = Some (Some proc, w1) ->
  (return_real_size (persistent w) = 0 ->
     exists st,
       sfs_getattr child (Some path) sb fi w = Some ((0, st, fi), w1)
       /\ st_size st = Z.of_nat (length (i_data nd)))
  /\ (return_real_size (persistent w) <> 0 ->
      exists h nm w2,
        mkstemp (tmp_template (persistent w1)) w1 = Some ((h, nm), w2)
        /\ ((h = -1
             /\ exists st w',
                  sfs_getattr child (Some path) sb fi w = Some ((0, st, fi), w')
                  /\ st_size st = Z.of_nat (length (i_data nd)))
            \/ (0 < h
                /\ exists st w' new,
                     sfs_getattr child (Some path) sb fi w
                     = Some ((0, st, set_direct_io 1 <$> fi), w')
                     /\ st_size st = Z.of_nat (length (captured new))
                     /\ w_trace w' = w_trace w1 ++ new
                     /\ (length new <= 1)%nat
                     /\ Forall (fun e => x_out e.1 = h) new))).
Proof.
  intros Hres Hreg Hstdin Hget.
  pose proof (sfs_getattr_script child _ sb fi _ _ _ _ _ Hres Hreg Hget) as Hga.
  split.
  - intros Hlazy. rewrite Hlazy in Hga. simpl in Hga.
    eexists. split; [exact Hga|reflexivity].
  - intros Heager. apply Z.eqb_neq in Heager. rewrite Heager in Hga. cbn [negb] in Hga.
    destruct (total_mkstemp (tmp_template (persistent w1)) w1) as ([h nm] & w2 & Hmk).
    exists h, nm, w2. split; [exact Hmk|].
    pose proof (get_script_opened _ _ _ _ _ _ _ Hstdin Hget) as Hstdin1.
    destruct (total_run_script child (relative_path (Some path)) proc fi w1)
      as (r & w3 & Hrun).
    destruct (mkstemp_result _ _ _ _ _ Hstdin1 Hmk) as [[-> He]|Hh].
    + left. split; [done|].
      assert (run_script child (relative_path (Some path)) proc fi w1
              = Some ((- errno w2, fi), w2)) as Hrs
        by (rewrite (run_script_after_mkstemp _ _ _ _ _ _ _ _ Hmk); reflexivity).
      assert (fstat (- errno w2) (clear_write_bits (stat_of ino nd)) w2
              = Some ((-1, clear_write_bits (stat_of ino nd)), set_errno EBADF w2)) as Hfs.
      { unfold fstat, bind, gets, lookup_fd. simpl.
        destruct (Z.ltb_spec (- errno w2) 0); [reflexivity|lia]. }
      destruct (total_close (- errno w2) (set_errno EBADF w2)) as (c & w4 & Hc).
      rewrite Hga. rewrite (bind_run _ _ _ _ _ Hrs). cbn [fst snd].
      rewrite (bind_run _ _ _ _ _ Hfs). cbn [fst snd].
      rewrite (bind_run _ _ _ _ _ Hc). unfold ret. simpl.
      do 2 eexists. split; reflexivity.
    + right. split; [done|].
      destruct (run_script_art _ _ _ _ _ _ _ _ _ Hmk Hh Hrun)
        as (-> & i & new & nd' & (Ho & Hi & Ht) & Hdata & Hlen & Hall).
      destruct (total_close h w3) as (c & w4 & Hc).
      exists (set_st_size (Z.of_nat (length (captured new)))
                (clear_write_bits (stat_of ino nd))), w4, new.
      split; [|split; [reflexivity|]].
      * rewrite Hga. rewrite (bind_run _ _ _ _ _ Hrun). cbn [fst snd].
        assert (fstat h (clear_write_bits (stat_of ino nd)) w3
                = Some ((0, stat_of i nd'), w3)) as Hfs.
        { unfold fstat, bind, gets. simpl. rewrite Ho, Hi. reflexivity. }
        rewrite (bind_run _ _ _ _ _ Hfs). cbn [fst snd].
        rewrite (bind_run _ _ _ _ _ Hc). unfold ret. simpl. rewrite Hdata. reflexivity.
      * split; [|done].
        apply close_spec in Hc as [[e ->]| ->]; exact Ht.
Qed.

End EagerSize.

Lemma getattr_size_of_scripts_witness :
  exists h nm w2,
    mkstemp "/dev/shm/sfs.XXXXXX" (Scenario.world [default_procedure] 1)
      = Some ((h, nm), w2)
    /\ ((h = -1
         /\ exists st w',
              sfs_getattr Scenario.child_hi (Some "/hello_script"%string)
                Scenario.no_stat None (Scenario.world [default_procedure] 1)
              = Some ((0, st, None), w')
              /\ st_size st
                 = Z.of_nat (length (i_data (Scenario.file_node S_IFREG 0x1ed
                                               Scenario.hello_script))))
        \/ (0 < h
            /\ exists st w' new,
                 sfs_getattr Scenario.child_hi (Some "/hello_script"%string)
                   Scenario.no_stat None (Scenario.world [default_procedure] 1)
                 = Some ((0, st, None), w')
                 /\ st_size st = Z.of_nat (length (captured new))
                 /\ w_trace w' = w_trace (Scenario.world [default_procedure] 1) ++ new
                 /\ (length new <= 1)%nat
                 /\ Forall (fun e => x_out e.1 = h) new)).
Proof.
  apply (proj2 (getattr_size_of_scripts Scenario.child_hi "/hello_script"
                  Scenario.no_stat None (Scenario.world [default_procedure] 1)
                  3%positive (Scenario.file_node S_IFREG 0x1ed Scenario.hello_script)
                  default_procedure (Scenario.world [default_procedure] 1)
                  (conj eq_refl eq_refl) eq_refl
                  (ex_intro _ (OPipe false) eq_refl) eq_refl)).
  discriminate.
Defined.

(** With [-l], a script whose program cannot be run ([call_program] fails
    and the child aborts) is reported with size 0, not with the 21 bytes of
    the mirror file. *)
Lemma getattr_size_when_the_program_fails :
  exists st w' x,
    sfs_getattr Scenario.child_aborts (Some "/hello_script"%string)
      Scenario.no_stat None (Scenario.world [default_procedure] 1)
    = Some ((0, st, None), w')
    /\ w_trace w' = [(x, ([], None))]
    /\ st_size st = 0
    /\ Z.of_nat (length (i_data (Scenario.file_node S_IFREG 0x1ed Scenario.hello_script)))
       = 21.
Proof.
  do 3 eexists. repeat split; vm_compute; reflexivity.
Qed.

Section WriteOnScript.

Variable child : World -> Exec -> list byte * option Z.
Variable FILENAME_MAX_LENGTH : nat.

(** [sfs_write] on a handle whose descriptor is a file open for writing. *)
Lemma sfs_write_open_file path buf offset fi w fs i fl pos nd :
  fh fi <> 0 -> w_heap w !! fh fi = Some fs -> is_folder fs = false ->
  lookup_fd w (file_handle fs) = Some (OFile i fl pos) ->
  (Z.land fl O_ACCMODE =? O_RDONLY) = false ->
  (Z.land fl O_APPEND =? 0) = true ->
  w_inodes w !! i = Some nd -> 0 <= offset ->
  exists w',
    sfs_write path buf offset (Some fi) w = Some (Z.of_nat (length buf), w')
    /\ w_inodes w' !! i
       = Some (with_data (write_at (Z.to_nat offset) buf (i_data nd)) nd).
Proof.
  intros Hfh Hheap Hfold Hfd Hfl Happ Hnd Hoff.
  apply lookup_fd_Some in Hfd as Hfd'. destruct Hfd' as [Hpos Hfd'].
  set (w1 := set_fds (<[file_handle fs := OFile i fl offset]> (w_fds w)) w).
  assert (deref (fh fi) w = Some (fs, w)) as Hderef
    by (unfold deref, bind, gets, id; rewrite Hheap; reflexivity).
  assert (lseek (file_handle fs) offset w = Some (offset, w1)) as Hseek.
  { unfold lseek, bind, gets, id. rewrite Hfd.
    destruct (Z.ltb_spec offset 0); [lia|reflexivity]. }
  assert (write (file_handle fs) buf w1
          = Some (Z.of_nat (length buf),
                  set_fds (<[file_handle fs := OFile i fl (offset + Z.of_nat (length buf))]>
                             (w_fds w1))
                    (set_inodes
                       (<[i := with_data (write_at (Z.to_nat offset) buf (i_data nd)) nd]>
                          (w_inodes w1)) w1))) as Hwrite.
  { unfold write, bind, gets, id.
    replace (lookup_fd w1 (file_handle fs)) with (Some (OFile i fl offset))
      by (symmetry; apply lookup_fd_insert_eq; exact Hpos).
    replace (w_inodes w1 !! i) with (Some nd) by (symmetry; exact Hnd).
    rewrite Hfl, Happ. reflexivity. }
  unfold sfs_write. apply Z.eqb_neq in Hfh. rewrite Hfh.
  rewrite (bind_run _ _ _ _ _ Hderef), Hfold, (bind_run _ _ _ _ _ Hseek).
  destruct (Z.ltb_spec offset 0); [lia|].
  rewrite (bind_run _ _ _ _ _ Hwrite).
  destruct (Z.leb_spec 0 (Z.of_nat (length buf))); [|lia].
  eexists. split; [reflexivity|]. simpl. apply lookup_insert_eq.
Qed.

Lemma sfs_open_script_write_flags path fi w proc w1 :
  get_script child (procs (persistent w)) (relative_path path) w = Some (Some proc, w1) ->
  Z.land (flags fi) O_WRONLY <> 0 \/ Z.land (flags fi) O_RDWR <> 0 ->
  sfs_open child FILENAME_MAX_LENGTH path fi w = Some ((- EACCES, fi), w1).
Proof.
  intros Hget Hfl. unfold sfs_open, bind, gets. rewrite Hget.
  assert (negb (Z.land (flags fi) O_WRONLY =? 0) || negb (Z.land (flags fi) O_RDWR =? 0)
          = true) as ->.
  { destruct Hfl as [H|H]; apply Z.eqb_neq in H; rewrite H; simpl;
      [done|apply orb_true_r]. }
  reflexivity.
Qed.

Lemma sfs_open_script_success path rel fi w proc w1 h nm w2 :
  relative_path (Some path) = Some rel ->
  get_script child (procs (persistent w)) (Some rel) w = Some (Some proc, w1) ->
  Z.land (flags fi) O_WRONLY = 0 -> Z.land (flags fi) O_RDWR = 0 ->
  mkstemp (tmp_template (persistent w1)) w1 = Some ((h, nm), w2) -> 0 < h ->
  exists w3,
    run_script child (Some rel) proc (Some fi) w1
      = Some ((h, Some (set_direct_io 1 fi)), w3)
    /\ sfs_open child FILENAME_MAX_LENGTH (Some path) fi w
       = Some ((0, set_fh (w_brk w3) (set_direct_io 1 fi)),
               set_heap (<[w_brk w3 := {| type := T_SCRIPT; file_handle := h;
                                          filename := copy_filename FILENAME_MAX_LENGTH rel |}]>
                           (w_heap w3)) (w_brk w3 + 0x1010) w3).
Proof.
  intros Hrel Hget Hwr Hrw Hmk Hh.
  destruct (total_run_script child (Some rel) proc (Some fi) w1) as (r & w3 & Hrun).
  destruct (run_script_art _ _ _ _ _ _ _ _ _ _ Hmk Hh Hrun) as [-> _].
  exists w3. split; [exact Hrun|].
  rewrite <- Hrel in Hget, Hrun.
  rewrite (sfs_open_script _ _ _ _ _ _ _ Hget Hwr Hrw), (bind_run _ _ _ _ _ Hrun).
  cbn [fst snd]. destruct (Z.leb_spec h 0) as [|_]; [lia|].
  rewrite Hrel. reflexivity.
Qed.

(** C3 (as amended).  A handle that [sfs_open] returns for a script is a
    [FileStruct] of type [T_SCRIPT] whose descriptor is the artifact, open
    read-write as [mkstemp] opened it.  [sfs_write] on such a handle (not
    null, offset not negative) is not refused: it returns the number of
    bytes given and writes them into the artifact at the offset. *)
Theorem write_on_script_handle_is_not_refused (path rel : string) (fi : fuse_file_info)
    (w : World) (proc : Procedure) (w1 : World) (fi' : fuse_file_info) (w' : World) :
  relative_path (Some path) = Some rel ->
  opened w 0 ->
  get_script child (procs (persistent w)) (Some rel) w = Some (Some proc, w1) ->
  sfs_open child FILENAME_MAX_LENGTH (Some path) fi w = Some ((0, fi'), w') ->
  fh fi' <> 0 ->
  exists fs i pos nd,
    w_heap w' !! fh fi' = Some fs /\ type fs = T_SCRIPT
    /\ lookup_fd w' (file_handle fs) = Some (OFile i O_RDWR pos)
    /\ w_inodes w' !! i = Some nd
    /\ forall p buf offset, 0 <= offset ->
         exists w'',
           sfs_write p buf offset (Some fi') w' = Some (Z.of_nat (length buf), w'')
           /\ w_inodes w'' !! i
              = Some (with_data (write_at (Z.to_nat offset) buf (i_data nd)) nd).
Proof.
  intros Hrel Hstdin Hget Hopen Hfh.
  rewrite <- Hrel in Hget.
  destruct (Z.eq_dec (Z.land (flags fi) O_WRONLY) 0) as [Hwr|Hwr];
    [destruct (Z.eq_dec (Z.land (flags fi) O_RDWR) 0) as [Hrw|Hrw]|].
  2: { rewrite (sfs_open_script_write_flags _ _ _ _ _ Hget (or_intror Hrw)) in Hopen.
       discriminate. }
  2: { rewrite (sfs_open_script_write_flags _ _ _ _ _ Hget (or_introl Hwr)) in Hopen.
       discriminate. }
  rewrite Hrel in Hget.
  destruct (total_mkstemp (tmp_template (persistent w1)) w1) as ([h nm] & w2 & Hmk).
  rewrite <- Hrel in Hget.
  pose proof (get_script_opened _ _ _ _ _ _ _ Hstdin Hget) as Hstdin1.
  rewrite Hrel in Hget.
  destruct (mkstemp_result _ _ _ _ _ Hstdin1 Hmk) as [[-> He]|Hh].
  - exfalso. rewrite <- Hrel in Hget.
    rewrite (sfs_open_script _ _ _ _ _ _ _ Hget Hwr Hrw) in Hopen.
    pose proof (run_script_after_mkstemp child (relative_path (Some path)) proc (Some fi)
                  _ _ _ _ Hmk) as Hrs.
    simpl in Hrs. rewrite (bind_run _ _ _ _ _ Hrs) in Hopen. cbn [fst snd] in Hopen.
    destruct (Z.leb_spec (- errno w2) 0); [|lia].
    unfold ret in Hopen. injection Hopen as Hz _ _. lia.
  - destruct (sfs_open_script_success _ _ _ _ _ _ _ _ _ Hrel Hget Hwr Hrw Hmk Hh)
      as (w3 & Hrun & Hres).
    rewrite Hres in Hopen. injection Hopen as <- <-.
    destruct (run_script_art _ _ _ _ _ _ _ _ _ _ Hmk Hh Hrun)
      as (_ & i & new & nd' & (Ho & Hi & Ht) & _).
    eexists _, i, _, nd'. split; [simpl; apply lookup_insert_eq|].
    split; [reflexivity|]. split; [exact Ho|]. split; [exact Hi|].
    intros p buf offset Hoff.
    eapply (sfs_write_open_file p buf offset _ _ _ i O_RDWR _ nd' Hfh).
    + simpl. apply lookup_insert_eq.
    + reflexivity.
    + exact Ho.
    + reflexivity.
    + reflexivity.
    + exact Hi.
    + exact Hoff.
Qed.

End WriteOnScript.

Lemma write_on_script_handle_is_not_refused_witness :
  exists fi' w' fs i pos nd,
    sfs_open Scenario.child_hi 4096 (Some "/hello_script"%string) Scenario.read_only
      (Scenario.world [default_procedure] 0) = Some ((0, fi'), w')
    /\ w_heap w' !! fh fi' = Some fs /\ type fs = T_SCRIPT
    /\ lookup_fd w' (file_handle fs) = Some (OFile i O_RDWR pos)
    /\ w_inodes w' !! i = Some nd
    /\ forall p buf offset, 0 <= offset ->
         exists w'',
           sfs_write p buf offset (Some fi') w' = Some (Z.of_nat (length buf), w'')
           /\ w_inodes w'' !! i
              = Some (with_data (write_at (Z.to_nat offset) buf (i_data nd)) nd).
Proof.
  destruct (sfs_open Scenario.child_hi 4096 (Some "/hello_script"%string)
              Scenario.read_only (Scenario.world [default_procedure] 0))
    as [[[code fi'] w']|] eqn:Hopen; [|vm_compute in Hopen; discriminate].
  assert (code = 0) as -> by (vm_compute in Hopen; congruence).
  destruct (write_on_script_handle_is_not_refused Scenario.child_hi 4096
              "/hello_script" "hello_script" Scenario.read_only
              (Scenario.world [default_procedure] 0) default_procedure
              (Scenario.world [default_procedure] 0) fi' w' eq_refl
              (ex_intro _ (OPipe false) eq_refl) eq_refl Hopen)
    as (fs & i & pos & nd & H).
  - vm_compute in Hopen. injection Hopen as <- _. discriminate.
  - exists fi', w', fs, i, pos, nd. split; [reflexivity|exact H].
Defined.

(** A script is opened read-only; a write of one byte through the handle
    is accepted, and a read then returns the changed artifact. *)
Lemma write_on_script_handle_changes_the_artifact :
  exists fi' w1 w2 w3,
    sfs_open Scenario.child_hi 4096 (Some "/hello_script"%string) Scenario.read_only
      (Scenario.world [default_procedure] 0) = Some ((0, fi'), w1)
    /\ type <$> w_heap w1 !! fh fi' = Some T_SCRIPT
    /\ sfs_read None 10 0 (Some fi') w1
       = Some ((3, Scenario.bytes (String.append "Hi" Scenario.nl)), w2)
    /\ sfs_write None (Scenario.bytes "X") 0 (Some fi') w1 = Some (1, w3)
    /\ exists w4,
         sfs_read None 10 0 (Some fi') w3
         = Some ((3, Scenario.bytes (String.append "Xi" Scenario.nl)), w4).
Proof.
  do 4 eexists.
  split; [vm_compute; reflexivity|]. split; [vm_compute; reflexivity|].
  split; [vm_compute; reflexivity|]. split; [vm_compute; reflexivity|].
  eexists. vm_compute. reflexivity.
Qed.

(** ** What the copies and the pipes leave alone *)

(** The file type bits of an inode. *)
Definition kind (nd : Inode) : Z := Z.land (i_mode nd) S_IFMT.

Lemma kind_with_data d nd : kind (with_data d nd) = kind nd.
Proof. reflexivity. Qed.

Lemma kind_with_times ts nd : kind (with_times ts nd) = kind nd.
Proof. reflexivity. Qed.

Lemma kind_with_mode m nd : kind (with_mode m nd) = kind nd.
Proof.
  unfold kind. simpl. rewrite Z.land_lor_distr_l.
  rewrite <- (Z.land_assoc (i_mode nd)), Z.land_diag.
  rewrite <- (Z.land_assoc m). replace (Z.land 0xFFF S_IFMT) with 0 by reflexivity.
  rewrite Z.land_0_r. apply Z.lor_0_r.
Qed.

(** Every inode of [w] is still there in [w'], with the same file type. *)
Definition kinds_kept (w w' : World) : Prop :=
  forall j nd, w_inodes w !! j = Some nd ->
    exists nd', w_inodes w' !! j = Some nd' /\ kind nd' = kind nd.

Lemma kinds_kept_refl w : kinds_kept w w.
Proof. intros j nd H. eauto. Qed.

Lemma kinds_kept_trans w1 w2 w3 : kinds_kept w1 w2 -> kinds_kept w2 w3 -> kinds_kept w1 w3.
Proof.
  intros H12 H23 j nd H. destruct (H12 _ _ H) as (nd2 & H2 & K2).
  destruct (H23 _ _ H2) as (nd3 & H3 & K3). exists nd3. split; [done|congruence].
Qed.

Lemma kinds_kept_same w w' : w_inodes w' = w_inodes w -> kinds_kept w w'.
Proof. intros E j nd H. rewrite E. eauto. Qed.

Lemma kinds_kept_update w w' ino nd f :
  w_inodes w !! ino = Some nd -> kind (f nd) = kind nd ->
  w_inodes w' = <[ino := f nd]> (w_inodes w) -> kinds_kept w w'.
Proof.
  intros Hnd Hk E j nd0 H. rewrite E. destruct (decide (ino = j)) as [->|Hne].
  - rewrite lookup_insert_eq. exists (f nd). split; [done|congruence].
  - rewrite lookup_insert_ne by done. eauto.
Qed.

Lemma kinds_kept_new w w' ino nd :
  w_inodes w !! ino = None -> w_inodes w' = <[ino := nd]> (w_inodes w) -> kinds_kept w w'.
Proof.
  intros Hfree E j nd0 H. rewrite E.
  rewrite lookup_insert_ne by congruence. eauto.
Qed.

(** The trace, the argument arrays, the names and the configuration are
    the same, and the inodes keep their types. *)
Record steady (w w' : World) : Prop := {
  sd_trace : w_trace w' = w_trace w;
  sd_argv : w_argv w' = w_argv w;
  sd_names : w_names w' = w_names w;
  sd_persistent : persistent w' = persistent w;
  sd_kinds : kinds_kept w w'
}.

Lemma steady_refl w : steady w w.
Proof. split; auto using kinds_kept_refl. Qed.

Lemma steady_trans w1 w2 w3 : steady w1 w2 -> steady w2 w3 -> steady w1 w3.
Proof. intros [] []. split; try congruence. eauto using kinds_kept_trans. Qed.

Lemma steady_same w w' :
  w_trace w' = w_trace w -> w_argv w' = w_argv w -> w_names w' = w_names w ->
  persistent w' = persistent w -> w_inodes w' = w_inodes w -> steady w w'.
Proof. intros. split; auto using kinds_kept_same. Qed.

Lemma steady_errno e w : steady w (set_errno e w).
Proof. by apply steady_same. Qed.
Lemma steady_fds f w : steady w (set_fds f w).
Proof. by apply steady_same. Qed.

Lemma openat_steady name fl w r w' : openat name fl w = Some (r, w') -> steady w w'.
Proof.
  intros H. apply openat_spec in H as [[-> [e ->]]|(ino & Hr & Hfree & ->)];
    auto using steady_errno, steady_fds.
Qed.

Lemma close_steady fd w r w' : close fd w = Some (r, w') -> steady w w'.
Proof.
  intros H. apply close_spec in H as [[e ->]| ->]; auto using steady_errno, steady_fds.
Qed.

Lemma fsync_steady fd w r w' : fsync fd w = Some (r, w') -> steady w w'.
Proof.
  intros H. apply fsync_spec in H as [->|[e ->]]; auto using steady_refl, steady_errno.
Qed.

Lemma pipe_steady w r w' : pipe w = Some (r, w') -> steady w w'.
Proof. intros H. apply pipe_spec in H as (_ & _ & _ & _ & _ & ->). apply steady_fds. Qed.

Lemma read_steady fd n w r w' : read fd n w = Some (r, w') -> steady w w'.
Proof.
  intros H. apply read_spec in H as [[e ->]|[->|(ino & fl & pos & k & Hfd & ->)]];
    auto using steady_errno, steady_fds, steady_refl.
Qed.

Lemma fstat_steady fd sb w r w' : fstat fd sb w = Some (r, w') -> steady w w'.
Proof.
  intros H. apply fstat_spec in H as [[_ ->]|[_ [e ->]]];
    auto using steady_errno, steady_refl.
Qed.

Lemma write_steady fd buf w r w' : write fd buf w = Some (r, w') -> steady w w'.
Proof.
  intros H.
  apply write_spec in H as [[e ->]|[->|(ino & fl & pos & k & nd & d & Hfd & Hnd & ->)]];
    auto using steady_errno, steady_refl.
  split; try done. eapply (kinds_kept_update _ _ ino nd (with_data d)); eauto.
Qed.

Lemma fchmod_steady fd m w r w' : fchmod fd m w = Some (r, w') -> steady w w'.
Proof.
  intros H.
  apply change_fd_spec in H as [[e ->]|[->|(ino & fl & pos & nd & Hfd & Hnd & ->)]];
    auto using steady_errno, steady_refl.
  split; try done.
  eapply (kinds_kept_update _ _ ino nd (with_mode m)); eauto using kind_with_mode.
Qed.

Lemma feed_pipe_steady fuel : forall inf wr sent w r w',
  feed_pipe fuel inf wr sent w = Some (r, w') -> steady w w'.
Proof.
  induction fuel as [|fuel IH]; intros inf wr sent w r w' H; simpl in H.
  - mret H. apply steady_refl.
  - mstep H as rd w1 Hrd. mstep H as wrote w2 Hw.
    eapply steady_trans; [eapply read_steady; eauto|].
    destruct (0 <? rd.1).
    + eapply steady_trans; [eapply write_steady; eauto|]. eauto.
    + mret Hw. mret H. apply steady_refl.
Qed.

Lemma copy_loop_steady fuel : forall fin fout w r w',
  copy_loop fuel fin fout w = Some (r, w') -> steady w w'.
Proof.
  induction fuel as [|fuel IH]; intros fin fout w r w' H; simpl in H.
  - mret H. apply steady_refl.
  - mstep H as rd w1 Hrd.
    eapply steady_trans; [eapply read_steady; eauto|].
    destruct (0 <? rd.1).
    + mstep H as wrote w2 Hw.
      eapply steady_trans; [eapply write_steady; eauto|]. eauto.
    + mret H. apply steady_refl.
Qed.

Lemma child_output_steady out buf w : steady w (child_output out buf w).
Proof.
  unfold child_output. repeat case_match; try apply steady_refl.
  split; try done. simpl.
  eapply (kinds_kept_update _ _ _ _ (with_data _)); eauto.
Qed.

Lemma temp_copy_names file w r w' :
  temp_copy file w = Some (r, w') ->
  w_trace w' = w_trace w /\ w_argv w' = w_argv w /\ kinds_kept w w'
  /\ match r with
     | None => w_names w' = w_names w
     | Some tmp =>
         w_names w !! tmp = None
         /\ exists j nd, w_names w' = <[tmp := j]> (w_names w)
                         /\ w_inodes w' !! j = Some nd /\ kind nd = S_IFREG
     end.
Proof.
  unfold temp_copy. intros H. mstep H as fin w1 Hopen.
  pose proof (openat_steady _ _ _ _ _ Hopen) as S1.
  destruct (fin =? -1).
  { mret H. destruct S1. done. }
  mstep H as template w2 Hg. mret Hg. mstep H as mk w2 Hmk.
  destruct (Z.eqb_spec mk.1 (-1)) as [Hm1|Hm1].
  - mstep H as c w3 Hc. mret H.
    apply mkstemp_spec in Hmk as [[_ (e & _ & ->)]|(ino & n & Hpos & _)]; [|lia].
    pose proof (steady_trans _ _ _ S1
                  (steady_trans _ _ _ (steady_errno e w1) (close_steady _ _ _ _ Hc))) as [].
    done.
  - mstep H as wc w3 Hg. mret Hg. mstep H as u w3 Hcopy.
    mstep H as st w4 Hst. mstep H as ch w5 Hch.
    mstep H as c1 w6 Hc1. mstep H as c2 w7 Hc2. mret H.
    assert (steady w4 w5) as S45.
    { destruct (st.1 =? -1); [mret Hch; apply steady_refl|].
      eapply fchmod_steady; eauto. }
    assert (steady w2 w7) as S27.
    { eapply steady_trans; [eapply copy_loop_steady; exact Hcopy|].
      eapply steady_trans; [eapply fstat_steady; exact Hst|].
      eapply steady_trans; [exact S45|].
      eapply steady_trans; [eapply close_steady; exact Hc1|].
      eapply close_steady; exact Hc2. }
    apply mkstemp_spec in Hmk as [[? _]|(ino & n & Hpos & Hfd & Hino & Hnm & ->)]; [done|].
    destruct S1 as [T1 A1 N1 P1 K1]. destruct S27 as [T2 A2 N2 P2 K2]. simpl in *.
    split; [congruence|]. split; [congruence|]. split.
    { eapply kinds_kept_trans; [exact K1|].
      eapply kinds_kept_trans; [|exact K2].
      eapply kinds_kept_new; [exact Hino|reflexivity]. }
    split; [congruence|].
    destruct (K2 ino (new_file w1)) as (nd' & Hnd' & Hk); [apply lookup_insert_eq|].
    exists ino, nd'. split; [congruence|]. split; [done|]. rewrite Hk. reflexivity.
Qed.

Section Invocations.

Variable child : World -> Exec -> list byte * option Z.

Lemma execute_program_calls file args out path_in w r w' :
  execute_program child file args out path_in w = Some (r, w') ->
  exists stdin wc,
    let x := {| x_file := file; x_argv := argv_of <$> args; x_out := out;
                x_stdin := stdin |} in
    w_trace w' = w_trace w ++ [(x, child wc x)]
    /\ w_argv w' = w_argv w /\ w_names w' = w_names w /\ kinds_kept w w'
    /\ r = match (child wc x).2 with Some s => Z.land s 0xff | None => 1 end.
Proof.
  unfold execute_program. intros H. mstep H as stdin w0 Hin.
  assert (steady w w0) as S0.
  { destruct path_in as [p|]; [|mret Hin; apply steady_refl].
    mstep Hin as fds w1 Hpipe. mstep Hin as c1 w2 Hc1. mstep Hin as inf w3 Hopen.
    mstep Hin as sent w4 Hfeed. mstep Hin as sy w45 Hsync.
    mstep Hin as c2 w5 Hc2. mret Hin.
    assert (steady w3 w4) as S34.
    { destruct (inf <? 0); [mret Hfeed; apply steady_refl|].
      mstep Hfeed as wc w6 Hg. mret Hg. eapply feed_pipe_steady; eauto. }
    eapply steady_trans; [eapply pipe_steady; exact Hpipe|].
    eapply steady_trans; [eapply close_steady; exact Hc1|].
    eapply steady_trans; [eapply openat_steady; exact Hopen|].
    eapply steady_trans; [exact S34|].
    eapply steady_trans; [eapply fsync_steady; exact Hsync|].
    eapply close_steady; exact Hc2. }
  mstep H as wc w1 Hg. mret Hg.
  mstep H as u1 w2 Hm1. mstep H as u2 w3 Hm2. mmod Hm1. mmod Hm2.
  exists stdin, w0. cbv zeta.
  set (x := {| x_file := file; x_argv := argv_of <$> args; x_out := out; x_stdin := stdin |}) in *.
  set (w1 := if out =? 0 then w0 else child_output out (child w0 x).1 w0) in *.
  assert (steady w0 w1) as S1.
  { subst w1. destruct (out =? 0); [apply steady_refl|apply child_output_steady]. }
  destruct (steady_trans _ _ _ S0 S1) as [T A N P K].
  assert (w' = set_trace (w_trace w1 ++ [(x, child w0 x)]) w1
          /\ r = match (child w0 x).2 with Some s => Z.land s 0xff | None => 1 end)
    as [-> ->].
  { destruct (child w0 x).2; mret H; done. }
  simpl. rewrite T. repeat split; try done.
Qed.

End Invocations.

Lemma unlink_regular w n j nd :
  w_names w !! n = Some j -> w_inodes w !! j = Some nd -> kind nd = S_IFREG ->
  unlink (Some n) w = Some (0, set_names (delete n (w_names w)) w).
Proof.
  intros Hn Hj Hk. unfold unlink, bind, gets, id, namei.
  change (namei_loop 40 w false n) with
    (match w_names w !! n with
     | None => inl ENOENT
     | Some ino =>
         match w_inodes w !! ino with
         | None => inl ENOENT
         | Some nd => inr ino
         end
     end : Z + positive).
  rewrite Hn, Hj. cbn iota. rewrite Hj.
  unfold S_ISDIR. unfold kind in Hk. rewrite Hk. reflexivity.
Qed.

Lemma cells_of_set_cell w a i v :
  cells_of (set_argv (<[a := <[i := v]> (cells_of w a)]> (w_argv w)) w) a
  = <[i := v]> (cells_of w a).
Proof. unfold cells_of at 1. simpl. by rewrite lookup_insert_eq. Qed.

Lemma set_cell_run a i v w :
  set_cell a i v w
  = Some (tt, set_argv (<[a := <[i := v]> (cells_of w a)]> (w_argv w)) w).
Proof. reflexivity. Qed.

Section Placeholder.

Variable child : World -> Exec -> list byte * option Z.

(** X25.  What the cell of the placeholder holds when the child is
    started.  In a call of [test_program] it holds the path as it was passed
    (the path relative to the mirror).  In a call of [program_external] it
    holds what [temp_copy] returned, whatever that is: when the copy was
    made, the name of the copy, which did not exist before the call, exists
    while the child runs and is unlinked when [program_external] returns;
    when [temp_copy] returned the null pointer, the names are left as they
    were. *)
Theorem placeholder_in_test_and_program :
  (forall t file w r w' a i cells,
      test_args t = Some a -> test_filearg t = Some i ->
      w_argv w !! a = Some cells -> (i < length cells)%nat ->
      test_program child t file w = Some (r, w') ->
      exists x res,
        w_trace w' = w_trace w ++ [(x, res)]
        /\ x_argv x = Some (argv_of (<[i := file]> cells))
        /\ <[i := file]> cells !! i = Some file
        /\ x_out x = 0)
  /\ (forall p file fd w r w' a i cells tmp w1,
        prog_args p = Some a -> prog_filearg p = Some i ->
        w_argv w !! a = Some cells -> (i < length cells)%nat ->
        temp_copy file w = Some (tmp, w1) ->
        program_external child p file fd w = Some (r, w') ->
        (exists x res,
            w_trace w' = w_trace w ++ [(x, res)]
            /\ x_argv x = Some (argv_of (<[i := tmp]> cells))
            /\ <[i := tmp]> cells !! i = Some tmp
            /\ x_out x = fd)
        /\ match tmp with
           | Some name =>
               w_names w !! name = None /\ is_Some (w_names w1 !! name)
               /\ w_names w' !! name = None
           | None => w_names w' = w_names w
           end).
Proof.
  split.
  - intros t file w r w' a i cells Ha Hi Hcells Hlen H.
    unfold test_program in H. rewrite Ha, Hi in H.
    mstep H as u1 w1 Hs1. rewrite set_cell_run in Hs1. injection Hs1 as _ <-.
    mstep H as wc w2 Hg. mret Hg.
    mstep H as code w3 Hx. mstep H as u2 w4 Hs2. mret H.
    rewrite set_cell_run in Hs2. injection Hs2 as _ <-.
    apply execute_program_calls in Hx as (stdin & wc & Ht & _).
    simpl in Ht. rewrite cells_of_set_cell in Ht.
    unfold cells_of in Ht. rewrite Hcells in Ht. simpl in Ht.
    eexists _, _. split; [exact Ht|]. split; [reflexivity|].
    split; [by apply list_lookup_insert_eq|reflexivity].
  - intros p file fd w r w' a i cells tmp w1 Ha Hi Hcells Hlen Htc H.
    unfold program_external in H. rewrite Ha, Hi in H.
    mstep H as u1 w2 Hs1. rewrite (bind_run _ _ _ _ _ Htc), set_cell_run in Hs1.
    injection Hs1 as _ <-.
    mstep H as wc w3 Hg. mret Hg.
    mstep H as code w3 Hx. mstep H as u2 w4 Hclean. mret H.
    mstep Hclean as wc2 w5 Hg. mret Hg. mstep Hclean as u3 w6 Hun.
    rewrite set_cell_run in Hclean. injection Hclean as _ <-.
    apply temp_copy_names in Htc as (Ttc & Atc & Ktc & Ntc).
    apply execute_program_calls in Hx as (stdin & wc & Ht & Ax & Nx & Kx & _).
    simpl in Ht, Ax, Nx. rewrite cells_of_set_cell in Ht.
    assert (cells_of w1 a = cells) as Hc1 by (unfold cells_of; rewrite Atc, Hcells; done).
    rewrite Hc1 in Ht.
    assert (cells_of w3 a = <[i := tmp]> cells) as Hc3.
    { unfold cells_of. rewrite Ax, lookup_insert_eq. simpl. by rewrite Hc1. }
    rewrite Hc3, list_lookup_insert_eq in Hun by done. simpl in Hun.
    split.
    + exists {| x_file := prog_path p; x_argv := Some (argv_of (<[i:=tmp]> cells));
                x_out := fd; x_stdin := stdin |}.
      eexists. split; [|split; [reflexivity|split; [by apply list_lookup_insert_eq|done]]].
      simpl. assert (w_trace w6 = w_trace w3) as ->.
      { destruct tmp as [name|]; [|mret Hun; done].
        mstep Hun as c w7 Hun1. mret Hun.
        apply unlink_spec in Hun1 as [[e ->]|(n & _ & ->)]; done. }
      rewrite Ht, Ttc. reflexivity.
    + destruct tmp as [name|].
      * destruct Ntc as (Hfree & j & nd & Hnames & Hj & Hkind).
        split; [exact Hfree|]. split; [rewrite Hnames, lookup_insert_eq; eauto|].
        mstep Hun as c w7 Hun1. mret Hun.
        assert (kinds_kept w1 w3) as K13.
        { eapply kinds_kept_trans; [|exact Kx]. by apply kinds_kept_same. }
        destruct (K13 _ _ Hj) as (nd3 & Hj3 & Hk3).
        rewrite (unlink_regular w3 name j nd3) in Hun1.
        -- injection Hun1 as _ <-. simpl. apply lookup_delete_eq.
        -- rewrite Nx. simpl. rewrite Hnames. apply lookup_insert_eq.
        -- exact Hj3.
        -- congruence.
      * mret Hun. simpl. rewrite Nx. simpl. exact Ntc.
Qed.

End Placeholder.

Lemma placeholder_in_test_and_program_witness :
  exists r1 v1 tmp w1 r2 w2,
    test_program Scenario.child_hi
      {| test_path := Some "/bin/echo"%string; test_args := Some 1%positive;
         test_filearg := Some 1%nat; test_filter := 0;
         test_compiled := None; test_func := Some Ftest_program |}
      (Some "hello_text"%string) (Scenario.world [Scenario.echo_both] 0)
    = Some (r1, v1)
    /\ (exists x res,
          w_trace v1 = w_trace (Scenario.world [Scenario.echo_both] 0) ++ [(x, res)]
          /\ x_argv x
             = Some (argv_of (<[1%nat := Some "hello_text"%string]>
                                [Some "/bin/echo"%string; Some "!"%string]))
          /\ <[1%nat := Some "hello_text"%string]>
               [Some "/bin/echo"%string; Some "!"%string] !! 1%nat
             = Some (Some "hello_text"%string)
          /\ x_out x = 0)
    /\ temp_copy (Some "hello_text"%string) (Scenario.world [Scenario.echo_both] 0)
       = Some (tmp, w1)
    /\ program_external Scenario.child_hi (program Scenario.echo_both)
         (Some "hello_text"%string) 0 (Scenario.world [Scenario.echo_both] 0)
       = Some (r2, w2)
    /\ (exists x res,
          w_trace w2 = w_trace (Scenario.world [Scenario.echo_both] 0) ++ [(x, res)]
          /\ x_argv x
             = Some (argv_of (<[1%nat := tmp]> [Some "/bin/echo"%string; Some "!"%string]))
          /\ <[1%nat := tmp]> [Some "/bin/echo"%string; Some "!"%string] !! 1%nat
             = Some tmp
          /\ x_out x = 0).
Proof.
  destruct (test_program Scenario.child_hi
              {| test_path := Some "/bin/echo"%string; test_args := Some 1%positive;
                 test_filearg := Some 1%nat; test_filter := 0;
                 test_compiled := None; test_func := Some Ftest_program |}
              (Some "hello_text"%string) (Scenario.world [Scenario.echo_both] 0))
    as [[r1 v1]|] eqn:Htest; [|vm_compute in Htest; discriminate].
  destruct (temp_copy (Some "hello_text"%string) (Scenario.world [Scenario.echo_both] 0))
    as [[tmp w1]|] eqn:Htc; [|vm_compute in Htc; discriminate].
  destruct (program_external Scenario.child_hi (program Scenario.echo_both)
              (Some "hello_text"%string) 0 (Scenario.world [Scenario.echo_both] 0))
    as [[r2 w2]|] eqn:Hprog; [|vm_compute in Hprog; discriminate].
  exists r1, v1, tmp, w1, r2, w2.
  split; [reflexivity|]. split.
  { refine (proj1 (placeholder_in_test_and_program Scenario.child_hi)
              _ _ _ _ _ 1%positive 1%nat [Some "/bin/echo"%string; Some "!"%string]
              _ _ _ _ Htest); [reflexivity|reflexivity|reflexivity|simpl; lia]. }
  split; [reflexivity|]. split; [reflexivity|].
  refine (proj1 (proj2 (placeholder_in_test_and_program Scenario.child_hi)
                   _ _ _ _ _ _ 1%positive 1%nat
                   [Some "/bin/echo"%string; Some "!"%string] tmp w1
                   _ _ _ _ Htc Hprog)); [reflexivity|reflexivity|reflexivity|simpl; lia].
Defined.

(** C7 (the code at the failing input).  With [-p "/bin/echo !"], the file
    [locked] (which the server may not read) is a script, because the test
    is run on its name and exits with 0.  When it is opened, [temp_copy]
    returns the null pointer; [program_external] stores it in the cell of
    the placeholder without a test and runs the program all the same, with
    an argument vector that ends where the placeholder stands: the program
    is not given the name of a copy, and [sfs_open] succeeds.
    [program_shell], on the same file, tests what [temp_copy] returned:
    it runs nothing and returns [-EACCES]. *)
Theorem program_without_a_temp_copy :
  exists fi' w' w1 w2,
    sfs_open Scenario.child_hi 4096 (Some "/locked"%string) Scenario.read_only
      (Scenario.world [Scenario.echo_both] 0) = Some ((0, fi'), w')
    /\ temp_copy (Some "locked"%string) (Scenario.world [Scenario.echo_both] 0)
       = Some (None, w1)
    /\ (fun e => x_argv e.1) <$> w_trace w'
       = [Some ["/bin/echo"%string; "locked"%string]; Some ["/bin/echo"%string]]
    /\ program_shell Scenario.child_hi (program Scenario.echo_both)
         (Some "locked"%string) 4 (Scenario.world [Scenario.echo_both] 0)
       = Some (- EACCES, w2)
    /\ w_trace w2 = [].
Proof.
  do 4 eexists.
  split; [vm_compute; reflexivity|].
  split; [vm_compute; reflexivity|].
  split; [vm_compute; reflexivity|].
  split; vm_compute; reflexivity.
Qed.

(** ** The handlers called with a handle and no path *)

(** C10 (the code at the failing input).  [hello_text] is opened
    read-write: the handle is the address of a
    [FileStruct] whose descriptor is 4.  [sfs_chmod], [sfs_truncate] and
    [sfs_utimens] called with a null path pass the address itself to
    [fchmod], [ftruncate] and [futimens]; it is not a descriptor, the calls
    fail with [EBADF] and the file is left as it was.  The same calls on
    the descriptor of the handle succeed. *)
Theorem handle_path_uses_the_handle_address :
  exists fi' w1 fs,
    sfs_open Scenario.child_hi 4096 (Some "/hello_text"%string)
      {| flags := O_RDWR; fh := 0; direct_io := 0 |}
      (Scenario.world [default_procedure] 0) = Some ((0, fi'), w1)
    /\ fh fi' = 0x55550000
    /\ w_heap w1 !! fh fi' = Some fs
    /\ type fs = T_FILE /\ file_handle fs = 4
    /\ (exists w2, sfs_chmod Scenario.child_hi None 0x180 (Some fi') w1
                   = Some (- EBADF, w2) /\ w_inodes w2 = w_inodes w1)
    /\ (exists w2, sfs_truncate Scenario.child_hi None 0 (Some fi') w1
                   = Some (- EBADF, w2) /\ w_inodes w2 = w_inodes w1)
    /\ (exists w2, sfs_utimens Scenario.child_hi None ((5, 0), (6, 0)) (Some fi') w1
                   = Some (- EBADF, w2) /\ w_inodes w2 = w_inodes w1)
    /\ (exists w2, fchmod (file_handle fs) 0x180 w1 = Some (0, w2)
                   /\ i_mode <$> w_inodes w2 !! 4%positive = Some (Z.lor S_IFREG 0x180))
    /\ (exists w2, ftruncate (file_handle fs) 0 w1 = Some (0, w2)
                   /\ i_data <$> w_inodes w2 !! 4%positive = Some []).
Proof.
  do 3 eexists.
  split; [vm_compute; reflexivity|]. split; [vm_compute; reflexivity|].
  split; [vm_compute; reflexivity|]. split; [vm_compute; reflexivity|].
  split; [vm_compute; reflexivity|].
  split; [eexists; split; vm_compute; reflexivity|].
  split; [eexists; split; vm_compute; reflexivity|].
  split; [eexists; split; vm_compute; reflexivity|].
  split; eexists; split; vm_compute; reflexivity.
Qed.

(** * Further properties of the handlers and of the operations *)

(** ** Reading through a handle *)

Lemma deref_run w a fs : w_heap w !! a = Some fs -> deref a w = Some (fs, w).
Proof. intros H. unfold deref, bind, gets, id. by rewrite H. Qed.

Lemma lseek_run w fd i fl pos off :
  lookup_fd w fd = Some (OFile i fl pos) -> 0 <= off ->
  lseek fd off w = Some (off, set_fds (<[fd := OFile i fl off]> (w_fds w)) w).
Proof.
  intros Hfd Hoff. unfold lseek, bind, gets, id. rewrite Hfd.
  destruct (Z.ltb_spec off 0); [lia|reflexivity].
Qed.

Lemma read_run w fd i fl pos nd n :
  lookup_fd w fd = Some (OFile i fl pos) -> w_inodes w !! i = Some nd ->
  (Z.land fl O_ACCMODE =? O_WRONLY) = false -> S_ISDIR (i_mode nd) = false ->
  read fd n w
  = Some ((Z.of_nat (length (take (Z.to_nat n) (drop (Z.to_nat pos) (i_data nd)))),
           take (Z.to_nat n) (drop (Z.to_nat pos) (i_data nd))),
          set_fds (<[fd := OFile i fl
                             (pos + Z.of_nat (length (take (Z.to_nat n)
                                                        (drop (Z.to_nat pos) (i_data nd)))))]>
                     (w_fds w)) w).
Proof.
  intros Hfd Hnd Hfl Hdir. unfold read, bind, gets, id. rewrite Hfd, Hnd, Hfl, Hdir.
  reflexivity.
Qed.

Lemma close_run w fd o :
  lookup_fd w fd = Some o -> close fd w = Some (0, set_fds (delete fd (w_fds w)) w).
Proof. intros Hfd. unfold close, bind, gets, id. by rewrite Hfd. Qed.

Lemma not_dir_of_kind nd : kind nd = S_IFREG -> S_ISDIR (i_mode nd) = false.
Proof. unfold kind, S_ISDIR. intros ->. reflexivity. Qed.

(** [sfs_read] on a handle whose descriptor is a file open for reading. *)
Lemma sfs_read_open_file path size offset fi w fs i fl pos nd :
  fh fi <> 0 -> w_heap w !! fh fi = Some fs -> is_folder fs = false ->
  lookup_fd w (file_handle fs) = Some (OFile i fl pos) ->
  (Z.land fl O_ACCMODE =? O_WRONLY) = false ->
  w_inodes w !! i = Some nd -> S_ISDIR (i_mode nd) = false -> 0 <= offset ->
  exists w',
    sfs_read path size offset (Some fi) w
    = Some ((Z.of_nat (length (take (Z.to_nat size) (drop (Z.to_nat offset) (i_data nd)))),
             take (Z.to_nat size) (drop (Z.to_nat offset) (i_data nd))), w')
    /\ w_inodes w' = w_inodes w /\ w_names w' = w_names w /\ w_heap w' = w_heap w.
Proof.
  intros Hfh Hheap Hfold Hfd Hfl Hnd Hdir Hoff.
  apply lookup_fd_Some in Hfd as Hfd'. destruct Hfd' as [Hpos Hfd'].
  set (w1 := set_fds (<[file_handle fs := OFile i fl offset]> (w_fds w)) w).
  assert (lookup_fd w1 (file_handle fs) = Some (OFile i fl offset)) as Hfd1
    by (apply lookup_fd_insert_eq; exact Hpos).
  unfold sfs_read. apply Z.eqb_neq in Hfh. rewrite Hfh.
  rewrite (bind_run _ _ _ _ _ (deref_run _ _ _ Hheap)), Hfold.
  rewrite (bind_run _ _ _ _ _ (lseek_run _ _ _ _ _ _ Hfd Hoff)).
  destruct (Z.ltb_spec offset 0); [lia|].
  rewrite (bind_run _ _ _ _ _ (read_run w1 _ _ _ _ _ size Hfd1 Hnd Hfl Hdir)).
  cbn [fst snd].
  destruct (Z.leb_spec 0 (Z.of_nat (length (take (Z.to_nat size)
                                              (drop (Z.to_nat offset) (i_data nd))))));
    [|lia].
  eexists. split; [reflexivity|]. done.
Qed.

Lemma unlink_kinds name w r w' : unlink name w = Some (r, w') -> kinds_kept w w'.
Proof.
  intros H. apply unlink_spec in H as [[e ->]|(n & _ & ->)]; by apply kinds_kept_same.
Qed.

Lemma set_cell_kinds a i v w r w' : set_cell a i v w = Some (r, w') -> kinds_kept w w'.
Proof. intros H. apply set_cell_spec in H as [s ->]. by apply kinds_kept_same. Qed.

Section ScriptHandle.

Variable child : World -> Exec -> list byte * option Z.
Variable FILENAME_MAX_LENGTH : nat.

Lemma call_program_func_kinds f p file h w code w' :
  call_program_func child f p file h w = Some (code, w') -> kinds_kept w w'.
Proof.
  intros H. destruct f; simpl in H.
  - unfold program_shell in H. mstep H as tmp w1 Htmp.
    destruct (temp_copy_names _ _ _ _ Htmp) as (_ & _ & K1 & _).
    destruct tmp as [tmp|].
    + mstep H as c w2 Hx. mstep H as u w3 Hun. mret H.
      destruct (execute_program_calls _ _ _ _ _ _ _ _ Hx) as (? & ? & _ & _ & _ & K2 & _).
      eauto using kinds_kept_trans, unlink_kinds.
    + mstep H as e w2 Hg. mret Hg. mret H. exact K1.
  - unfold program_external in H.
    mstep H as u1 w1 Hs1. mstep H as wc w2 Hg. mret Hg.
    mstep H as c w3 Hx. mstep H as u2 w4 Hs2. mret H.
    assert (kinds_kept w w1) as K1.
    { destruct (prog_args p), (prog_filearg p); try (mret Hs1; apply kinds_kept_refl).
      mstep Hs1 as tmp w5 Htmp.
      destruct (temp_copy_names _ _ _ _ Htmp) as (_ & _ & K & _).
      eauto using kinds_kept_trans, set_cell_kinds. }
    assert (kinds_kept w3 w4) as K3.
    { destruct (prog_args p), (prog_filearg p); try (mret Hs2; apply kinds_kept_refl).
      mstep Hs2 as wc2 w5 Hg. mret Hg. mstep Hs2 as u3 w6 Hun.
      eapply kinds_kept_trans; [|eapply set_cell_kinds; exact Hs2].
      destruct (mjoin _).
      - mstep Hun as c2 w7 Hun2. mret Hun. eapply unlink_kinds; eauto.
      - mret Hun. apply kinds_kept_refl. }
    destruct (execute_program_calls _ _ _ _ _ _ _ _ Hx) as (? & ? & _ & _ & _ & K2 & _).
    eauto using kinds_kept_trans.
Qed.

(** [run_script] once [mkstemp] has given the descriptor [h]: the artifact
    is a regular file that holds what the children of the program wrote. *)
Lemma run_script_artifact relative proc fi w h nm w2 r w' :
  mkstemp (tmp_template (persistent w)) w = Some ((h, nm), w2) -> 0 < h ->
  run_script child relative proc fi w = Some (r, w') ->
  exists i new nd',
    art h i (OFile i O_RDWR (Z.of_nat (length (captured new)))) nd'
      (w_trace w ++ new) w'
    /\ i_data nd' = captured new /\ kind nd' = S_IFREG
    /\ (length new <= 1)%nat
    /\ Forall (fun e => x_out e.1 = h) new.
Proof.
  intros Hmk Hh Hrun.
  rewrite (run_script_after_mkstemp _ _ _ _ _ _ _ _ Hmk) in Hrun.
  destruct (Z.leb_spec h 0) as [|_]; [lia|].
  mstep Hrun as u w3 Hun. mstep Hrun as code w4 Hprog. mret Hrun.
  apply mkstemp_spec in Hmk. simpl in Hmk.
  destruct Hmk as [[-> _]|(ino & n & Hh0 & Hfree & Hino & Hnm & ->)]; [lia|].
  exists ino.
  assert (art h ino (OFile ino O_RDWR 0) (new_file w) (w_trace w)
            (set_seed n
               (set_fds (<[h:=OFile ino O_RDWR 0]> (w_fds w))
                  (set_names (<[nm:=ino]> (w_names w))
                     (set_inodes (<[ino:=new_file w]> (w_inodes w)) w))))) as A.
  { split; [|split; [|done]].
    - unfold lookup_fd. simpl. rewrite lookup_insert_eq.
      destruct (Z.ltb_spec h 0); [lia|done].
    - simpl. apply lookup_insert_eq. }
  pose proof (kinds_kept_trans _ _ _ (unlink_kinds _ _ _ _ Hun)
                (call_program_func_kinds _ _ _ _ _ _ _ Hprog)) as K.
  destruct (K ino (new_file w)) as (nd2 & Hnd2 & Hk2); [simpl; apply lookup_insert_eq|].
  pose proof (unlink_art _ _ _ _ _ _ _ _ _ A Hun) as A1.
  destruct (call_program_func_art child h ino _ _ _ _ _ _ _ _ A1 eq_refl Hh Hprog)
    as (new & nd' & A2 & Hdata & Hlen & Hout).
  exists new, nd'. split; [exact A2|]. split; [exact Hdata|].
  split; [|split; [exact Hlen|exact Hout]].
  destruct A2 as (_ & Hi & _). rewrite Hi in Hnd2. injection Hnd2 as <-. exact Hk2.
Qed.

(** What [sfs_open] leaves behind for a script: the handle is the address of
    a [FileStruct] of type [T_SCRIPT]; its descriptor is the artifact, a
    regular file that holds what the children of the program wrote. *)
Lemma sfs_open_script_handle path rel fi w proc w1 fi' w' :
  relative_path (Some path) = Some rel ->
  opened w 0 ->
  get_script child (procs (persistent w)) (Some rel) w = Some (Some proc, w1) ->
  sfs_open child FILENAME_MAX_LENGTH (Some path) fi w = Some ((0, fi'), w') ->
  exists h i new nd,
    0 < h
    /\ w_heap w' !! fh fi'
       = Some {| type := T_SCRIPT; file_handle := h;
                 filename := copy_filename FILENAME_MAX_LENGTH rel |}
    /\ direct_io fi' = 1
    /\ art h i (OFile i O_RDWR (Z.of_nat (length (captured new)))) nd
         (w_trace w1 ++ new) w'
    /\ i_data nd = captured new /\ kind nd = S_IFREG
    /\ (length new <= 1)%nat
    /\ Forall (fun e => x_out e.1 = h) new.
Proof.
  intros Hrel Hstdin Hget Hopen.
  rewrite <- Hrel in Hget.
  destruct (Z.eq_dec (Z.land (flags fi) O_WRONLY) 0) as [Hwr|Hwr];
    [destruct (Z.eq_dec (Z.land (flags fi) O_RDWR) 0) as [Hrw|Hrw]|].
  2: { rewrite (sfs_open_script_write_flags child FILENAME_MAX_LENGTH _ _ _ _ _ Hget
                  (or_intror Hrw)) in Hopen.
       discriminate. }
  2: { rewrite (sfs_open_script_write_flags child FILENAME_MAX_LENGTH _ _ _ _ _ Hget
                  (or_introl Hwr)) in Hopen.
       discriminate. }
  destruct (total_mkstemp (tmp_template (persistent w1)) w1) as ([h nm] & w2 & Hmk).
  pose proof (get_script_opened _ _ _ _ _ _ _ Hstdin Hget) as Hstdin1.
  destruct (mkstemp_result _ _ _ _ _ Hstdin1 Hmk) as [[-> He]|Hh].
  - exfalso.
    rewrite (sfs_open_script child FILENAME_MAX_LENGTH _ _ _ _ _ Hget Hwr Hrw) in Hopen.
    pose proof (run_script_after_mkstemp child (relative_path (Some path)) proc (Some fi)
                  _ _ _ _ Hmk) as Hrs.
    simpl in Hrs. rewrite (bind_run _ _ _ _ _ Hrs) in Hopen. cbn [fst snd] in Hopen.
    destruct (Z.leb_spec (- errno w2) 0); [|lia].
    unfold ret in Hopen. injection Hopen as Hz _ _. lia.
  - rewrite Hrel in Hget.
    destruct (sfs_open_script_success child FILENAME_MAX_LENGTH _ _ _ _ _ _ _ _ _
                Hrel Hget Hwr Hrw Hmk Hh) as (w3 & Hrun & Hres).
    rewrite Hres in Hopen. injection Hopen as <- <-.
    destruct (run_script_artifact _ _ _ _ _ _ _ _ _ Hmk Hh Hrun)
      as (i & new & nd' & A & Hdata & Hkind & Hlen & Hout).
    exists h, i, new, nd'.
    split; [exact Hh|]. split; [simpl; apply lookup_insert_eq|].
    split; [reflexivity|]. split; [exact A|]. done.
Qed.

(** X1.  The handle of an opened script reads as the standard
    output of the program: [sfs_read] with a size and an offset returns that
    part of the bytes the children started by [sfs_open] wrote. *)
Theorem read_of_a_script_handle_returns_the_output (path rel : string)
    (fi : fuse_file_info) (w : World) (proc : Procedure) (w1 : World)
    (fi' : fuse_file_info) (w' : World) :
  relative_path (Some path) = Some rel ->
  opened w 0 ->
  get_script child (procs (persistent w)) (Some rel) w = Some (Some proc, w1) ->
  sfs_open child FILENAME_MAX_LENGTH (Some path) fi w = Some ((0, fi'), w') ->
  fh fi' <> 0 ->
  exists new,
    w_trace w' = w_trace w1 ++ new /\ (length new <= 1)%nat
    /\ forall p size offset, 0 <= offset ->
         exists w'',
           sfs_read p size offset (Some fi') w'
           = Some ((Z.of_nat (length (take (Z.to_nat size)
                                        (drop (Z.to_nat offset) (captured new)))),
                    take (Z.to_nat size) (drop (Z.to_nat offset) (captured new))), w'').
Proof.
  intros Hrel Hstdin Hget Hopen Hfh.
  destruct (sfs_open_script_handle _ _ _ _ _ _ _ _ Hrel Hstdin Hget Hopen)
    as (h & i & new & nd & Hh & Hheap & _ & (Ho & Hi & Ht) & Hdata & Hkind & Hlen & _).
  exists new. split; [exact Ht|]. split; [exact Hlen|].
  intros p size offset Hoff.
  destruct (sfs_read_open_file p size offset fi' w' _ i O_RDWR _ nd Hfh Hheap eq_refl
              Ho eq_refl Hi (not_dir_of_kind _ Hkind) Hoff) as (w'' & Hread & _).
  exists w''. rewrite <- Hdata. exact Hread.
Qed.

End ScriptHandle.

Lemma read_of_a_script_handle_returns_the_output_witness :
  exists fi' w' new,
    sfs_open Scenario.child_hi 4096 (Some "/hello_script"%string) Scenario.read_only
      (Scenario.world [default_procedure] 0) = Some ((0, fi'), w')
    /\ w_trace w' = w_trace (Scenario.world [default_procedure] 0) ++ new
    /\ (length new <= 1)%nat
    /\ forall p size offset, 0 <= offset ->
         exists w'',
           sfs_read p size offset (Some fi') w'
           = Some ((Z.of_nat (length (take (Z.to_nat size)
                                        (drop (Z.to_nat offset) (captured new)))),
                    take (Z.to_nat size) (drop (Z.to_nat offset) (captured new))), w'').
Proof.
  destruct (sfs_open Scenario.child_hi 4096 (Some "/hello_script"%string)
              Scenario.read_only (Scenario.world [default_procedure] 0))
    as [[[code fi'] w']|] eqn:Hopen; [|vm_compute in Hopen; discriminate].
  assert (code = 0) as -> by (vm_compute in Hopen; congruence).
  destruct (read_of_a_script_handle_returns_the_output Scenario.child_hi 4096
              "/hello_script" "hello_script" Scenario.read_only
              (Scenario.world [default_procedure] 0) default_procedure
              (Scenario.world [default_procedure] 0) fi' w' eq_refl
              (ex_intro _ (OPipe false) eq_refl) eq_refl Hopen)
    as (new & H).
  - vm_compute in Hopen. injection Hopen as <- _. discriminate.
  - exists fi', w', new. split; [reflexivity|exact H].
Defined.

Lemma permitted_quiet w w' nd want : quiet w w' -> permitted w' nd want = permitted w nd want.
Proof. intros Q. destruct Q as [_ Qu Qg _ _ _ _ _ _]. unfold permitted. by rewrite Qu, Qg. Qed.

Lemma openat_run w name fl ino nd :
  resolves w true name ino nd ->
  S_ISDIR (i_mode nd) && negb (Z.land fl O_ACCMODE =? O_RDONLY) = false ->
  permitted w nd (if Z.land fl O_ACCMODE =? O_RDONLY then R_OK
                  else if Z.land fl O_ACCMODE =? O_WRONLY then W_OK
                  else Z.lor R_OK W_OK) = true ->
  openat name fl w
  = Some (fresh_fd w, set_fds (<[fresh_fd w := OFile ino fl 0]> (w_fds w)) w).
Proof.
  intros [Hn Hi] Hdir Hperm. unfold openat, bind, gets, id. rewrite Hn, Hi.
  cbv zeta. rewrite Hdir, Hperm. reflexivity.
Qed.

Section PlainFiles.

Variable child : World -> Exec -> list byte * option Z.
Variable FILENAME_MAX_LENGTH : nat.

Lemma sfs_open_plain path fi w w1 :
  get_script child (procs (persistent w)) (relative_path path) w = Some (None, w1) ->
  sfs_open child FILENAME_MAX_LENGTH path fi w
  = (handle <- openat (relative_path path) (flags fi) ;;
     if handle <=? 0 then e <- gets errno ;; ret (- e, fi)
     else match relative_path path with
          | None => fault
          | Some rel =>
              fs <- new_FileStruct {| type := T_FILE; file_handle := handle;
                                      filename := copy_filename FILENAME_MAX_LENGTH rel |} ;;
              ret (0, set_fh fs (set_direct_io 0 fi))
          end) w1.
Proof.
  intros Hget. unfold sfs_open. unfold bind at 1. unfold gets at 1.
  unfold bind at 1. rewrite Hget.
  unfold bind. destruct (openat _ _ w1) as [[h w2]|]; [|done].
  destruct (h <=? 0); [|reflexivity].
  unfold gets. reflexivity.
Qed.

(** X2.  A file of the mirror that is no script, opened for
    reading, reads as the mirror file: [sfs_open] succeeds with [direct_io]
    off, starts no program, and [sfs_read] through the handle returns the
    bytes of the file at the offset. *)
Theorem read_of_a_plain_file_returns_the_mirror_bytes (path rel : string)
    (fi : fuse_file_info) (w w1 : World) (ino : positive) (nd : Inode) :
  relative_path (Some path) = Some rel ->
  opened w 0 -> w_brk w <> 0 ->
  get_script child (procs (persistent w)) (Some rel) w = Some (None, w1) ->
  resolves w true (Some rel) ino nd ->
  S_ISDIR (i_mode nd) = false ->
  Z.land (flags fi) O_ACCMODE = O_RDONLY ->
  permitted w nd R_OK = true ->
  exists fi' w',
    sfs_open child FILENAME_MAX_LENGTH (Some path) fi w = Some ((0, fi'), w')
    /\ direct_io fi' = 0
    /\ w_trace w' = w_trace w1
    /\ forall p size offset, 0 <= offset ->
         exists w'',
           sfs_read p size offset (Some fi') w'
           = Some ((Z.of_nat (length (take (Z.to_nat size)
                                        (drop (Z.to_nat offset) (i_data nd)))),
                    take (Z.to_nat size) (drop (Z.to_nat offset) (i_data nd))), w'').
Proof.
  intros Hrel Hstdin Hbrk Hget Hres Hdir Hacc Hperm.
  rewrite <- Hrel in Hget.
  pose proof (get_script_quiet _ _ _ _ _ _ Hget) as Q.
  pose proof (get_script_opened _ _ _ _ _ _ _ Hstdin Hget) as Hstdin1.
  pose proof (resolves_quiet _ _ _ _ _ _ Q Hres) as Hres1.
  assert (openat (Some rel) (flags fi) w1
          = Some (fresh_fd w1,
                  set_fds (<[fresh_fd w1 := OFile ino (flags fi) 0]> (w_fds w1)) w1)) as Hopen.
  { apply (openat_run _ _ _ _ nd Hres1).
    - rewrite Hacc. simpl. apply andb_false_r.
    - rewrite Hacc. simpl. rewrite (permitted_quiet _ _ _ _ Q). exact Hperm. }
  assert (0 < fresh_fd w1) as Hpos.
  { pose proof (fresh_fd_nonneg w1). pose proof (fresh_fd_free w1) as Hfree.
    destruct Hstdin1 as [o Ho]. apply lookup_fd_Some in Ho as [_ Ho].
    assert (fresh_fd w1 <> 0) by congruence. lia. }
  rewrite (sfs_open_plain _ _ _ _ Hget). rewrite Hrel.
  rewrite (bind_run _ _ _ _ _ Hopen).
  destruct (Z.leb_spec (fresh_fd w1) 0) as [|_]; [lia|].
  eexists _, _. split; [reflexivity|]. split; [reflexivity|]. split; [reflexivity|].
  intros p size offset Hoff.
  set (w2 := set_fds (<[fresh_fd w1 := OFile ino (flags fi) 0]> (w_fds w1)) w1).
  assert (w_brk w1 = w_brk w) as Hb by (destruct Q; done).
  edestruct (sfs_read_open_file p size offset
               (set_fh (w_brk w2) (set_direct_io 0 fi))
               (set_heap (<[w_brk w2 := {| type := T_FILE; file_handle := fresh_fd w1;
                                           filename := copy_filename FILENAME_MAX_LENGTH rel |}]>
                            (w_heap w2)) (w_brk w2 + 0x1010) w2)
               {| type := T_FILE; file_handle := fresh_fd w1;
                  filename := copy_filename FILENAME_MAX_LENGTH rel |}
               ino (flags fi) 0 nd) as (w'' & Hread & _).
  - subst w2. simpl. rewrite Hb. exact Hbrk.
  - simpl. apply lookup_insert_eq.
  - reflexivity.
  - simpl. apply (lookup_fd_insert_eq w1). lia.
  - rewrite Hacc. reflexivity.
  - simpl. destruct Hres1 as [_ Hi]. exact Hi.
  - exact Hdir.
  - exact Hoff.
  - exists w''. exact Hread.
Qed.

End PlainFiles.

Lemma read_of_a_plain_file_returns_the_mirror_bytes_witness :
  exists w1 fi' w',
    get_script Scenario.child_hi [default_procedure] (Some "hello_text"%string)
      (Scenario.world [default_procedure] 0) = Some (None, w1)
    /\ sfs_open Scenario.child_hi 4096 (Some "/hello_text"%string) Scenario.read_only
         (Scenario.world [default_procedure] 0) = Some ((0, fi'), w')
    /\ direct_io fi' = 0
    /\ w_trace w' = w_trace w1
    /\ forall p size offset, 0 <= offset ->
         exists w'',
           sfs_read p size offset (Some fi') w'
           = Some ((Z.of_nat (length (take (Z.to_nat size)
                                        (drop (Z.to_nat offset)
                                           (Scenario.bytes Scenario.hello_text)))),
                    take (Z.to_nat size)
                      (drop (Z.to_nat offset) (Scenario.bytes Scenario.hello_text))), w'').
Proof.
  destruct (get_script Scenario.child_hi [default_procedure] (Some "hello_text"%string)
              (Scenario.world [default_procedure] 0)) as [[[proc|] w1]|] eqn:Hget;
    [vm_compute in Hget; discriminate| |vm_compute in Hget; discriminate].
  destruct (read_of_a_plain_file_returns_the_mirror_bytes Scenario.child_hi 4096
              "/hello_text" "hello_text" Scenario.read_only
              (Scenario.world [default_procedure] 0) w1 4%positive
              (Scenario.file_node S_IFREG 0x1a4 Scenario.hello_text))
    as (fi' & w' & H).
  - reflexivity.
  - exists (OPipe false). reflexivity.
  - discriminate.
  - exact Hget.
  - split; reflexivity.
  - reflexivity.
  - reflexivity.
  - reflexivity.
  - exists w1, fi', w'. split; [reflexivity|exact H].
Defined.

(** X4.  The handlers that work on a handle ([sfs_read],
    [sfs_write], [sfs_release], [sfs_fsync], [sfs_flush]) answer [-EBADF]
    when no file information is given or when the handle in it is null, and
    touch nothing. *)
Theorem handle_handlers_refuse_a_null_handle (fi : option fuse_file_info)
    (p : option string) (size offset sync : Z) (buf : list byte) (w : World) :
  (forall i, fi = Some i -> fh i = 0) ->
  sfs_read p size offset fi w = Some ((- EBADF, []), w)
  /\ sfs_write p buf offset fi w = Some (- EBADF, w)
  /\ sfs_release p fi w = Some (- EBADF, w)
  /\ sfs_fsync p sync fi w = Some (- EBADF, w)
  /\ sfs_flush p fi w = Some (- EBADF, w).
Proof.
  intros Hnull. destruct fi as [i|]; [|done].
  unfold sfs_read, sfs_write, sfs_release, sfs_fsync, sfs_flush.
  rewrite (Hnull i eq_refl). done.
Qed.

Lemma handle_handlers_refuse_a_null_handle_witness :
  sfs_read None 10 0 (Some Scenario.read_only) (Scenario.world [default_procedure] 0)
  = Some ((- EBADF, []), Scenario.world [default_procedure] 0)
  /\ sfs_write None [] 0 (Some Scenario.read_only) (Scenario.world [default_procedure] 0)
     = Some (- EBADF, Scenario.world [default_procedure] 0)
  /\ sfs_release None (Some Scenario.read_only) (Scenario.world [default_procedure] 0)
     = Some (- EBADF, Scenario.world [default_procedure] 0)
  /\ sfs_fsync None 0 (Some Scenario.read_only) (Scenario.world [default_procedure] 0)
     = Some (- EBADF, Scenario.world [default_procedure] 0)
  /\ sfs_flush None (Some Scenario.read_only) (Scenario.world [default_procedure] 0)
     = Some (- EBADF, Scenario.world [default_procedure] 0).
Proof.
  apply (handle_handlers_refuse_a_null_handle (Some Scenario.read_only) None 10 0 0 []).
  intros i [= <-]. reflexivity.
Defined.

(** X5.  On the handle of a directory the same handlers answer
    [-EISDIR]: the descriptor of the directory is neither read, written,
    synchronised nor closed, and the [FileStruct] is not freed. *)
Theorem handle_handlers_refuse_a_folder (fi : fuse_file_info) (fs : FileStruct)
    (p : option string) (size offset sync : Z) (buf : list byte) (w : World) :
  fh fi <> 0 -> w_heap w !! fh fi = Some fs -> type fs = T_FOLDER ->
  sfs_read p size offset (Some fi) w = Some ((- EISDIR, []), w)
  /\ sfs_write p buf offset (Some fi) w = Some (- EISDIR, w)
  /\ sfs_release p (Some fi) w = Some (- EISDIR, w)
  /\ sfs_fsync p sync (Some fi) w = Some (- EISDIR, w)
  /\ sfs_flush p (Some fi) w = Some (- EISDIR, w).
Proof.
  intros Hfh Hheap Htype.
  unfold sfs_read, sfs_write, sfs_release, sfs_fsync, sfs_flush.
  apply Z.eqb_neq in Hfh. rewrite Hfh.
  rewrite !(bind_run _ _ _ _ _ (deref_run _ _ _ Hheap)).
  unfold is_folder. rewrite Htype. done.
Qed.

Definition folder_world : World :=
  set_heap (<[0x55550000 := {| type := T_FOLDER; file_handle := 3;
                                filename := "." |}]> ∅) 0x55551010
    (Scenario.world [default_procedure] 0).

Lemma handle_handlers_refuse_a_folder_witness :
  sfs_read None 10 0 (Some {| flags := 0; fh := 0x55550000; direct_io := 0 |}) folder_world
  = Some ((- EISDIR, []), folder_world)
  /\ sfs_write None [] 0 (Some {| flags := 0; fh := 0x55550000; direct_io := 0 |})
       folder_world = Some (- EISDIR, folder_world)
  /\ sfs_release None (Some {| flags := 0; fh := 0x55550000; direct_io := 0 |}) folder_world
     = Some (- EISDIR, folder_world)
  /\ sfs_fsync None 0 (Some {| flags := 0; fh := 0x55550000; direct_io := 0 |}) folder_world
     = Some (- EISDIR, folder_world)
  /\ sfs_flush None (Some {| flags := 0; fh := 0x55550000; direct_io := 0 |}) folder_world
     = Some (- EISDIR, folder_world).
Proof.
  apply (handle_handlers_refuse_a_folder
           {| flags := 0; fh := 0x55550000; direct_io := 0 |}
           {| type := T_FOLDER; file_handle := 3; filename := "." |} None 10 0 0 []).
  - discriminate.
  - reflexivity.
  - reflexivity.
Defined.

(** X6.  [sfs_release] on the handle of a file or of a script closes
    the descriptor of the handle and frees the [FileStruct]; it touches no
    other descriptor, no other block, and neither the names nor the files.
    Its result is 0 when the descriptor was open and [-EBADF] when it was
    not; the block is freed in both cases. *)
Theorem release_closes_and_frees (p : option string) (fi : fuse_file_info)
    (fs : FileStruct) (w : World) :
  fh fi <> 0 -> w_heap w !! fh fi = Some fs -> type fs <> T_FOLDER ->
  exists r w',
    sfs_release p (Some fi) w = Some (r, w')
    /\ r = (if bool_decide (opened w (file_handle fs)) then 0 else - EBADF)
    /\ lookup_fd w' (file_handle fs) = None
    /\ (forall fd, fd <> file_handle fs -> lookup_fd w' fd = lookup_fd w fd)
    /\ w_heap w' = delete (fh fi) (w_heap w)
    /\ w_names w' = w_names w /\ w_inodes w' = w_inodes w /\ w_trace w' = w_trace w.
Proof.
  intros Hfh Hheap Htype.
  unfold sfs_release. apply Z.eqb_neq in Hfh. rewrite Hfh.
  rewrite (bind_run _ _ _ _ _ (deref_run _ _ _ Hheap)).
  assert (is_folder fs = false) as -> by (unfold is_folder; destruct (type fs); done).
  destruct (decide (opened w (file_handle fs))) as [Hop|Hno].
  - destruct Hop as [o Hfd] eqn:E. clear E.
    rewrite (bind_run _ _ _ _ _ (close_run _ _ _ Hfd)).
    eexists _, _. split; [reflexivity|].
    rewrite bool_decide_eq_true_2 by (by exists o).
    split; [reflexivity|]. split.
    { unfold lookup_fd. simpl. rewrite lookup_delete_eq. by destruct (_ <? 0). }
    split; [|done].
    intros fd Hne. unfold lookup_fd. simpl. by rewrite lookup_delete_ne.
  - assert (lookup_fd w (file_handle fs) = None) as Hfd.
    { destruct (lookup_fd w (file_handle fs)) as [o|] eqn:E; [|done].
      exfalso. apply Hno. by exists o. }
    assert (close (file_handle fs) w = Some (-1, set_errno EBADF w)) as Hc
      by (unfold close, bind, gets, id; rewrite Hfd; reflexivity).
    rewrite (bind_run _ _ _ _ _ Hc).
    eexists _, _. split; [reflexivity|].
    rewrite bool_decide_eq_false_2 by exact Hno.
    split; [reflexivity|]. split; [exact Hfd|]. done.
Qed.

(** ** The copy loops *)

Lemma take_chunk {A} (l : list A) (p n : nat) :
  take p l ++ take n (drop p l) = take (p + length (take n (drop p l))) l.
Proof.
  rewrite take_take_drop. rewrite length_take, length_drop.
  destruct (Nat.le_gt_cases n (length l - p)) as [Hle|Hgt].
  - by rewrite Nat.min_l.
  - rewrite Nat.min_r by lia. rewrite !take_ge by lia. done.
Qed.

Lemma write_at_end (p : nat) (buf data : list byte) :
  (p <= length data)%nat ->
  write_at p buf (take p data) = take p data ++ buf.
Proof.
  intros Hp. unfold write_at. destruct buf as [|b buf]; [by rewrite app_nil_r|].
  rewrite take_idemp, length_take_le by done.
  rewrite Nat.sub_diag. simpl replicate.
  rewrite (drop_ge (take p data)) by (rewrite length_take; lia).
  by rewrite app_nil_r.
Qed.

Lemma openat_resolved w name fl ino nd r w' :
  resolves w true name ino nd -> openat name fl w = Some (r, w') ->
  (r = -1 /\ err_only w w')
  \/ (r = fresh_fd w /\ w' = set_fds (<[r := OFile ino fl 0]> (w_fds w)) w
      /\ permitted w nd (if Z.land fl O_ACCMODE =? O_RDONLY then R_OK
                         else if Z.land fl O_ACCMODE =? O_WRONLY then W_OK
                         else Z.lor R_OK W_OK) = true).
Proof.
  intros [Hn Hi] H. unfold openat in H. unfold bind at 1 in H. unfold gets at 1 in H.
  cbv [id] in H. rewrite Hn, Hi in H. cbv zeta in H.
  destruct (S_ISDIR (i_mode nd) && negb (Z.land fl O_ACCMODE =? O_RDONLY)).
  { run_prim H; left; eauto. }
  destruct (permitted w nd _) eqn:Hp; simpl in H.
  - run_prim H; right; done.
  - run_prim H; left; eauto.
Qed.

Lemma fstat_run w fd i fl pos nd sb :
  lookup_fd w fd = Some (OFile i fl pos) -> w_inodes w !! i = Some nd ->
  fstat fd sb w = Some ((0, stat_of i nd), w).
Proof. intros Hfd Hnd. unfold fstat, bind, gets, id. by rewrite Hfd, Hnd. Qed.

Lemma write_run w fd i fl pos nd buf :
  lookup_fd w fd = Some (OFile i fl pos) -> w_inodes w !! i = Some nd ->
  (Z.land fl O_ACCMODE =? O_RDONLY) = false ->
  (Z.land fl O_APPEND =? 0) = true ->
  write fd buf w
  = Some (Z.of_nat (length buf),
          set_fds (<[fd := OFile i fl (pos + Z.of_nat (length buf))]> (w_fds w))
            (set_inodes (<[i := with_data (write_at (Z.to_nat pos) buf (i_data nd)) nd]>
                           (w_inodes w)) w)).
Proof.
  intros Hfd Hnd Hfl Happ. unfold write, bind, gets, id. rewrite Hfd, Hnd, Hfl, Happ.
  reflexivity.
Qed.

Section CopyLoop.

Variables (fin fout : Z) (s j : positive) (nd nf : Inode) (w0 : World).
Hypothesis Hfds : fin <> fout.
Hypothesis Hsj : s <> j.
Hypothesis Hdir : S_ISDIR (i_mode nd) = false.

(** The state of [temp_copy] after [p] bytes are copied: both descriptors
    stand at [p], the source is as it was, the copy holds the first [p]
    bytes, and nothing else differs from [w0] but [errno]. *)
Record copying (p : nat) (w : World) : Prop := {
  cp_in : lookup_fd w fin = Some (OFile s O_RDONLY (Z.of_nat p));
  cp_out : lookup_fd w fout = Some (OFile j O_RDWR (Z.of_nat p));
  cp_src : w_inodes w !! s = Some nd;
  cp_dst : w_inodes w !! j = Some (with_data (take p (i_data nd)) nf);
  cp_inodes : forall k, k <> j -> w_inodes w !! k = w_inodes w0 !! k;
  cp_fds : forall fd, fd <> fin -> fd <> fout -> w_fds w !! fd = w_fds w0 !! fd;
  cp_names : w_names w = w_names w0;
  cp_uid : w_uid w = w_uid w0;
  cp_trace : w_trace w = w_trace w0;
  cp_heap : w_heap w = w_heap w0
}.

Lemma copy_loop_copies fuel : forall p w u w',
  copying p w -> (p <= length (i_data nd))%nat -> (length (i_data nd) - p < fuel)%nat ->
  copy_loop fuel fin fout w = Some (u, w') ->
  copying (length (i_data nd)) w'.
Proof.
  induction fuel as [|fuel IH]; intros p w u w' C Hp Hfuel H; [lia|].
  simpl in H. destruct C as [Cin Cout Csrc Cdst Cino Cfds Cn Cu Ct Ch].
  apply lookup_fd_Some in Cin as Cin'. destruct Cin' as [Hfin0 _].
  apply lookup_fd_Some in Cout as Cout'. destruct Cout' as [Hfout0 _].
  rewrite (bind_run _ _ _ _ _ (read_run w fin s O_RDONLY _ nd 0x400 Cin Csrc eq_refl Hdir))
    in H.
  cbn [fst snd] in H. rewrite Nat2Z.id in H.
  set (got := take (Z.to_nat 0x400) (drop p (i_data nd))) in *.
  set (w1 := set_fds (<[fin := OFile s O_RDONLY (Z.of_nat p + Z.of_nat (length got))]>
                        (w_fds w)) w) in *.
  assert (length got = Nat.min 1024 (length (i_data nd) - p)) as Hgot
    by (subst got; rewrite length_take, length_drop; reflexivity).
  destruct (Z.ltb_spec 0 (Z.of_nat (length got))) as [Hpos|Hzero].
  - assert (lookup_fd w1 fout = Some (OFile j O_RDWR (Z.of_nat p))) as Cout1
      by (subst w1; rewrite lookup_fd_insert_ne; done).
    rewrite (bind_run _ _ _ _ _ (write_run w1 fout j O_RDWR _ _ got Cout1 Cdst eq_refl eq_refl))
      in H.
    rewrite Nat2Z.id in H. simpl i_data in H.
    rewrite (write_at_end p got (i_data nd) Hp) in H.
    replace (take p (i_data nd) ++ got) with (take (p + length got) (i_data nd)) in H
      by (subst got; symmetry; apply take_chunk).
    apply (IH (p + length got)%nat) in H; [exact H| |lia|lia].
    split; simpl.
    + rewrite Nat2Z.inj_add.
      unfold lookup_fd. simpl. rewrite lookup_insert_ne, lookup_insert_eq by done.
      destruct (Z.ltb_spec fin 0); [lia|done].
    + rewrite Nat2Z.inj_add.
      unfold lookup_fd. simpl. rewrite lookup_insert_eq.
      destruct (Z.ltb_spec fout 0); [lia|done].
    + rewrite lookup_insert_ne by done. exact Csrc.
    + rewrite lookup_insert_eq. reflexivity.
    + intros k Hk. rewrite lookup_insert_ne by done. auto.
    + intros fd H1 H2. rewrite !lookup_insert_ne by done. auto.
    + exact Cn.
    + exact Cu.
    + exact Ct.
    + exact Ch.
  - assert (p = length (i_data nd)) as <- by lia.
    mret H. assert (length got = 0%nat) as Hz by lia. subst w1. rewrite Hz.
    split; simpl; try done.
    + unfold lookup_fd. simpl. rewrite lookup_insert_eq, Z.add_0_r.
      destruct (Z.ltb_spec fin 0); [lia|done].
    + rewrite lookup_fd_insert_ne; done.
    + intros fd H1 H2. rewrite lookup_insert_ne by done. auto.
Qed.

End CopyLoop.

Lemma fchmod_run w fd i fl pos nd m :
  lookup_fd w fd = Some (OFile i fl pos) -> w_inodes w !! i = Some nd ->
  owner_or_root w nd = true ->
  fchmod fd m w = Some (0, set_inodes (<[i := with_mode m nd]> (w_inodes w)) w).
Proof.
  intros Hfd Hnd Hown. unfold fchmod, change_fd, change_inode, bind, gets, id.
  rewrite Hfd, Hnd, Hown. reflexivity.
Qed.

Lemma mode_of_a_copy m :
  Z.lor (Z.land (Z.lor S_IFREG 0x180) S_IFMT)
    (Z.land (Z.land m (Z.lor S_IRUSR S_IXUSR)) 0xFFF)
  = Z.lor S_IFREG (Z.land m (Z.lor S_IRUSR S_IXUSR)).
Proof.
  replace (Z.land (Z.lor S_IFREG 0x180) S_IFMT) with S_IFREG by reflexivity.
  rewrite <- Z.land_assoc.
  replace (Z.land (Z.lor S_IRUSR S_IXUSR) 0xFFF) with (Z.lor S_IRUSR S_IXUSR) by reflexivity.
  reflexivity.
Qed.

(** X8.  A successful [temp_copy] of a file that is no directory
    makes a new name, which did not exist, for a new regular file with the
    content of the source and, of its permission bits, the read and execute
    bits of the owner only; the source and every other file are as before,
    and no descriptor is left open. *)
Theorem temp_copy_makes_a_private_copy (name tmp : string) (w w' : World)
    (s : positive) (nd : Inode) :
  resolves w true (Some name) s nd ->
  S_ISDIR (i_mode nd) = false ->
  temp_copy (Some name) w = Some (Some tmp, w') ->
  w_names w !! tmp = None
  /\ exists j ndj,
       w_inodes w !! j = None
       /\ w_names w' = <[tmp := j]> (w_names w)
       /\ w_inodes w' !! j = Some ndj
       /\ i_data ndj = i_data nd
       /\ i_mode ndj = Z.lor S_IFREG (Z.land (i_mode nd) (Z.lor S_IRUSR S_IXUSR))
       /\ (forall k, k <> j -> w_inodes w' !! k = w_inodes w !! k)
       /\ w_fds w' = w_fds w.
Proof.
  intros Hres Hdir H. unfold temp_copy in H.
  mstep H as fin w1 Hopen.
  apply (openat_resolved _ _ _ _ _ _ _ Hres) in Hopen as [[-> _]|(Hfin & -> & _)];
    [simpl in H; mret H; discriminate|].
  pose proof (fresh_fd_nonneg w) as Hfin0. pose proof (fresh_fd_free w) as Hfinfree.
  rewrite <- Hfin in Hfin0, Hfinfree. clear Hfin.
  destruct (Z.eqb_spec fin (-1)) as [|_]; [lia|].
  mstep H as template w2 Hg. mret Hg. mstep H as mk w2 Hmk.
  apply mkstemp_spec in Hmk.
  destruct Hmk as [[Hm1 (e & _ & ->)]|(j & n & Hfout0 & Hfoutfree & Hj & Hnm & ->)].
  { rewrite Hm1 in H. simpl in H. mstep H as c w3 Hc. mret H. discriminate. }
  destruct mk as [fout res]. cbn [fst snd] in *.
  destruct (Z.eqb_spec fout (-1)) as [|_]; [lia|].
  simpl in Hfoutfree, Hj, Hnm.
  assert (fin <> fout) as Hne.
  { intros ->. by rewrite lookup_insert_eq in Hfoutfree. }
  rewrite lookup_insert_ne in Hfoutfree by done.
  destruct Hres as [Hn Hs].
  assert (s <> j) as Hsj by congruence.
  set (w1 := set_fds (<[fin := OFile s O_RDONLY 0]> (w_fds w)) w) in *.
  set (w2 := set_seed n
               (set_fds (<[fout := OFile j O_RDWR 0]> (w_fds w1))
                  (set_names (<[res := j]> (w_names w1))
                     (set_inodes (<[j := new_file w1]> (w_inodes w1)) w1)))) in *.
  assert (copying fin fout s j nd (new_file w1) w2 0 w2) as C0.
  { split; try done.
    - change (Z.of_nat 0) with 0. unfold lookup_fd. simpl.
      rewrite lookup_insert_ne, lookup_insert_eq by done.
      destruct (Z.ltb_spec fin 0); [lia|done].
    - change (Z.of_nat 0) with 0. unfold lookup_fd. simpl. rewrite lookup_insert_eq.
      destruct (Z.ltb_spec fout 0); [lia|done].
    - simpl. rewrite lookup_insert_ne by done. exact Hs.
    - simpl. rewrite lookup_insert_eq. reflexivity. }
  mstep H as wc w3 Hg. mret Hg. mstep H as u w3 Hcopy.
  assert (fd_size w2 fin = length (i_data nd)) as Hsize.
  { unfold fd_size. rewrite (cp_in _ _ _ _ _ _ _ _ _ C0), (cp_src _ _ _ _ _ _ _ _ _ C0).
    reflexivity. }
  rewrite Hsize in Hcopy.
  apply (copy_loop_copies fin fout s j nd (new_file w1) w2 Hne Hsj Hdir _ 0%nat) in Hcopy;
    [|exact C0|lia|lia].
  destruct Hcopy as [Cin Cout Csrc Cdst Cino Cfds Cn Cu Ct Ch].
  rewrite take_ge in Cdst by lia.
  rewrite (bind_run _ _ _ _ _ (fstat_run _ _ _ _ _ _ _ Cin Csrc)) in H.
  cbn [fst snd] in H. change (0 =? -1) with false in H. cbv iota in H.
  assert (owner_or_root w3 (with_data (i_data nd) (new_file w1)) = true) as Hown.
  { unfold owner_or_root. simpl. rewrite Cu. simpl. rewrite Z.eqb_refl. apply orb_true_r. }
  rewrite (bind_run _ _ _ _ _ (fchmod_run _ _ _ _ _ _ _ Cout Cdst Hown)) in H.
  set (w4 := set_inodes _ w3) in H.
  assert (lookup_fd w4 fin = Some (OFile s O_RDONLY (Z.of_nat (length (i_data nd))))) as Cin4
    by exact Cin.
  rewrite (bind_run _ _ _ _ _ (close_run _ _ _ Cin4)) in H.
  set (w5 := set_fds _ w4) in H.
  assert (lookup_fd w5 fout = Some (OFile j O_RDWR (Z.of_nat (length (i_data nd))))) as Cout5.
  { subst w5. rewrite lookup_fd_delete_ne by done. exact Cout. }
  rewrite (bind_run _ _ _ _ _ (close_run _ _ _ Cout5)) in H.
  mret H. injection H as ->. split; [exact Hnm|].
  exists j, (with_mode (Z.land (i_mode nd) (Z.lor S_IRUSR S_IXUSR))
               (with_data (i_data nd) (new_file w1))).
  split; [exact Hj|]. split; [simpl; rewrite Cn; reflexivity|].
  split; [simpl; apply lookup_insert_eq|]. split; [reflexivity|].
  split; [simpl; apply mode_of_a_copy|]. split.
  - intros k Hk. simpl. rewrite lookup_insert_ne by done. rewrite Cino by done.
    simpl. by rewrite lookup_insert_ne.
  - simpl. apply map_eq. intros fd.
    destruct (decide (fd = fout)) as [->|Hfo]; [by rewrite lookup_delete_eq|].
    rewrite lookup_delete_ne by done.
    destruct (decide (fd = fin)) as [->|Hfi]; [by rewrite lookup_delete_eq|].
    rewrite lookup_delete_ne by done. rewrite Cfds by done.
    simpl. by rewrite !lookup_insert_ne.
Qed.

Lemma temp_copy_makes_a_private_copy_witness :
  exists tmp w',
    temp_copy (Some "hello_script"%string) (Scenario.world [default_procedure] 0)
    = Some (Some tmp, w')
    /\ w_names (Scenario.world [default_procedure] 0) !! tmp = None
    /\ exists j ndj,
         w_inodes (Scenario.world [default_procedure] 0) !! j = None
         /\ w_names w' = <[tmp := j]> (w_names (Scenario.world [default_procedure] 0))
         /\ w_inodes w' !! j = Some ndj
         /\ i_data ndj = Scenario.bytes Scenario.hello_script
         /\ i_mode ndj = Z.lor S_IFREG (Z.land (Z.lor S_IFREG 0x1ed) (Z.lor S_IRUSR S_IXUSR))
         /\ (forall k, k <> j ->
               w_inodes w' !! k = w_inodes (Scenario.world [default_procedure] 0) !! k)
         /\ w_fds w' = w_fds (Scenario.world [default_procedure] 0).
Proof.
  destruct (temp_copy (Some "hello_script"%string) (Scenario.world [default_procedure] 0))
    as [[[tmp|] w']|] eqn:H; [|vm_compute in H; discriminate|vm_compute in H; discriminate].
  exists tmp, w'. split; [reflexivity|].
  apply (temp_copy_makes_a_private_copy "hello_script" tmp
           (Scenario.world [default_procedure] 0) w' 3%positive
           (Scenario.file_node S_IFREG 0x1ed Scenario.hello_script)).
  - split; reflexivity.
  - reflexivity.
  - exact H.
Defined.

(** ** The descriptor table *)

(** The descriptor tables of [w] and [w'] agree outside [l]. *)
Definition fds_but (l : list Z) (w w' : World) : Prop :=
  forall fd, fd ∉ l -> w_fds w' !! fd = w_fds w !! fd.

Lemma not_in_pair (a b fd : Z) : fd <> a -> fd <> b -> fd ∉ [a; b].
Proof.
  intros Ha Hb Hin. apply elem_of_cons in Hin as [?|Hin]; [done|].
  apply elem_of_cons in Hin as [?|Hin]; [done|]. by apply elem_of_nil in Hin.
Qed.

Lemma fds_but_same l w w' : w_fds w' = w_fds w -> fds_but l w w'.
Proof. intros E fd _. by rewrite E. Qed.

Lemma fds_but_refl l w : fds_but l w w.
Proof. by apply fds_but_same. Qed.

Lemma fds_but_trans l w1 w2 w3 : fds_but l w1 w2 -> fds_but l w2 w3 -> fds_but l w1 w3.
Proof. intros H12 H23 fd Hfd. rewrite H23, H12; done. Qed.

Lemma fds_but_weaken l l' w w' : l ⊆ l' -> fds_but l w w' -> fds_but l' w w'.
Proof. intros Hsub H fd Hfd. apply H. intros Hin. apply Hfd, Hsub, Hin. Qed.

Lemma fds_but_insert l fd o w : fd ∈ l -> fds_but l w (set_fds (<[fd := o]> (w_fds w)) w).
Proof.
  intros Hin fd' Hfd'. simpl. rewrite lookup_insert_ne; [done|]. intros ->. done.
Qed.

Lemma fds_but_delete l fd w : fd ∈ l -> fds_but l w (set_fds (delete fd (w_fds w)) w).
Proof.
  intros Hin fd' Hfd'. simpl. rewrite lookup_delete_ne; [done|]. intros ->. done.
Qed.

Lemma read_fds_but l fd n w r w' :
  fd ∈ l -> read fd n w = Some (r, w') -> fds_but l w w'.
Proof.
  intros Hin H. apply read_spec in H as [[e ->]|[->|(ino & fl & pos & k & Hfd & ->)]];
    [by apply fds_but_same|apply fds_but_refl|by apply fds_but_insert].
Qed.

Lemma write_fds_but l fd buf w r w' :
  fd ∈ l -> write fd buf w = Some (r, w') -> fds_but l w w'.
Proof.
  intros Hin H.
  apply write_spec in H as [[e ->]|[->|(ino & fl & pos & k & nd & d & Hfd & Hnd & ->)]];
    [by apply fds_but_same|apply fds_but_refl|].
  apply (fds_but_insert l fd _ (set_inodes _ w) Hin).
Qed.

Lemma close_fds_but l fd w r w' :
  fd ∈ l -> close fd w = Some (r, w') -> fds_but l w w'.
Proof.
  intros Hin H. apply close_spec in H as [[e ->]| ->];
    [by apply fds_but_same|by apply fds_but_delete].
Qed.

Lemma fstat_fds fd sb w r w' : fstat fd sb w = Some (r, w') -> w_fds w' = w_fds w.
Proof. intros H. apply fstat_spec in H as [[_ ->]|[_ [e ->]]]; done. Qed.

Lemma change_fd_fds fd f w r w' : change_fd fd f w = Some (r, w') -> w_fds w' = w_fds w.
Proof.
  intros H. apply change_fd_spec in H as [[e ->]|[->|(ino & fl & pos & nd & _ & _ & ->)]];
    done.
Qed.

Lemma unlink_fds name w r w' : unlink name w = Some (r, w') -> w_fds w' = w_fds w.
Proof. intros H. apply unlink_spec in H as [[e ->]|(n & _ & ->)]; done. Qed.

Lemma set_cell_fds a i v w r w' : set_cell a i v w = Some (r, w') -> w_fds w' = w_fds w.
Proof. intros H. apply set_cell_spec in H as [s ->]. done. Qed.

Lemma copy_loop_fds fuel : forall fin fout w r w',
  copy_loop fuel fin fout w = Some (r, w') ->
  fds_but [fin; fout] w w'
  /\ (opened w fin -> opened w' fin) /\ (opened w fout -> opened w' fout).
Proof.
  induction fuel as [|fuel IH]; intros fin fout w r w' H; simpl in H.
  - mret H. split; [apply fds_but_refl|done].
  - mstep H as rd w1 Hrd.
    assert (fds_but [fin; fout] w w1) as F1
      by (eapply read_fds_but; [apply list_elem_of_here|exact Hrd]).
    destruct (0 <? rd.1).
    + mstep H as wr w2 Hwr.
      assert (fds_but [fin; fout] w1 w2) as F2
        by (eapply write_fds_but;
            [apply list_elem_of_further, list_elem_of_here|exact Hwr]).
      destruct (IH _ _ _ _ _ H) as (F3 & O1 & O2).
      split; [eauto using fds_but_trans|].
      split; intros Ho; [apply O1|apply O2];
        exact (write_opened _ _ _ _ _ _ (read_opened _ _ _ _ _ _ Ho Hrd) Hwr).
    + mret H. split; [exact F1|].
      split; intros Ho; exact (read_opened _ _ _ _ _ _ Ho Hrd).
Qed.

Lemma temp_copy_fds file w r w' :
  temp_copy file w = Some (r, w') -> w_fds w' = w_fds w.
Proof.
  unfold temp_copy. intros H. mstep H as fin w1 Hopen.
  apply openat_spec in Hopen as [[-> [e ->]]|(s & Hfin0 & Hfinfree & ->)].
  { simpl in H. mret H. done. }
  destruct (Z.eqb_spec fin (-1)) as [|_]; [lia|].
  set (w1 := set_fds (<[fin := OFile s O_RDONLY 0]> (w_fds w)) w) in *.
  assert (lookup_fd w1 fin = Some (OFile s O_RDONLY 0)) as Hin1
    by (apply lookup_fd_insert_eq; exact Hfin0).
  mstep H as template w2 Hg. mret Hg. mstep H as mk w2 Hmk.
  apply mkstemp_spec in Hmk.
  destruct Hmk as [[Hm1 (e & _ & ->)]|(j & n & Hfout0 & Hfoutfree & Hj & Hnm & ->)].
  { rewrite Hm1 in H. simpl in H.
    assert (lookup_fd (set_errno e w1) fin = Some (OFile s O_RDONLY 0)) as Hin2 by exact Hin1.
    rewrite (bind_run _ _ _ _ _ (close_run _ _ _ Hin2)) in H. mret H.
    simpl. by rewrite delete_insert_id. }
  destruct mk as [fout res]. cbn [fst snd] in *.
  destruct (Z.eqb_spec fout (-1)) as [|_]; [lia|].
  assert (fin <> fout) as Hne.
  { intros ->. simpl in Hfoutfree. by rewrite lookup_insert_eq in Hfoutfree. }
  set (w2 := set_seed n _) in *.
  assert (opened w2 fin) as Oin.
  { exists (OFile s O_RDONLY 0). unfold lookup_fd. simpl.
    rewrite lookup_insert_ne, lookup_insert_eq by done.
    destruct (Z.ltb_spec fin 0); [lia|done]. }
  assert (opened w2 fout) as Oout.
  { exists (OFile j O_RDWR 0). unfold lookup_fd. simpl. rewrite lookup_insert_eq.
    destruct (Z.ltb_spec fout 0); [lia|done]. }
  mstep H as wc w3 Hg. mret Hg. mstep H as u w3 Hcopy.
  mstep H as st w4 Hst. mstep H as ch w5 Hch.
  mstep H as c1 w6 Hc1. mstep H as c2 w7 Hc2. mret H.
  destruct (copy_loop_fds _ _ _ _ _ _ Hcopy) as (F23 & O1 & O2).
  specialize (O1 Oin). specialize (O2 Oout).
  pose proof (fstat_fds _ _ _ _ _ Hst) as F34.
  assert (w_fds w5 = w_fds w4) as F45.
  { destruct (st.1 =? -1); [by mret Hch|]. eapply change_fd_fds. exact Hch. }
  assert (opened w5 fin) as [oi Hoi].
  { unfold opened, lookup_fd in *. rewrite F45, F34. exact O1. }
  assert (opened w5 fout) as [oo Hoo].
  { unfold opened, lookup_fd in *. rewrite F45, F34. exact O2. }
  rewrite (close_run _ _ _ Hoi) in Hc1. injection Hc1 as _ <-.
  assert (lookup_fd (set_fds (delete fin (w_fds w5)) w5) fout = Some oo) as Hoo6
    by (rewrite lookup_fd_delete_ne; done).
  rewrite (close_run _ _ _ Hoo6) in Hc2. injection Hc2 as _ <-.
  simpl. apply map_eq. intros fd.
  destruct (decide (fd = fout)) as [->|Hfo].
  { rewrite lookup_delete_eq. symmetry. simpl in Hfoutfree.
    by rewrite lookup_insert_ne in Hfoutfree. }
  rewrite lookup_delete_ne by done.
  destruct (decide (fd = fin)) as [->|Hfi]; [by rewrite lookup_delete_eq|].
  rewrite lookup_delete_ne by done. rewrite F45, F34.
  rewrite F23 by (by apply not_in_pair). simpl. by rewrite !lookup_insert_ne.
Qed.

(** X9.  Whatever the file and whatever the outcome,
    [temp_copy] leaves the descriptor table as it found it: the source and
    the copy are both closed again, also when no copy could be made. *)
Theorem temp_copy_restores_the_descriptor_table (file : option string)
    (w : World) (r : option string) (w' : World) :
  temp_copy file w = Some (r, w') -> w_fds w' = w_fds w.
Proof. apply temp_copy_fds. Qed.

Lemma temp_copy_restores_the_descriptor_table_witness :
  exists r w',
    temp_copy (Some "locked"%string) (Scenario.world [default_procedure] 0) = Some (r, w')
    /\ w_fds w' = w_fds (Scenario.world [default_procedure] 0).
Proof.
  destruct (temp_copy (Some "locked"%string) (Scenario.world [default_procedure] 0))
    as [[r w']|] eqn:H; [|vm_compute in H; discriminate].
  exists r, w'. split; [reflexivity|].
  exact (temp_copy_restores_the_descriptor_table _ _ _ _ H).
Defined.

Lemma chunk_rest {A} (l : list A) (n : nat) :
  take n l ++ drop (length (take n l)) l = l.
Proof.
  rewrite length_take. destruct (Nat.le_gt_cases n (length l)) as [Hle|Hgt].
  - rewrite Nat.min_l by done. apply take_drop.
  - rewrite Nat.min_r by lia. rewrite take_ge, drop_all by lia. apply app_nil_r.
Qed.

Lemma write_pipe_run w fd buf :
  lookup_fd w fd = Some (OPipe true) -> write fd buf w = Some (Z.of_nat (length buf), w).
Proof. intros Hfd. unfold write, bind, gets, id. by rewrite Hfd. Qed.

Lemma child_output_fds out buf w fd :
  fd <> out -> w_fds (child_output out buf w) !! fd = w_fds w !! fd.
Proof.
  intros Hne. unfold child_output. repeat case_match; try done.
  simpl. by rewrite lookup_insert_ne.
Qed.

Lemma child_output_read_only out buf w i fl pos :
  lookup_fd w out = Some (OFile i fl pos) -> Z.land fl O_ACCMODE = O_RDONLY ->
  child_output out buf w = w.
Proof.
  intros Hfd Hfl. unfold child_output. rewrite Hfd, Hfl. simpl.
  by destruct (w_inodes w !! i).
Qed.

Section FeedLoop.

Variables (inf wr : Z) (s : positive) (nd : Inode) (w0 : World).
Hypothesis Hdir : S_ISDIR (i_mode nd) = false.

(** The state of the parent in [execute_program] after [p] bytes went
    through the pipe. *)
Record feeding (p : nat) (w : World) : Prop := {
  fe_in : lookup_fd w inf = Some (OFile s O_RDONLY (Z.of_nat p));
  fe_wr : lookup_fd w wr = Some (OPipe true);
  fe_src : w_inodes w !! s = Some nd;
  fe_fds : forall fd, fd <> inf -> w_fds w !! fd = w_fds w0 !! fd;
  fe_quiet : quiet w0 w;
  fe_trace : w_trace w = w_trace w0
}.

Lemma feed_pipe_feeds fuel : forall p w sent r w',
  feeding p w -> (p <= length (i_data nd))%nat -> (length (i_data nd) - p < fuel)%nat ->
  feed_pipe fuel inf wr sent w = Some (r, w') ->
  feeding (length (i_data nd)) w' /\ r = sent ++ drop p (i_data nd).
Proof.
  induction fuel as [|fuel IH]; intros p w sent r w' F Hp Hfuel H; [lia|].
  simpl in H. destruct F as [Fin Fwr Fsrc Ffds Fq Ft].
  apply lookup_fd_Some in Fin as Fin'. destruct Fin' as [Hinf0 _].
  assert (inf <> wr) as Hne by congruence.
  rewrite (bind_run _ _ _ _ _ (read_run w inf s O_RDONLY _ nd 0x400 Fin Fsrc eq_refl Hdir))
    in H.
  cbn [fst snd] in H. rewrite Nat2Z.id in H.
  set (got := take (Z.to_nat 0x400) (drop p (i_data nd))) in *.
  set (w1 := set_fds (<[inf := OFile s O_RDONLY (Z.of_nat p + Z.of_nat (length got))]>
                        (w_fds w)) w) in *.
  assert (length got = Nat.min 1024 (length (i_data nd) - p)) as Hgot
    by (subst got; rewrite length_take, length_drop; reflexivity).
  assert (feeding (p + length got) w1) as F1.
  { subst w1. split; simpl.
    - rewrite Nat2Z.inj_add. unfold lookup_fd. simpl. rewrite lookup_insert_eq.
      destruct (Z.ltb_spec inf 0); [lia|done].
    - rewrite lookup_fd_insert_ne; done.
    - exact Fsrc.
    - intros fd Hfd. rewrite lookup_insert_ne by done. auto.
    - eapply quiet_trans; [exact Fq|apply quiet_fds].
    - exact Ft. }
  destruct (Z.ltb_spec 0 (Z.of_nat (length got))) as [Hpos|Hzero].
  - rewrite (bind_run _ _ _ _ _ (write_pipe_run w1 wr got (fe_wr _ _ F1))) in H.
    apply (IH (p + length got)%nat) in H; [|exact F1|lia|lia].
    destruct H as [F2 ->]. split; [exact F2|].
    rewrite <- app_assoc. f_equal.
    rewrite <- drop_drop. subst got. apply chunk_rest.
  - unfold ret in H. simpl in H. injection H as <- <-.
    assert (p = length (i_data nd)) as Hpl by lia.
    assert (length got = 0%nat) as Hz by lia. rewrite Hz, Nat.add_0_r in F1.
    rewrite <- Hpl. split; [exact F1|].
    rewrite drop_ge by lia. by rewrite app_nil_r.
Qed.

End FeedLoop.

Section FilterInput.

Variable child : World -> Exec -> list byte * option Z.

(** X10.  When [execute_program] is given a file for the standard
    input of the child (a filter), it copies the whole file into the pipe,
    and the descriptor it opened on the file is still open when it returns:
    the descriptor table has one descriptor more than before, the pipe is
    closed again, and nothing else differs but the descriptor given as
    standard output. *)
Theorem filter_input_descriptor_stays_open (file : option string)
    (args : option (list (option string))) (out : Z) (p : string)
    (w : World) (s : positive) (nd : Inode) (r : Z) (w' : World) :
  resolves w true (Some p) s nd ->
  S_ISDIR (i_mode nd) = false ->
  permitted w nd R_OK = true ->
  execute_program child file args out (Some p) w = Some (r, w') ->
  exists fd,
    w_fds w !! fd = None
    /\ lookup_fd w' fd = Some (OFile s O_RDONLY (Z.of_nat (length (i_data nd))))
    /\ (forall fd', fd' <> fd -> fd' <> out -> w_fds w' !! fd' = w_fds w !! fd')
    /\ exists res,
         w_trace w'
         = w_trace w ++ [({| x_file := file; x_argv := argv_of <$> args; x_out := out;
                             x_stdin := Some (i_data nd) |}, res)].
Proof.
  intros Hres Hdir Hperm H. unfold execute_program in H.
  mstep H as stdin w5 Hin.
  mstep Hin as fds w1 Hpipe. apply pipe_spec in Hpipe.
  destruct fds as [rd wr]. cbn [fst snd] in *.
  destruct Hpipe as (Hrd0 & Hwr0 & Hne & Hrdfree & Hwrfree & ->).
  set (w1 := set_fds (<[wr := OPipe true]> (<[rd := OPipe false]> (w_fds w))) w) in *.
  assert (lookup_fd w1 rd = Some (OPipe false)) as Hrd1.
  { unfold lookup_fd. simpl. rewrite lookup_insert_ne, lookup_insert_eq by done.
    destruct (Z.ltb_spec rd 0); [lia|done]. }
  rewrite (bind_run _ _ _ _ _ (close_run _ _ _ Hrd1)) in Hin.
  set (w2 := set_fds (delete rd (w_fds w1)) w1) in *.
  assert (quiet w w2) as Q2 by (eapply quiet_trans; apply quiet_fds).
  pose proof (resolves_quiet _ _ _ _ _ _ Q2 Hres) as Hres2.
  assert (openat (Some p) O_RDONLY w2
          = Some (fresh_fd w2,
                  set_fds (<[fresh_fd w2 := OFile s O_RDONLY 0]> (w_fds w2)) w2)) as Hopen.
  { apply (openat_run _ _ _ _ nd Hres2); [apply andb_false_r|].
    simpl. rewrite (permitted_quiet _ _ _ _ Q2). exact Hperm. }
  rewrite (bind_run _ _ _ _ _ Hopen) in Hin.
  pose proof (fresh_fd_nonneg w2) as Hinf0. pose proof (fresh_fd_free w2) as Hinffree.
  set (inf := fresh_fd w2) in *.
  destruct (Z.ltb_spec inf 0) as [|_]; [lia|].
  set (w3 := set_fds (<[inf := OFile s O_RDONLY 0]> (w_fds w2)) w2) in *.
  assert (inf <> wr) as Hiw.
  { intros E. rewrite E in Hinffree. subst w2 w1. simpl in Hinffree.
    rewrite lookup_delete_ne, lookup_insert_eq in Hinffree by done. done. }
  assert (w_fds w !! inf = None) as Hinfw.
  { destruct (decide (inf = rd)) as [->|Hir]; [exact Hrdfree|].
    subst w2 w1. simpl in Hinffree.
    by rewrite lookup_delete_ne, !lookup_insert_ne in Hinffree. }
  assert (feeding inf wr s nd w3 0 w3) as F0.
  { split.
    - change (Z.of_nat 0) with 0. apply (lookup_fd_insert_eq w2). lia.
    - subst w3. rewrite lookup_fd_insert_ne by done. subst w2.
      rewrite lookup_fd_delete_ne by done. subst w1.
      apply (lookup_fd_insert_eq (set_fds _ w) wr). lia.
    - destruct Hres2 as [_ Hi]. exact Hi.
    - done.
    - apply quiet_refl.
    - done. }
  mstep Hin as sent w4 Hfeed. mstep Hfeed as wc w4' Hg. mret Hg.
  assert (fd_size w3 inf = length (i_data nd)) as Hsize.
  { unfold fd_size. rewrite (fe_in _ _ _ _ _ _ _ F0), (fe_src _ _ _ _ _ _ _ F0).
    reflexivity. }
  rewrite Hsize in Hfeed.
  apply (feed_pipe_feeds inf wr s nd w3 Hdir _ 0%nat) in Hfeed; [|exact F0|lia|lia].
  destruct Hfeed as [[Fin Fwr Fsrc Ffds Fq Ft] Hsent]. simpl in Hsent. subst sent.
  rewrite drop_0 in Hin.
  assert (fsync wr w4 = Some (-1, set_errno EINVAL w4)) as Hsync
    by (unfold fsync, bind, gets, id; rewrite Fwr; reflexivity).
  rewrite (bind_run _ _ _ _ _ Hsync) in Hin.
  assert (lookup_fd (set_errno EINVAL w4) wr = Some (OPipe true)) as Fwr' by exact Fwr.
  rewrite (bind_run _ _ _ _ _ (close_run _ _ _ Fwr')) in Hin. mret Hin.
  set (w5 := set_fds (delete wr (w_fds (set_errno EINVAL w4))) (set_errno EINVAL w4)) in *.
  mstep H as wc w6 Hg. mret Hg.
  mstep H as u1 w6 Hm1. mstep H as u2 w7 Hm2. mmod Hm1. mmod Hm2.
  set (x := {| x_file := file; x_argv := argv_of <$> args; x_out := out;
               x_stdin := Some (i_data nd) |}) in *.
  assert (lookup_fd w5 inf = Some (OFile s O_RDONLY (Z.of_nat (length (i_data nd))))) as Hin5.
  { subst w5. rewrite lookup_fd_delete_ne by done. exact Fin. }
  assert (forall fd', fd' <> inf -> w_fds w5 !! fd' = w_fds w !! fd') as Hfr5.
  { intros fd' Hfd'. subst w5. simpl.
    destruct (decide (fd' = wr)) as [->|Hw]; [by rewrite lookup_delete_eq|].
    rewrite lookup_delete_ne by done. rewrite Ffds by done. subst w3. simpl.
    rewrite lookup_insert_ne by done. subst w2. simpl.
    destruct (decide (fd' = rd)) as [->|Hr]; [by rewrite lookup_delete_eq|].
    rewrite lookup_delete_ne by done. subst w1. simpl. by rewrite !lookup_insert_ne. }
  assert (w_trace w5 = w_trace w) as Ht5 by (subst w5; simpl; rewrite Ft; reflexivity).
  set (w6 := if out =? 0 then w5 else child_output out (child w5 x).1 w5) in *.
  assert (lookup_fd w6 inf = Some (OFile s O_RDONLY (Z.of_nat (length (i_data nd))))
          /\ (forall fd', fd' <> inf -> fd' <> out -> w_fds w6 !! fd' = w_fds w !! fd')
          /\ w_trace w6 = w_trace w) as (Hin6 & Hfr6 & Ht6).
  { subst w6. destruct (out =? 0); [by auto|].
    split; [|split].
    - destruct (decide (out = inf)) as [->|Hoi].
      + by rewrite (child_output_read_only _ _ _ _ _ _ Hin5 eq_refl).
      + unfold lookup_fd in *. rewrite child_output_fds by done. exact Hin5.
    - intros fd' H1 H2. rewrite child_output_fds by done. auto.
    - destruct (child_output_steady out (child w5 x).1 w5) as [T _ _ _ _].
      by rewrite T. }
  exists inf. split; [exact Hinfw|].
  assert (w' = set_trace (w_trace w6 ++ [(x, child w5 x)]) w6) as ->.
  { destruct (child w5 x).2; mret H; done. }
  split; [exact Hin6|]. split; [exact Hfr6|].
  exists (child w5 x). simpl. by rewrite Ht6.
Qed.

End FilterInput.

Lemma filter_input_descriptor_stays_open_witness :
  exists r w' fd,
    execute_program Scenario.child_hi (Some "/bin/cat"%string)
      (Some [Some "/bin/cat"%string; None]) 0 (Some "hello_text"%string)
      (Scenario.world [default_procedure] 0) = Some (r, w')
    /\ w_fds (Scenario.world [default_procedure] 0) !! fd = None
    /\ lookup_fd w' fd
       = Some (OFile 4 O_RDONLY
                 (Z.of_nat (length (Scenario.bytes Scenario.hello_text))))
    /\ (forall fd', fd' <> fd -> fd' <> 0 ->
          w_fds w' !! fd' = w_fds (Scenario.world [default_procedure] 0) !! fd')
    /\ exists res,
         w_trace w'
         = w_trace (Scenario.world [default_procedure] 0)
           ++ [({| x_file := Some "/bin/cat"%string;
                   x_argv := argv_of <$> Some [Some "/bin/cat"%string; None];
                   x_out := 0;
                   x_stdin := Some (Scenario.bytes Scenario.hello_text) |}, res)].
Proof.
  destruct (execute_program Scenario.child_hi (Some "/bin/cat"%string)
              (Some [Some "/bin/cat"%string; None]) 0 (Some "hello_text"%string)
              (Scenario.world [default_procedure] 0)) as [[r w']|] eqn:H;
    [|vm_compute in H; discriminate].
  assert (resolves (Scenario.world [default_procedure] 0) true (Some "hello_text"%string)
            4%positive (Scenario.file_node S_IFREG 0x1a4 Scenario.hello_text)) as Hr
    by (split; reflexivity).
  destruct (filter_input_descriptor_stays_open Scenario.child_hi _ _ _ _ _ _ _ _ _
              Hr eq_refl eq_refl H) as (fd & Hfd).
  exists r, w', fd. split; [reflexivity|exact Hfd].
Defined.

Section Names.

Variable child : World -> Exec -> list byte * option Z.

Lemma kind_new_file w : kind (new_file w) = S_IFREG.
Proof. reflexivity. Qed.

Lemma execute_program_argv file args out path_in w r w' :
  execute_program child file args out path_in w = Some (r, w') ->
  w_argv w' = w_argv w /\ w_names w' = w_names w /\ kinds_kept w w'.
Proof.
  intros H. destruct (execute_program_calls _ _ _ _ _ _ _ _ H) as (? & ? & _ & A & N & K & _).
  done.
Qed.

(** The program functions leave the name space as they found it: the
    temporary copy is unlinked when the child has ended. *)
Lemma call_program_func_names f p file h w code w' :
  (forall a i, prog_args p = Some a -> prog_filearg p = Some i ->
               (i < length (cells_of w a))%nat) ->
  call_program_func child f p file h w = Some (code, w') ->
  w_names w' = w_names w.
Proof.
  intros Hrange H. destruct f; simpl in H.
  - unfold program_shell in H. mstep H as tmp w1 Htmp.
    destruct (temp_copy_names _ _ _ _ Htmp) as (_ & _ & _ & Hn).
    destruct tmp as [tmp|].
    + destruct Hn as (Hfree & j & nd & Hn1 & Hj & Hk).
      mstep H as c w2 Hx. mstep H as u w3 Hun. mret H.
      destruct (execute_program_argv _ _ _ _ _ _ _ Hx) as (_ & N2 & K2).
      destruct (K2 _ _ Hj) as (nd2 & Hj2 & Hk2).
      rewrite (unlink_regular w2 tmp j nd2) in Hun;
        [|rewrite N2, Hn1; apply lookup_insert_eq|exact Hj2|congruence].
      injection Hun as _ <-. simpl. rewrite N2, Hn1. by apply delete_insert_id.
    + mstep H as e w2 Hg. mret Hg. mret H. exact Hn.
  - unfold program_external in H.
    mstep H as u1 w1 Hs1. mstep H as wc w2 Hg. mret Hg.
    mstep H as c w3 Hx. mstep H as u2 w4 Hs2. mret H.
    destruct (execute_program_argv _ _ _ _ _ _ _ Hx) as (A2 & N2 & K2).
    destruct (prog_args p) as [a|] eqn:Ea; [destruct (prog_filearg p) as [i|] eqn:Ei|].
    2,3: mret Hs1; mret Hs2; exact N2.
    specialize (Hrange a i eq_refl eq_refl).
    mstep Hs1 as tmp w5 Htmp. rewrite set_cell_run in Hs1. injection Hs1 as <-.
    destruct (temp_copy_names _ _ _ _ Htmp) as (_ & A5 & _ & Hn).
    mstep Hs2 as wc2 w6 Hg. mret Hg. mstep Hs2 as u3 w6 Hun.
    apply set_cell_spec in Hs2 as [sa ->]. simpl.
    assert (cells_of w3 a !! i = Some tmp) as Hcell.
    { unfold cells_of at 1. rewrite A2. fold (cells_of (set_argv
        (<[a := <[i := tmp]> (cells_of w5 a)]> (w_argv w5)) w5) a).
      rewrite cells_of_set_cell. apply list_lookup_insert_eq.
      unfold cells_of. rewrite A5. exact Hrange. }
    rewrite Hcell in Hun. simpl in Hun.
    destruct tmp as [tmp|].
    + destruct Hn as (Hfree & j & nd & Hn1 & Hj & Hk).
      destruct (K2 j nd) as (nd2 & Hj2 & Hk2); [exact Hj|].
      mstep Hun as c2 w7 Hun2. mret Hun.
      rewrite (unlink_regular w3 tmp j nd2) in Hun2;
        [|rewrite N2; simpl; rewrite Hn1; apply lookup_insert_eq|exact Hj2|congruence].
      injection Hun2 as _ <-. simpl. rewrite N2. simpl. rewrite Hn1.
      by apply delete_insert_id.
    + mret Hun. rewrite N2. exact Hn.
Qed.

(** X11.  [run_script] leaves no name behind: the artifact is unlinked
    as soon as it is made, and the copy of the script when the child has
    ended.  (The standard input of the server is open, so that [mkstemp]
    cannot return 0; a placeholder of the program is a cell of its argument
    array.) *)
Theorem run_script_leaves_no_name (relative : option string) (proc : Procedure)
    (fi : option fuse_file_info) (w : World) (r : Z * option fuse_file_info)
    (w' : World) :
  opened w 0 ->
  (forall a i, prog_args (program proc) = Some a ->
               prog_filearg (program proc) = Some i ->
               (i < length (cells_of w a))%nat) ->
  run_script child relative proc fi w = Some (r, w') ->
  w_names w' = w_names w.
Proof.
  intros Hstdin Hrange H.
  destruct (total_mkstemp (tmp_template (persistent w)) w) as ([h nm] & w2 & Hmk).
  rewrite (run_script_after_mkstemp _ _ _ _ _ _ _ _ Hmk) in H.
  destruct (mkstemp_result _ _ _ _ _ Hstdin Hmk) as [[-> He]|Hh].
  - simpl in H. injection H as _ <-.
    apply mkstemp_spec in Hmk as [[_ (e & _ & ->)]|(ino & n & Hpos & _)]; [done|].
    simpl in Hpos. lia.
  - destruct (Z.leb_spec h 0) as [|_]; [lia|].
    mstep H as u w3 Hun. mstep H as code w4 Hprog. mret H.
    apply mkstemp_spec in Hmk. simpl in Hmk.
    destruct Hmk as [[-> _]|(ino & n & Hh0 & Hfree & Hino & Hnm & ->)]; [lia|].
    rewrite (unlink_regular _ nm ino (new_file w)) in Hun;
      [|simpl; apply lookup_insert_eq|simpl; apply lookup_insert_eq|reflexivity].
    injection Hun as _ <-.
    apply call_program_func_names in Hprog; [|exact Hrange].
    rewrite Hprog. simpl. by apply delete_insert_id.
Qed.

End Names.

Lemma run_script_leaves_no_name_witness :
  exists r w',
    run_script Scenario.child_hi (Some "hello_text"%string) Scenario.echo_both
      (Some Scenario.read_only) (Scenario.world [Scenario.echo_both] 0) = Some (r, w')
    /\ w_names w' = w_names (Scenario.world [Scenario.echo_both] 0).
Proof.
  destruct (run_script Scenario.child_hi (Some "hello_text"%string) Scenario.echo_both
              (Some Scenario.read_only) (Scenario.world [Scenario.echo_both] 0))
    as [[r w']|] eqn:H; [|vm_compute in H; discriminate].
  exists r, w'. split; [reflexivity|].
  assert (opened (Scenario.world [Scenario.echo_both] 0) 0) as Hstdin
    by (exists (OPipe false); reflexivity).
  apply (run_script_leaves_no_name Scenario.child_hi _ _ _ _ _ _ Hstdin) in H; [exact H|].
  intros a i [= <-] [= <-]. vm_compute. lia.
Defined.

Section Descriptors.

Variable child : World -> Exec -> list byte * option Z.
Variable FILENAME_MAX_LENGTH : nat.

Lemma child_output_fds_but out buf w : fds_but [out] w (child_output out buf w).
Proof.
  intros fd Hfd. apply child_output_fds. intros ->. apply Hfd, list_elem_of_here.
Qed.

Lemma execute_program_fds file args out w r w' :
  execute_program child file args out None w = Some (r, w') -> fds_but [out] w w'.
Proof.
  unfold execute_program. intros H. mstep H as stdin w0 Hin. mret Hin.
  mstep H as wc w1 Hg. mret Hg.
  mstep H as u1 w2 Hm1. mstep H as u2 w3 Hm2. mmod Hm1. mmod Hm2.
  assert (w_fds w' = w_fds (if out =? 0 then w
                            else child_output out (child w
                                   {| x_file := file; x_argv := argv_of <$> args;
                                      x_out := out; x_stdin := None |}).1 w)) as E.
  { destruct (child w _).2; mret H; done. }
  intros fd Hfd. rewrite E. destruct (out =? 0); [done|].
  by apply child_output_fds_but.
Qed.

Lemma program_shell_fds p file h w code w' :
  program_shell child p file h w = Some (code, w') -> fds_but [h] w w'.
Proof.
  unfold program_shell. intros H. mstep H as tmp w1 Htmp.
  pose proof (temp_copy_fds _ _ _ _ Htmp) as F1.
  destruct tmp as [tmp|].
  - mstep H as c w2 Hx. mstep H as u w3 Hun. mret H.
    pose proof (execute_program_fds _ _ _ _ _ _ Hx) as F2.
    pose proof (unlink_fds _ _ _ _ Hun) as F3.
    intros fd Hfd. rewrite F3, F2, F1; done.
  - mstep H as e w2 Hg. mret Hg. mret H. by apply fds_but_same.
Qed.

Lemma run_script_shell_fds relative proc fi w h nm w2 r w' :
  mkstemp (tmp_template (persistent w)) w = Some ((h, nm), w2) -> 0 < h ->
  prog_func (program proc) = Fprogram_shell ->
  run_script child relative proc fi w = Some (r, w') ->
  w_fds w !! h = None /\ fds_but [h] w w'.
Proof.
  intros Hmk Hh Hshell H.
  rewrite (run_script_after_mkstemp _ _ _ _ _ _ _ _ Hmk) in H.
  destruct (Z.leb_spec h 0) as [|_]; [lia|].
  mstep H as u w3 Hun. mstep H as code w4 Hprog. mret H.
  apply mkstemp_spec in Hmk. simpl in Hmk.
  destruct Hmk as [[-> _]|(ino & n & Hh0 & Hfree & Hino & Hnm & ->)]; [lia|].
  split; [exact Hfree|].
  rewrite Hshell in Hprog. simpl in Hprog.
  pose proof (unlink_fds _ _ _ _ Hun) as F1.
  pose proof (program_shell_fds _ _ _ _ _ _ Hprog) as F2.
  intros fd Hfd. rewrite F2, F1 by done. simpl.
  rewrite lookup_insert_ne; [done|]. intros ->. apply Hfd, list_elem_of_here.
Qed.

(** X7.  A script whose program is the shell ([program_shell],
    the default) is opened and released: the release returns 0, the
    [FileStruct] is freed, and the descriptor table is the one the
    classifier left, so neither the artifact nor the copy of the script
    leaves a descriptor open. *)
Theorem shell_script_open_release_leaves_no_descriptor (path rel : string)
    (fi : fuse_file_info) (w : World) (proc : Procedure) (w1 : World)
    (fi' : fuse_file_info) (w' : World) (p : option string) (r : Z) (w'' : World) :
  relative_path (Some path) = Some rel ->
  opened w 0 ->
  get_script child (procs (persistent w)) (Some rel) w = Some (Some proc, w1) ->
  prog_func (program proc) = Fprogram_shell ->
  sfs_open child FILENAME_MAX_LENGTH (Some path) fi w = Some ((0, fi'), w') ->
  fh fi' <> 0 ->
  sfs_release p (Some fi') w' = Some (r, w'') ->
  r = 0 /\ w_fds w'' = w_fds w1 /\ w_heap w'' !! fh fi' = None.
Proof.
  intros Hrel Hstdin Hget Hshell Hopen Hfh Hrelease.
  rewrite <- Hrel in Hget.
  destruct (Z.eq_dec (Z.land (flags fi) O_WRONLY) 0) as [Hwr|Hwr];
    [destruct (Z.eq_dec (Z.land (flags fi) O_RDWR) 0) as [Hrw|Hrw]|].
  2: { rewrite (sfs_open_script_write_flags child FILENAME_MAX_LENGTH _ _ _ _ _ Hget
                  (or_intror Hrw)) in Hopen.
       discriminate. }
  2: { rewrite (sfs_open_script_write_flags child FILENAME_MAX_LENGTH _ _ _ _ _ Hget
                  (or_introl Hwr)) in Hopen.
       discriminate. }
  destruct (total_mkstemp (tmp_template (persistent w1)) w1) as ([h nm] & w2 & Hmk).
  pose proof (get_script_opened _ _ _ _ _ _ _ Hstdin Hget) as Hstdin1.
  destruct (mkstemp_result _ _ _ _ _ Hstdin1 Hmk) as [[-> He]|Hh].
  { exfalso.
    rewrite (sfs_open_script child FILENAME_MAX_LENGTH _ _ _ _ _ Hget Hwr Hrw) in Hopen.
    pose proof (run_script_after_mkstemp child (relative_path (Some path)) proc (Some fi)
                  _ _ _ _ Hmk) as Hrs.
    simpl in Hrs. rewrite (bind_run _ _ _ _ _ Hrs) in Hopen. cbn [fst snd] in Hopen.
    destruct (Z.leb_spec (- errno w2) 0); [|lia].
    unfold ret in Hopen. injection Hopen as Hz _ _. lia. }
  rewrite Hrel in Hget.
  destruct (sfs_open_script_success child FILENAME_MAX_LENGTH _ _ _ _ _ _ _ _ _
              Hrel Hget Hwr Hrw Hmk Hh) as (w3 & Hrun & Hres).
  rewrite Hres in Hopen. injection Hopen as <- <-.
  destruct (run_script_artifact child _ _ _ _ _ _ _ _ _ Hmk Hh Hrun)
    as (i & new & nd' & (Ho & _ & _) & _).
  destruct (run_script_shell_fds _ _ _ _ _ _ _ _ _ Hmk Hh Hshell Hrun) as (Hfree & F).
  unfold sfs_release in Hrelease. cbn [fh set_fh] in Hrelease, Hfh.
  apply Z.eqb_neq in Hfh. rewrite Hfh in Hrelease.
  set (fs := {| type := T_SCRIPT; file_handle := h;
                filename := copy_filename FILENAME_MAX_LENGTH rel |}) in *.
  set (w4 := set_heap (<[w_brk w3 := fs]> (w_heap w3)) (w_brk w3 + 0x1010) w3) in *.
  assert (w_heap w4 !! w_brk w3 = Some fs) as Hheap by (simpl; apply lookup_insert_eq).
  rewrite (bind_run _ _ _ _ _ (deref_run _ _ _ Hheap)) in Hrelease.
  change (is_folder fs) with false in Hrelease. cbv iota in Hrelease.
  assert (lookup_fd w4 (file_handle fs)
          = Some (OFile i O_RDWR (Z.of_nat (length (captured new))))) as Ho4 by exact Ho.
  rewrite (bind_run _ _ _ _ _ (close_run _ _ _ Ho4)) in Hrelease.
  unfold bind, modify, code_or_errno, ret in Hrelease. simpl in Hrelease.
  injection Hrelease as <- <-.
  split; [reflexivity|]. split.
  - simpl. apply map_eq. intros fd.
    destruct (decide (fd = h)) as [->|Hne]; [by rewrite lookup_delete_eq|].
    rewrite lookup_delete_ne by done. apply F.
    intros Hin. apply list_elem_of_singleton in Hin. done.
  - simpl. apply lookup_delete_eq.
Qed.

End Descriptors.

Lemma shell_script_open_release_leaves_no_descriptor_witness :
  exists fi' w' r w'',
    sfs_open Scenario.child_hi 4096 (Some "/hello_script"%string) Scenario.read_only
      (Scenario.world [default_procedure] 0) = Some ((0, fi'), w')
    /\ sfs_release None (Some fi') w' = Some (r, w'')
    /\ r = 0 /\ w_fds w'' = w_fds (Scenario.world [default_procedure] 0)
    /\ w_heap w'' !! fh fi' = None.
Proof.
  destruct (sfs_open Scenario.child_hi 4096 (Some "/hello_script"%string)
              Scenario.read_only (Scenario.world [default_procedure] 0))
    as [[[code fi'] w']|] eqn:Hopen; [|vm_compute in Hopen; discriminate].
  assert (code = 0) as -> by (vm_compute in Hopen; congruence).
  destruct (sfs_release None (Some fi') w') as [[r w'']|] eqn:Hrel;
    [|vm_compute in Hopen; injection Hopen as <- <-; vm_compute in Hrel; discriminate].
  exists fi', w', r, w''. split; [reflexivity|]. split; [exact Hrel|].
  assert (opened (Scenario.world [default_procedure] 0) 0) as Hstdin
    by (exists (OPipe false); reflexivity).
  apply (shell_script_open_release_leaves_no_descriptor Scenario.child_hi 4096
           "/hello_script" "hello_script" Scenario.read_only
           (Scenario.world [default_procedure] 0) default_procedure
           (Scenario.world [default_procedure] 0) fi' w' None r w'' eq_refl Hstdin
           eq_refl eq_refl Hopen); [|exact Hrel].
  vm_compute in Hopen. injection Hopen as <- _. discriminate.
Defined.

Lemma release_closes_and_frees_witness :
  exists fi' w1 fs,
    sfs_open Scenario.child_hi 4096 (Some "/hello_text"%string) Scenario.read_only
      (Scenario.world [default_procedure] 0) = Some ((0, fi'), w1)
    /\ w_heap w1 !! fh fi' = Some fs
    /\ exists r w',
         sfs_release None (Some fi') w1 = Some (r, w')
         /\ r = (if bool_decide (opened w1 (file_handle fs)) then 0 else - EBADF)
         /\ lookup_fd w' (file_handle fs) = None
         /\ (forall fd, fd <> file_handle fs -> lookup_fd w' fd = lookup_fd w1 fd)
         /\ w_heap w' = delete (fh fi') (w_heap w1)
         /\ w_names w' = w_names w1 /\ w_inodes w' = w_inodes w1
         /\ w_trace w' = w_trace w1.
Proof.
  destruct (sfs_open Scenario.child_hi 4096 (Some "/hello_text"%string)
              Scenario.read_only (Scenario.world [default_procedure] 0))
    as [[[code fi'] w1]|] eqn:Hopen; [|vm_compute in Hopen; discriminate].
  assert (code = 0) as -> by (vm_compute in Hopen; congruence).
  destruct (w_heap w1 !! fh fi') as [fs|] eqn:Hheap;
    [|vm_compute in Hopen; injection Hopen as <- <-; vm_compute in Hheap; discriminate].
  exists fi', w1, fs. split; [reflexivity|]. split; [exact Hheap|].
  apply (release_closes_and_frees None fi' fs w1).
  - vm_compute in Hopen. injection Hopen as <- _. discriminate.
  - exact Hheap.
  - vm_compute in Hopen. injection Hopen as <- <-. vm_compute in Hheap.
    injection Hheap as <-. discriminate.
Defined.

(** ** [sfs_truncate] and the descriptor it opens *)

Lemma to_int_to_uint64 x : to_int (to_uint64 x) = to_int x.
Proof.
  unfold to_int, to_uint64. f_equal.
  rewrite (Z.mod_eq x (2 ^ 64)) by lia.
  replace (x - 2 ^ 64 * (x / 2 ^ 64) + 2 ^ 31)
    with (x + 2 ^ 31 + (- (2 ^ 32 * (x / 2 ^ 64))) * 2 ^ 32) by lia.
  apply Z_mod_plus_full.
Qed.

Lemma to_uint64_nonneg x : (to_uint64 x <? 0) = false.
Proof. unfold to_uint64. apply Z.ltb_ge. apply Z.mod_pos_bound. lia. Qed.

(** The end of [sfs_truncate] fails with [EBADF] or [EINVAL] only. *)
Lemma truncate_tail_codes d size w r w' :
  (code <- ftruncate d size ;; close d ;;; code_or_errno code) w = Some (r, w') ->
  r = 0 \/ r = - EBADF \/ r = - EINVAL.
Proof.
  intros H. mstep H as code w1 Hft. mstep H as c w2 Hc.
  unfold ftruncate in Hft. run_prim Hft;
    unfold close in Hc; run_prim Hc;
    unfold code_or_errno in H; run_prim H; auto.
Qed.

Lemma truncate_bad_descriptor size w :
  (code <- ftruncate (-1) size ;; close (-1) ;;; code_or_errno code) w
  = Some (- EBADF, set_errno EBADF w).
Proof. reflexivity. Qed.

Section Truncate.

Variable child : World -> Exec -> list byte * option Z.

(** X16.  Whatever goes wrong, [sfs_truncate] reports
    [EACCES] (a script), [EBADF] or [EINVAL]: the descriptor is held in an
    unsigned variable, so a failed [openat] is not noticed and its error
    (no such file, a directory, no permission) is replaced by the [EBADF]
    of the calls made on the descriptor -1. *)
Theorem truncate_error_codes (path : option string) (size : Z)
    (fi : option fuse_file_info) (w : World) (r : Z) (w' : World) :
  sfs_truncate child path size fi w = Some (r, w') ->
  r = 0 \/ r = - EACCES \/ r = - EBADF \/ r = - EINVAL.
Proof.
  unfold sfs_truncate. intros H. destruct path as [p|].
  - mstep H as wc w1 Hg. mret Hg. mstep H as st w1 Hst. mstep H as ps w2 Hg. mret Hg.
    mstep H as proc w2 Hproc. destruct proc as [proc|].
    + mret H. auto.
    + mstep H as o w3 Hopen. rewrite to_uint64_nonneg in H.
      apply truncate_tail_codes in H. tauto.
  - destruct fi as [i|]; [|mret H; auto].
    rewrite to_uint64_nonneg in H. apply truncate_tail_codes in H. tauto.
Qed.

(** X17.  [sfs_truncate] on a path that names no file of the
    mirror returns [-EBADF], not the error of the lookup. *)
Theorem truncate_of_a_missing_file_reports_EBADF (p : string) (size : Z)
    (fi : option fuse_file_info) (w : World) (e : Z) :
  namei w true (relative_path (Some p)) = inl e ->
  sfs_truncate child (Some p) size fi w = Some (- EBADF, set_errno EBADF w).
Proof.
  intros Hn. unfold sfs_truncate.
  assert (forall sb, fstatat (relative_path (Some p)) sb 0 w
                     = Some ((-1, sb), set_errno e w)) as Hst.
  { intros sb. unfold fstatat, bind, gets, id.
    change (Z.land 0 AT_SYMLINK_NOFOLLOW =? 0) with true. rewrite Hn. reflexivity. }
  unfold bind at 1. unfold gets at 1. cbv [id].
  rewrite (bind_run _ _ _ _ _ (Hst _)). cbn [fst snd].
  unfold bind at 1. unfold gets at 1.
  change (-1 =? 0) with false. cbn [andb].
  unfold bind at 1. unfold ret at 1.
  assert (openat (relative_path (Some p)) O_WRONLY (set_errno e w)
          = Some (-1, set_errno e w)) as Hopen.
  { unfold openat, bind, gets, id.
    replace (namei (set_errno e w) true (relative_path (Some p))) with (inl e : Z + positive)
      by (rewrite <- Hn; symmetry; apply namei_quiet, quiet_errno).
    reflexivity. }
  rewrite (bind_run _ _ _ _ _ Hopen).
  rewrite to_uint64_nonneg.
  change (to_int (to_uint64 (-1))) with (-1).
  rewrite truncate_bad_descriptor. reflexivity.
Qed.

End Truncate.

Lemma truncate_error_codes_witness :
  exists r w',
    sfs_truncate Scenario.child_hi (Some "/d"%string) 0 None
      (Scenario.world [default_procedure] 0) = Some (r, w')
    /\ (r = 0 \/ r = - EACCES \/ r = - EBADF \/ r = - EINVAL).
Proof.
  destruct (sfs_truncate Scenario.child_hi (Some "/d"%string) 0 None
              (Scenario.world [default_procedure] 0)) as [[r w']|] eqn:H;
    [|vm_compute in H; discriminate].
  exists r, w'. split; [reflexivity|].
  exact (truncate_error_codes Scenario.child_hi _ _ _ _ _ _ H).
Defined.

Lemma truncate_of_a_missing_file_reports_EBADF_witness :
  namei (Scenario.world [default_procedure] 0) true (relative_path (Some "/nothing"%string))
  = inl ENOENT
  /\ sfs_truncate Scenario.child_hi (Some "/nothing"%string) 0 None
       (Scenario.world [default_procedure] 0)
     = Some (- EBADF, set_errno EBADF (Scenario.world [default_procedure] 0)).
Proof.
  split; [reflexivity|].
  apply (truncate_of_a_missing_file_reports_EBADF Scenario.child_hi "/nothing" 0 None
           (Scenario.world [default_procedure] 0) ENOENT).
  reflexivity.
Defined.

Lemma set_fds_same w : set_fds (w_fds w) w = w.
Proof. by destruct w. Qed.

Section ByHandle.

Variable child : World -> Exec -> list byte * option Z.

(** X18.  Called with a null path, [sfs_getattr], [sfs_chmod],
    [sfs_truncate] and [sfs_utimens] use the handle itself, converted to
    [int], as the descriptor.  Whenever that number is not an open
    descriptor they fail with [EBADF] and change nothing but [errno],
    whatever the [FileStruct] behind the handle holds. *)
Theorem handle_as_descriptor_gives_EBADF (fi : fuse_file_info) (w : World)
    (sb : stat) (mode size : Z) (ts : (Z * Z) * (Z * Z)) :
  lookup_fd w (to_int (fh fi)) = None ->
  sfs_getattr child None sb (Some fi) w
  = Some ((- EBADF, sb, Some fi), set_errno EBADF w)
  /\ sfs_chmod child None mode (Some fi) w = Some (- EBADF, set_errno EBADF w)
  /\ sfs_truncate child None size (Some fi) w = Some (- EBADF, set_errno EBADF w)
  /\ sfs_utimens child None ts (Some fi) w = Some (- EBADF, set_errno EBADF w).
Proof.
  intros Hfd.
  assert (fstat (to_int (fh fi)) sb w = Some ((-1, sb), set_errno EBADF w)) as Hst
    by (unfold fstat, bind, gets, id; rewrite Hfd; reflexivity).
  assert (forall f, change_fd (to_int (fh fi)) f w = Some (-1, set_errno EBADF w)) as Hch
    by (intros f; unfold change_fd, bind, gets, id; rewrite Hfd; reflexivity).
  assert (ftruncate (to_int (fh fi)) size w = Some (-1, set_errno EBADF w)) as Hft
    by (unfold ftruncate, bind, gets, id; rewrite Hfd; reflexivity).
  assert (close (to_int (fh fi)) (set_errno EBADF w) = Some (-1, set_errno EBADF w)) as Hcl.
  { unfold close, bind, gets, id. rewrite lookup_fd_set_errno, Hfd. reflexivity. }
  repeat split.
  - unfold sfs_getattr. rewrite (bind_run _ _ _ _ _ Hst). reflexivity.
  - unfold sfs_chmod, fchmod. rewrite (bind_run _ _ _ _ _ (Hch _)). reflexivity.
  - unfold sfs_truncate. rewrite to_uint64_nonneg, to_int_to_uint64.
    rewrite (bind_run _ _ _ _ _ Hft), (bind_run _ _ _ _ _ Hcl). reflexivity.
  - unfold sfs_utimens, futimens. rewrite (bind_run _ _ _ _ _ (Hch _)). reflexivity.
Qed.

End ByHandle.

Lemma handle_as_descriptor_gives_EBADF_witness :
  exists fi' w1 fs o,
    sfs_open Scenario.child_hi 4096 (Some "/hello_text"%string)
      {| flags := O_RDWR; fh := 0; direct_io := 0 |}
      (Scenario.world [default_procedure] 0) = Some ((0, fi'), w1)
    /\ w_heap w1 !! fh fi' = Some fs
    /\ lookup_fd w1 (file_handle fs) = Some o
    /\ sfs_getattr Scenario.child_hi None Scenario.no_stat (Some fi') w1
       = Some ((- EBADF, Scenario.no_stat, Some fi'), set_errno EBADF w1)
    /\ sfs_chmod Scenario.child_hi None 0x180 (Some fi') w1
       = Some (- EBADF, set_errno EBADF w1)
    /\ sfs_truncate Scenario.child_hi None 0 (Some fi') w1
       = Some (- EBADF, set_errno EBADF w1)
    /\ sfs_utimens Scenario.child_hi None ((5, 0), (6, 0)) (Some fi') w1
       = Some (- EBADF, set_errno EBADF w1).
Proof.
  destruct (sfs_open Scenario.child_hi 4096 (Some "/hello_text"%string)
              {| flags := O_RDWR; fh := 0; direct_io := 0 |}
              (Scenario.world [default_procedure] 0))
    as [[[code fi'] w1]|] eqn:Hopen; [|vm_compute in Hopen; discriminate].
  assert (code = 0) as -> by (vm_compute in Hopen; congruence).
  destruct (w_heap w1 !! fh fi') as [fs|] eqn:Hheap;
    [|vm_compute in Hopen; injection Hopen as <- <-; vm_compute in Hheap; discriminate].
  destruct (lookup_fd w1 (file_handle fs)) as [o|] eqn:Ho;
    [|vm_compute in Hopen; injection Hopen as <- <-; vm_compute in Hheap;
      injection Hheap as <-; vm_compute in Ho; discriminate].
  exists fi', w1, fs, o. split; [reflexivity|]. split; [exact Hheap|]. split; [exact Ho|].
  apply (handle_as_descriptor_gives_EBADF Scenario.child_hi fi' w1).
  vm_compute in Hopen. injection Hopen as <- <-. reflexivity.
Defined.

(** ** [sfs_access] *)

Section Access.

Variable child : World -> Exec -> list byte * option Z.

Lemma faccessat_run w name ino nd mask :
  resolves w true name ino nd -> permitted w nd mask = true ->
  faccessat name mask w = Some (0, w).
Proof.
  intros [Hn Hi] Hp. unfold faccessat, bind, gets, id. by rewrite Hn, Hi, Hp.
Qed.

(** X19.  [sfs_access] with [W_OK] in the mask, on a regular
    file that the mirror would let the server write and that the classifier
    matches, returns -1 (the value of [-EPERM]; the other handlers refuse a
    script with [-EACCES]). *)
Theorem access_for_writing_on_a_script (path : string) (mask : Z) (w : World)
    (ino : positive) (nd : Inode) (proc : Procedure) (w1 : World) :
  Z.land mask W_OK <> 0 ->
  resolves w true (relative_path (Some path)) ino nd ->
  permitted w nd mask = true ->
  S_ISREG (i_mode nd) = true ->
  get_script child (procs (persistent w)) (relative_path (Some path)) w
  = Some (Some proc, w1) ->
  sfs_access child (Some path) mask w = Some (-1, w1).
Proof.
  intros Hmask Hres Hperm Hreg Hget.
  unfold sfs_access. cbv zeta.
  rewrite (bind_run _ _ _ _ _ (faccessat_run _ _ _ _ _ Hres Hperm)).
  unfold bind at 1. unfold gets at 1. cbv [id].
  apply Z.eqb_neq in Hmask. rewrite Hmask. change (0 =? 0) with true. cbn [andb negb].
  assert (forall sb, fstatat (relative_path (Some path)) sb 0 w
                     = Some ((0, stat_of ino nd), w)) as Hst
    by (intros sb; apply fstatat_resolves; exact Hres).
  unfold bind at 1. unfold bind at 1. rewrite (Hst _). cbn [fst snd].
  change (0 =? 0) with true. cbn [negb].
  unfold bind at 1. unfold gets at 1.
  simpl st_mode. rewrite Hreg.
  rewrite (bind_run _ _ _ _ _ Hget). reflexivity.
Qed.

(** X20.  Without [W_OK] in the mask [sfs_access] runs no test of
    the classifier: no child is started, only [errno] can change, and the
    result is 0 or the negated [errno] of [faccessat]. *)
Theorem access_without_writing_runs_no_test (path : option string) (mask : Z)
    (w : World) (r : Z) (w' : World) :
  Z.land mask W_OK = 0 ->
  sfs_access child path mask w = Some (r, w') ->
  w_trace w' = w_trace w /\ (w' = w \/ err_only w w') /\ (r = 0 \/ r = - errno w').
Proof.
  intros Hmask H. unfold sfs_access in H. cbv zeta in H.
  mstep H as code w1 Hacc. mstep H as wc w2 Hg. mret Hg.
  rewrite Hmask in H. change (0 =? 0) with true in H.
  rewrite andb_false_r in H.
  mstep H as early w2 Hr. mret Hr.
  unfold code_or_errno in H.
  apply faccessat_spec in Hacc.
  destruct (code =? 0); [mret H|mstep H as e w3 Hg; mret Hg; mret H].
  - destruct Hacc as [->|[e ->]]; split; eauto.
    split; [right; by exists e|auto].
  - destruct Hacc as [->|[e' ->]]; split; eauto.
    split; [right; by exists e'|auto].
Qed.

End Access.

Lemma access_for_writing_on_a_script_witness :
  sfs_access Scenario.child_hi (Some "/hello_script"%string) W_OK
    (Scenario.world [default_procedure] 0)
  = Some (-1, Scenario.world [default_procedure] 0).
Proof.
  apply (access_for_writing_on_a_script Scenario.child_hi "/hello_script" W_OK
           (Scenario.world [default_procedure] 0)
           3%positive (Scenario.file_node S_IFREG 0x1ed Scenario.hello_script)
           default_procedure).
  - discriminate.
  - split; reflexivity.
  - reflexivity.
  - reflexivity.
  - reflexivity.
Defined.

Lemma access_without_writing_runs_no_test_witness :
  exists r w',
    sfs_access Scenario.child_hi (Some "/locked"%string) R_OK
      (Scenario.world [default_procedure] 0) = Some (r, w')
    /\ w_trace w' = w_trace (Scenario.world [default_procedure] 0)
    /\ (w' = Scenario.world [default_procedure] 0
        \/ err_only (Scenario.world [default_procedure] 0) w')
    /\ (r = 0 \/ r = - errno w').
Proof.
  destruct (sfs_access Scenario.child_hi (Some "/locked"%string) R_OK
              (Scenario.world [default_procedure] 0)) as [[r w']|] eqn:H;
    [|vm_compute in H; discriminate].
  exists r, w'. split; [reflexivity|].
  exact (access_without_writing_runs_no_test Scenario.child_hi (Some "/locked"%string) R_OK
           _ _ _ eq_refl H).
Defined.

(** ** The shebang test *)

(** X14.  On a file the server can read, [test_shell] answers 1
    exactly when the file begins with the two bytes [#!]; it reads through
    a descriptor of its own that it closes again, so the state is as
    before. *)
Theorem test_shell_looks_at_the_first_two_bytes (t : Test) (name : string)
    (w : World) (s : positive) (nd : Inode) :
  resolves w true (Some name) s nd ->
  S_ISDIR (i_mode nd) = false ->
  permitted w nd R_OK = true ->
  exists r,
    test_shell t (Some name) w = Some (r, w)
    /\ (r = 0 \/ r = 1)
    /\ (r = 1 <-> take 2 (i_data nd) = ["#"; "!"]%byte).
Proof.
  intros Hres Hdir Hperm.
  assert (openat (Some name) O_RDONLY w
          = Some (fresh_fd w, set_fds (<[fresh_fd w := OFile s O_RDONLY 0]> (w_fds w)) w))
    as Hopen by (apply (openat_run _ _ _ _ nd Hres); [apply andb_false_r|exact Hperm]).
  pose proof (fresh_fd_nonneg w) as Hfd0. pose proof (fresh_fd_free w) as Hfree.
  set (fd := fresh_fd w) in *.
  set (w1 := set_fds (<[fd := OFile s O_RDONLY 0]> (w_fds w)) w) in *.
  assert (lookup_fd w1 fd = Some (OFile s O_RDONLY 0)) as Hfd1
    by (apply lookup_fd_insert_eq; exact Hfd0).
  assert (w_inodes w1 !! s = Some nd) as Hs1 by (destruct Hres as [_ Hi]; exact Hi).
  pose proof (read_run w1 fd s O_RDONLY 0 nd 2 Hfd1 Hs1 eq_refl Hdir) as Hread.
  change (Z.to_nat 0) with 0%nat in Hread. rewrite drop_0 in Hread.
  set (got := take (Z.to_nat 2) (i_data nd)) in *.
  set (w2 := set_fds (<[fd := OFile s O_RDONLY (0 + Z.of_nat (length got))]> (w_fds w1)) w1)
    in *.
  assert (lookup_fd w2 fd = Some (OFile s O_RDONLY (0 + Z.of_nat (length got)))) as Hfd2
    by (apply lookup_fd_insert_eq; exact Hfd0).
  assert (set_fds (delete fd (w_fds w2)) w2 = w) as Hback.
  { transitivity (set_fds (w_fds w) w); [|apply set_fds_same].
    subst w2 w1. unfold set_fds. simpl. f_equal.
    rewrite insert_insert_eq. apply delete_insert_id. exact Hfree. }
  unfold test_shell.
  rewrite (bind_run _ _ _ _ _ Hopen). unfold bind at 1. unfold gets at 1. cbv [id].
  rewrite Hfd1. rewrite (bind_run _ _ _ _ _ Hread).
  rewrite (bind_run _ _ _ _ _ (close_run _ _ _ Hfd2)). rewrite Hback. cbn [snd].
  subst got. change (Z.to_nat 2) with 2%nat.
  destruct (i_data nd) as [|c0 [|c1 rest]]; simpl.
  - exists 0. split; [reflexivity|]. split; [auto|]. split; discriminate.
  - exists 0. split; [reflexivity|]. split; [auto|]. split; discriminate.
  - destruct (Byte.eqb c0 "#") eqn:E0; [destruct (Byte.eqb c1 "!") eqn:E1|]; simpl.
    + apply byte_dec_bl in E0, E1. subst c0 c1.
      exists 1. split; [reflexivity|]. split; [auto|]. done.
    + exists 0. split; [reflexivity|]. split; [auto|].
      split; [discriminate|]. intros [= _ ->]. by rewrite byte_dec_lb in E1.
    + exists 0. split; [reflexivity|]. split; [auto|].
      split; [discriminate|]. intros [= -> _]. by rewrite byte_dec_lb in E0.
Qed.

Lemma test_shell_looks_at_the_first_two_bytes_witness :
  exists r,
    test_shell (Build_Test None None None 0 None (Some Ftest_shell))
      (Some "hello_script"%string) (Scenario.world [default_procedure] 0)
    = Some (r, Scenario.world [default_procedure] 0)
    /\ (r = 0 \/ r = 1)
    /\ (r = 1 <-> take 2 (Scenario.bytes Scenario.hello_script) = ["#"; "!"]%byte).
Proof.
  apply (test_shell_looks_at_the_first_two_bytes _ "hello_script"
           (Scenario.world [default_procedure] 0) 3%positive
           (Scenario.file_node S_IFREG 0x1ed Scenario.hello_script)).
  - split; reflexivity.
  - reflexivity.
  - reflexivity.
Defined.

(** ** The program [call_program] runs *)

(** A byte of an interpreter path that needs no escape. *)
Definition plain (c : byte) : bool :=
  negb (is_blank c || is_newline c || is_backslash c || Byte.eqb c "000").

Lemma skip_blanks_over (pre b tl : list byte) fuel :
  Forall (fun c => is_blank c = true) b ->
  (forall c, head tl = Some c -> is_blank c = false) ->
  (length b < fuel)%nat ->
  skip_blanks fuel (pre ++ b ++ tl) (length pre) = (length pre + length b)%nat.
Proof.
  revert pre fuel. induction b as [|c b IH]; intros pre fuel Hb Htl Hfuel.
  - simpl. rewrite Nat.add_0_r. destruct fuel as [|fuel]; [simpl in Hfuel; lia|].
    simpl. rewrite lookup_app_r, Nat.sub_diag by lia.
    destruct tl as [|c tl]; [done|]. simpl. by rewrite (Htl c eq_refl).
  - destruct fuel as [|fuel]; [simpl in Hfuel; lia|].
    simpl. rewrite lookup_app_r, Nat.sub_diag by lia. simpl.
    apply Forall_cons in Hb as [Hc Hb]. rewrite Hc.
    replace (pre ++ c :: b ++ tl) with ((pre ++ [c]) ++ b ++ tl) by (by rewrite <- app_assoc).
    replace (S (length pre)) with (length (pre ++ [c])) by (rewrite length_app; simpl; lia).
    rewrite IH; [|done|done|simpl in Hfuel; lia].
    rewrite length_app. simpl. lia.
Qed.

Lemma end_of_path_over (pre p tl : list byte) (last : byte) fuel :
  Forall (fun c => plain c = true) p ->
  is_backslash last = false ->
  (forall c, head tl = Some c -> is_blank c || is_newline c = true) ->
  (length p < fuel)%nat ->
  end_of_path fuel ((pre ++ [last]) ++ p ++ tl) (length (pre ++ [last]))
  = (length (pre ++ [last]) + length p)%nat.
Proof.
  revert pre last fuel. induction p as [|c p IH]; intros pre last fuel Hp Hlast Htl Hfuel.
  - simpl. rewrite Nat.add_0_r. destruct fuel as [|fuel]; [simpl in Hfuel; lia|].
    simpl. rewrite lookup_app_r, Nat.sub_diag by lia.
    destruct tl as [|c tl]; [done|]. simpl.
    rewrite lookup_app_l by (rewrite !length_app; simpl; lia).
    rewrite length_app. simpl. replace (length pre + 1 - 1)%nat with (length pre) by lia.
    rewrite lookup_app_r, Nat.sub_diag by lia. simpl.
    rewrite Hlast, (Htl c eq_refl). reflexivity.
  - destruct fuel as [|fuel]; [simpl in Hfuel; lia|].
    simpl. rewrite lookup_app_r, Nat.sub_diag by lia. simpl.
    apply Forall_cons in Hp as [Hc Hp].
    assert (negb (is_blank c || is_newline c) = true /\ is_backslash c = false) as [Hc1 Hc2].
    { unfold plain in Hc. apply negb_true_iff in Hc.
      apply orb_false_iff in Hc as [Hc _]. apply orb_false_iff in Hc as [Hc Hb].
      rewrite Hc. done. }
    rewrite Hc1, orb_true_r.
    replace ((pre ++ [last]) ++ c :: p ++ tl) with (((pre ++ [last]) ++ [c]) ++ p ++ tl)
      by (by rewrite <- !app_assoc).
    replace (S (length (pre ++ [last]))) with (length ((pre ++ [last]) ++ [c]))
      by (rewrite !length_app; simpl; lia).
    rewrite IH; [|done|done|done|simpl in Hfuel; lia].
    rewrite !length_app. simpl. lia.
Qed.

Lemma until_nul_plain p : Forall (fun c => plain c = true) p -> until_nul p = p.
Proof.
  induction 1 as [|c p Hc Hp IH]; [done|]. simpl.
  unfold plain in Hc. apply negb_true_iff in Hc. apply orb_false_iff in Hc as [_ Hc].
  rewrite Hc, IH. done.
Qed.

(** The interpreter taken from a line [#!], blanks, a path of plain bytes,
    then the end of the line or a blank or a newline followed by anything:
    it is the path. *)
Lemma shebang_interpreter_word (b p rest : list byte) (c0 : byte) :
  Forall (fun c => is_blank c = true) b ->
  Forall (fun c => plain c = true) (c0 :: p) ->
  (forall c, head rest = Some c -> is_blank c || is_newline c = true) ->
  shebang_interpreter ("#" :: "!" :: b ++ (c0 :: p) ++ rest)%byte = Some (c0 :: p).
Proof.
  intros Hb Hp Hrest. unfold shebang_interpreter. cbv zeta.
  set (line := ("#" :: "!" :: b ++ (c0 :: p) ++ rest)%byte).
  apply Forall_cons in Hp as Hp'. destruct Hp' as [Hc0 Hp'].
  assert (is_blank c0 = false /\ is_newline c0 = false /\ is_backslash c0 = false)
    as (B0 & N0 & S0).
  { unfold plain in Hc0. apply negb_true_iff in Hc0.
    apply orb_false_iff in Hc0 as [Hc0 _]. apply orb_false_iff in Hc0 as [Hc0 ?].
    apply orb_false_iff in Hc0 as [? ?]. done. }
  assert (skip_blanks (length line) line 2 = (2 + length b)%nat) as Hi.
  { apply (skip_blanks_over ["#"; "!"]%byte b ((c0 :: p) ++ rest)); [done| |].
    - intros c [= <-]. exact B0.
    - subst line. simpl. rewrite !length_app. simpl. lia. }
  rewrite Hi.
  assert (line = (["#"; "!"]%byte ++ b) ++ (c0 :: p) ++ rest) as Hline
    by (subst line; reflexivity).
  assert (line !! (2 + length b)%nat = Some c0) as Hc.
  { rewrite Hline. rewrite lookup_app_r by (rewrite length_app; simpl; lia).
    rewrite length_app. simpl. by rewrite Nat.sub_diag. }
  rewrite Hc, N0.
  assert (length line = (2 + length b + S (length p) + length rest)%nat) as Hlenline.
  { rewrite Hline, !length_app. simpl. lia. }
  assert (end_of_path (length line) line (2 + length b) = (2 + length b + S (length p))%nat)
    as Hj.
  { destruct (length line) as [|fuel] eqn:Hlen;
      [subst line; simpl in Hlen; discriminate|].
    cbn [end_of_path]. rewrite Hc. rewrite B0, N0. simpl negb. rewrite orb_true_r.
    replace line with (((["#"; "!"]%byte ++ b) ++ [c0]) ++ p ++ rest)
      by (rewrite Hline; by rewrite <- !app_assoc).
    replace (S (2 + length b)) with (length ((["#"; "!"]%byte ++ b) ++ [c0]))
      by (rewrite !length_app; simpl; lia).
    rewrite (end_of_path_over (["#"; "!"]%byte ++ b) p rest c0); [|done|done|done|].
    - rewrite !length_app. simpl. lia.
    - lia. }
  rewrite Hj. f_equal.
  replace (2 + length b + S (length p) - (2 + length b))%nat with (length (c0 :: p))
    by (simpl; lia).
  rewrite Hline. rewrite drop_app_length' by (rewrite length_app; simpl; lia).
  rewrite take_app_length. by apply until_nul_plain.
Qed.

Lemma getline_app (l rest : list byte) :
  Forall (fun c => is_newline c = false) l -> getline (l ++ rest) = l ++ getline rest.
Proof. induction 1 as [|c l Hc Hl IH]; [done|]. simpl. by rewrite Hc, IH. Qed.

Lemma head_getline (rest : list byte) : head (getline rest) = head rest.
Proof. destruct rest as [|c rest]; [done|]. simpl. by destruct (is_newline c). Qed.

Lemma blank_no_newline c : is_blank c = true -> is_newline c = false.
Proof.
  unfold is_blank, is_newline. intros H. apply orb_true_iff in H as [H|H];
    apply byte_dec_bl in H; subst; reflexivity.
Qed.

Lemma plain_no_newline c : plain c = true -> is_newline c = false.
Proof.
  unfold plain. intros H. apply negb_true_iff in H.
  apply orb_false_iff in H as [H _]. apply orb_false_iff in H as [H _].
  apply orb_false_iff in H as [_ H]. exact H.
Qed.

(** X21.  For a file whose first line is [#!], blanks, a path of
    plain bytes (no blank, newline, backslash or zero), then the end of the
    file or a blank or a newline followed by anything, [call_program] runs
    the path with the argument vector made of the path and the arguments it
    was given: whatever follows the path on the first line (the arguments
    of the interpreter) is dropped. *)
Theorem call_program_runs_the_first_word (b p rest : list byte) (c0 : byte)
    (file : option string) (args : list (option string)) :
  Forall (fun c => is_blank c = true) b ->
  Forall (fun c => plain c = true) (c0 :: p) ->
  (forall c, head rest = Some c -> is_blank c || is_newline c = true) ->
  call_program_request ("#" :: "!" :: b ++ (c0 :: p) ++ rest)%byte file args
  = Some (Some (String.string_of_list_byte (c0 :: p)),
          String.string_of_list_byte (c0 :: p) :: argv_of args).
Proof.
  intros Hb Hp Hrest. unfold call_program_request. cbv zeta.
  assert (getline ("#" :: "!" :: b ++ (c0 :: p) ++ rest)%byte
          = ("#" :: "!" :: b ++ (c0 :: p) ++ getline rest)%byte) as ->.
  { change ("#" :: "!" :: b ++ (c0 :: p) ++ rest)%byte
      with (["#"; "!"]%byte ++ b ++ (c0 :: p) ++ rest).
    rewrite getline_app by (repeat constructor).
    rewrite getline_app by (eapply Forall_impl; [exact Hb|apply blank_no_newline]).
    rewrite getline_app by (eapply Forall_impl; [exact Hp|apply plain_no_newline]).
    reflexivity. }
  change (Byte.eqb "#" "#" && Byte.eqb "!" "!") with true. cbv iota.
  rewrite (shebang_interpreter_word b p (getline rest) c0 Hb Hp); [reflexivity|].
  intros c Hc. rewrite head_getline in Hc. auto.
Qed.

(** X22.  For a file whose first line is [#!] followed by
    blanks only, [call_program] returns without running anything (its
    caller then aborts the child). *)
Theorem call_program_without_an_interpreter (b rest : list byte)
    (file : option string) (args : list (option string)) :
  Forall (fun c => is_blank c = true) b ->
  (forall c, head rest = Some c -> is_newline c = true) ->
  call_program_request ("#" :: "!" :: b ++ rest)%byte file args = None.
Proof.
  intros Hb Hrest. unfold call_program_request. cbv zeta.
  assert (getline ("#" :: "!" :: b ++ rest)%byte
          = ("#" :: "!" :: b ++ getline rest)%byte) as ->.
  { change ("#" :: "!" :: b ++ rest)%byte with (["#"; "!"]%byte ++ b ++ rest).
    rewrite getline_app by (repeat constructor).
    rewrite getline_app by (eapply Forall_impl; [exact Hb|apply blank_no_newline]).
    reflexivity. }
  change (Byte.eqb "#" "#" && Byte.eqb "!" "!") with true. cbv iota.
  unfold shebang_interpreter. cbv zeta.
  set (line := ("#" :: "!" :: b ++ getline rest)%byte).
  assert (skip_blanks (length line) line 2 = (2 + length b)%nat) as ->.
  { apply (skip_blanks_over ["#"; "!"]%byte b (getline rest)); [done| |].
    - intros c Hc. rewrite head_getline in Hc. apply Hrest in Hc.
      unfold is_newline in Hc. apply byte_dec_bl in Hc. subst c. reflexivity.
    - subst line. simpl. rewrite !length_app. lia. }
  assert (line = (["#"; "!"]%byte ++ b) ++ getline rest) as -> by (subst line; reflexivity).
  rewrite lookup_app_r by (rewrite length_app; simpl; lia).
  rewrite length_app. simpl. rewrite Nat.sub_diag.
  destruct (getline rest) as [|c tl] eqn:E; [done|]. simpl.
  assert (head rest = Some c) as Hc by (rewrite <- head_getline, E; reflexivity).
  by rewrite (Hrest c Hc).
Qed.

Lemma call_program_runs_the_first_word_witness :
  call_program_request
    (Scenario.bytes (String.append "#! /bin/sh -e" (String.append Scenario.nl "echo Hi")))
    (Some "/dev/shm/sfs.aaaaab"%string) [Some "/dev/shm/sfs.aaaaab"%string; None]
  = Some (Some "/bin/sh"%string, ["/bin/sh"%string; "/dev/shm/sfs.aaaaab"%string]).
Proof.
  apply (call_program_runs_the_first_word
           (Scenario.bytes " ") (Scenario.bytes "bin/sh")
           (Scenario.bytes (String.append " -e" (String.append Scenario.nl "echo Hi")))
           "/"%byte).
  - repeat constructor.
  - repeat constructor.
  - intros c [= <-]. reflexivity.
Defined.

Lemma call_program_without_an_interpreter_witness :
  call_program_request (Scenario.bytes (String.append "#!  " (String.append Scenario.nl "x")))
    (Some "f"%string) [Some "f"%string; None] = None.
Proof.
  apply (call_program_without_an_interpreter
           (Scenario.bytes "  ") (Scenario.bytes (String.append Scenario.nl "x"))).
  - repeat constructor.
  - intros c [= <-]. reflexivity.
Defined.

(** ** Writing and reading back *)





Lemma to_int_small x : 0 <= x < 2 ^ 31 -> to_int x = x.
Proof. intros H. unfold to_int. rewrite Z.mod_small by lia. lia. Qed.

Lemma to_uint64_small x : 0 <= x < 2 ^ 31 -> to_uint64 x = x.
Proof. intros H. unfold to_uint64. apply Z.mod_small. lia. Qed.

Lemma ftruncate_run w fd i fl pos nd size :
  lookup_fd w fd = Some (OFile i fl pos) -> w_inodes w !! i = Some nd ->
  (Z.land fl O_ACCMODE =? O_RDONLY) = false -> 0 <= size ->
  ftruncate fd size w
  = Some (0, set_inodes (<[i := with_data (resize (Z.to_nat size) (i_data nd)) nd]>
                           (w_inodes w)) w).
Proof.
  intros Hfd Hnd Hfl Hsize. unfold ftruncate, bind, gets, id. rewrite Hfd, Hnd, Hfl.
  destruct (Z.ltb_spec size 0); [lia|reflexivity].
Qed.

Section MoreOfTheHandlers.

Variable child : World -> Exec -> list byte * option Z.

(** X15.  [sfs_truncate] on a regular file of the mirror that is no
    script and that the server may write sets the content to its first
    [size] bytes, with zero bytes added when the file was shorter; the
    descriptor opened for it is closed again and no name changes. *)
Theorem truncate_of_a_plain_file_resizes_it (path : string) (size : Z)
    (fi : option fuse_file_info) (w w1 : World) (ino : positive) (nd : Inode) :
  resolves w true (relative_path (Some path)) ino nd ->
  S_ISREG (i_mode nd) = true ->
  get_script child (procs (persistent w)) (relative_path (Some path)) w = Some (None, w1) ->
  permitted w nd W_OK = true ->
  0 <= size -> fresh_fd w1 < 2 ^ 31 ->
  exists w',
    sfs_truncate child (Some path) size fi w = Some (0, w')
    /\ w_inodes w'
       = <[ino := with_data (resize (Z.to_nat size) (i_data nd)) nd]> (w_inodes w)
    /\ w_fds w' = w_fds w1 /\ w_names w' = w_names w.
Proof.
  intros Hres Hreg Hget Hperm Hsize Hsmall.
  pose proof (get_script_quiet _ _ _ _ _ _ Hget) as Q.
  pose proof (resolves_quiet _ _ _ _ _ _ Q Hres) as Hres1.
  assert (S_ISDIR (i_mode nd) = false) as Hdir.
  { unfold S_ISREG in Hreg. unfold S_ISDIR. apply Z.eqb_eq in Hreg. by rewrite Hreg. }
  pose proof (fresh_fd_nonneg w1) as Hfd0. pose proof (fresh_fd_free w1) as Hfree.
  assert (openat (relative_path (Some path)) O_WRONLY w1
          = Some (fresh_fd w1,
                  set_fds (<[fresh_fd w1 := OFile ino O_WRONLY 0]> (w_fds w1)) w1)) as Hopen.
  { apply (openat_run _ _ _ _ nd Hres1); [by rewrite Hdir|].
    simpl. rewrite (permitted_quiet _ _ _ _ Q). exact Hperm. }
  set (fd := fresh_fd w1) in *.
  set (w2 := set_fds (<[fd := OFile ino O_WRONLY 0]> (w_fds w1)) w1) in *.
  assert (lookup_fd w2 fd = Some (OFile ino O_WRONLY 0)) as Hfd2
    by (apply lookup_fd_insert_eq; exact Hfd0).
  assert (w_inodes w2 !! ino = Some nd) as Hnd2 by (destruct Hres1 as [_ Hi]; exact Hi).
  pose proof (ftruncate_run w2 fd ino O_WRONLY 0 nd size Hfd2 Hnd2 eq_refl Hsize) as Hft.
  set (w3 := set_inodes _ w2) in Hft.
  assert (lookup_fd w3 fd = Some (OFile ino O_WRONLY 0)) as Hfd3 by exact Hfd2.
  unfold sfs_truncate.
  unfold bind at 1. unfold gets at 1. cbv [id].
  rewrite (bind_run _ _ _ _ _ (fstatat_resolves w 0 _ _ ino nd Hres)). cbn [fst snd].
  unfold bind at 1. unfold gets at 1.
  change (0 =? 0) with true. cbn [andb st_mode stat_of]. rewrite Hreg.
  rewrite (bind_run _ _ _ _ _ Hget). rewrite (bind_run _ _ _ _ _ Hopen).
  rewrite to_uint64_nonneg, to_int_to_uint64, to_int_small by lia.
  rewrite (bind_run _ _ _ _ _ Hft). rewrite (bind_run _ _ _ _ _ (close_run _ _ _ Hfd3)).
  eexists. split; [reflexivity|]. destruct Q as [_ _ _ Qn Qi _ _ _ _]. simpl.
  split; [by rewrite Qi|]. split; [|exact Qn].
  by apply delete_insert_id.
Qed.

(** X12.  [sfs_getattr] on a script whose program is the shell
    leaves the descriptor table as the classifier left it, with [-l] too:
    the artifact made to measure the output is closed again. *)
Theorem getattr_of_a_shell_script_leaves_no_descriptor (path : string) (sb : stat)
    (fi : option fuse_file_info) (w : World) (ino : positive) (nd : Inode)
    (proc : Procedure) (w1 : World) (r : Z * stat * option fuse_file_info) (w' : World) :
  resolves w false (relative_path (Some path)) ino nd ->
  S_ISREG (i_mode nd) = true ->
  opened w 0 ->
  get_script child (procs (persistent w)) (relative_path (Some path)) w
    = Some (Some proc, w1) ->
  prog_func (program proc) = Fprogram_shell ->
  sfs_getattr child (Some path) sb fi w = Some (r, w') ->
  w_fds w' = w_fds w1.
Proof.
  intros Hres Hreg Hstdin Hget Hshell H.
  rewrite (sfs_getattr_script child _ sb fi _ _ _ _ _ Hres Hreg Hget) in H.
  destruct (negb (return_real_size (persistent w) =? 0)); [|by mret H].
  mstep H as h w3 Hrun. mstep H as rs w4 Hfs. mstep H as c w5 Hc. mret H.
  pose proof (fstat_fds _ _ _ _ _ Hfs) as F34.
  destruct (total_mkstemp (tmp_template (persistent w1)) w1) as ([hd nm] & w2 & Hmk).
  pose proof (get_script_opened _ _ _ _ _ _ _ Hstdin Hget) as Hstdin1.
  destruct (mkstemp_result _ _ _ _ _ Hstdin1 Hmk) as [[-> He]|Hh].
  - rewrite (run_script_after_mkstemp _ _ _ _ _ _ _ _ Hmk) in Hrun.
    simpl in Hrun. injection Hrun as <- <-. cbn [fst] in *.
    apply mkstemp_spec in Hmk as [[_ (e & _ & ->)]|(j & n & Hpos & _)];
      [|simpl in Hpos; lia].
    assert (lookup_fd w4 (- errno (set_errno e w1)) = None) as Hno.
    { unfold lookup_fd. destruct (Z.ltb_spec (- errno (set_errno e w1)) 0); [done|].
      simpl in *. lia. }
    unfold close, bind, gets, id in Hc. rewrite Hno in Hc. simpl in Hc.
    injection Hc as _ <-. simpl. exact F34.
  - destruct (run_script_art _ _ _ _ _ _ _ _ _ _ Hmk Hh Hrun)
      as (-> & i & new & nd' & (Ho & _ & _) & _).
    destruct (run_script_shell_fds child _ _ _ _ _ _ _ _ _ Hmk Hh Hshell Hrun)
      as (Hfree & F).
    cbn [fst] in *.
    assert (lookup_fd w4 hd = Some (OFile i O_RDWR (Z.of_nat (length (captured new)))))
      as Ho4 by (unfold lookup_fd in *; rewrite F34; exact Ho).
    rewrite (close_run _ _ _ Ho4) in Hc. injection Hc as _ <-.
    simpl. apply map_eq. intros fd.
    destruct (decide (fd = hd)) as [->|Hne]; [by rewrite lookup_delete_eq|].
    rewrite lookup_delete_ne by done. rewrite F34. apply F.
    intros Hin. apply list_elem_of_singleton in Hin. done.
Qed.

(** X13.  Running the tests of the classifier on a file changes
    neither the names nor the files of the mirror, nor the handles and the
    configuration of the server, and closes no descriptor that was open. *)
Theorem classifier_leaves_the_mirror_alone (ps : list Procedure) (file : option string)
    (w : World) (r : option Procedure) (w' : World) :
  get_script child ps file w = Some (r, w') ->
  w_names w' = w_names w /\ w_inodes w' = w_inodes w
  /\ w_heap w' = w_heap w /\ persistent w' = persistent w
  /\ forall fd, opened w fd -> opened w' fd.
Proof.
  intros H. destruct (get_script_quiet _ _ _ _ _ _ H) as [Qp _ _ Qn Qi Qh _ _ _].
  repeat split; try done.
  intros fd Hfd. eapply get_script_opened; eauto.
Qed.

End MoreOfTheHandlers.

Lemma truncate_of_a_plain_file_resizes_it_witness :
  exists w1 w',
    get_script Scenario.child_hi [default_procedure] (Some "hello_text"%string)
      (Scenario.world [default_procedure] 0) = Some (None, w1)
    /\ sfs_truncate Scenario.child_hi (Some "/hello_text"%string) 3 None
         (Scenario.world [default_procedure] 0) = Some (0, w')
    /\ w_inodes w'
       = <[4%positive :=
             with_data (resize (Z.to_nat 3) (Scenario.bytes Scenario.hello_text))
               (Scenario.file_node S_IFREG 0x1a4 Scenario.hello_text)]>
           (w_inodes (Scenario.world [default_procedure] 0))
    /\ w_fds w' = w_fds w1
    /\ w_names w' = w_names (Scenario.world [default_procedure] 0).
Proof.
  destruct (get_script Scenario.child_hi [default_procedure] (Some "hello_text"%string)
              (Scenario.world [default_procedure] 0)) as [[[proc|] w1]|] eqn:Hget;
    [vm_compute in Hget; discriminate| |vm_compute in Hget; discriminate].
  destruct (truncate_of_a_plain_file_resizes_it Scenario.child_hi "/hello_text" 3 None
              (Scenario.world [default_procedure] 0) w1 4%positive
              (Scenario.file_node S_IFREG 0x1a4 Scenario.hello_text)) as (w' & H).
  - split; reflexivity.
  - reflexivity.
  - exact Hget.
  - reflexivity.
  - lia.
  - vm_compute in Hget. injection Hget as <-. vm_compute. reflexivity.
  - exists w1, w'. split; [reflexivity|exact H].
Defined.

Lemma getattr_of_a_shell_script_leaves_no_descriptor_witness :
  exists r w',
    sfs_getattr Scenario.child_hi (Some "/hello_script"%string) Scenario.no_stat None
      (Scenario.world [default_procedure] 1) = Some (r, w')
    /\ w_fds w' = w_fds (Scenario.world [default_procedure] 1).
Proof.
  destruct (sfs_getattr Scenario.child_hi (Some "/hello_script"%string) Scenario.no_stat
              None (Scenario.world [default_procedure] 1)) as [[r w']|] eqn:H;
    [|vm_compute in H; discriminate].
  exists r, w'. split; [reflexivity|].
  assert (opened (Scenario.world [default_procedure] 1) 0) as Hstdin
    by (exists (OPipe false); reflexivity).
  assert (resolves (Scenario.world [default_procedure] 1) false
            (relative_path (Some "/hello_script"%string)) 3%positive
            (Scenario.file_node S_IFREG 0x1ed Scenario.hello_script)) as Hres
    by (split; reflexivity).
  exact (getattr_of_a_shell_script_leaves_no_descriptor Scenario.child_hi
           "/hello_script" Scenario.no_stat None (Scenario.world [default_procedure] 1)
           3%positive (Scenario.file_node S_IFREG 0x1ed Scenario.hello_script)
           default_procedure (Scenario.world [default_procedure] 1) r w'
           Hres eq_refl Hstdin eq_refl eq_refl H).
Defined.

Lemma classifier_leaves_the_mirror_alone_witness :
  exists r w',
    get_script Scenario.child_hi [Scenario.echo_both; default_procedure]
      (Some "hello_text"%string) (Scenario.world [Scenario.echo_both; default_procedure] 0)
    = Some (r, w')
    /\ w_names w' = w_names (Scenario.world [Scenario.echo_both; default_procedure] 0)
    /\ w_inodes w' = w_inodes (Scenario.world [Scenario.echo_both; default_procedure] 0)
    /\ w_heap w' = w_heap (Scenario.world [Scenario.echo_both; default_procedure] 0)
    /\ persistent w' = persistent (Scenario.world [Scenario.echo_both; default_procedure] 0)
    /\ forall fd, opened (Scenario.world [Scenario.echo_both; default_procedure] 0) fd ->
                  opened w' fd.
Proof.
  destruct (get_script Scenario.child_hi [Scenario.echo_both; default_procedure]
              (Some "hello_text"%string)
              (Scenario.world [Scenario.echo_both; default_procedure] 0))
    as [[r w']|] eqn:H; [|vm_compute in H; discriminate].
  exists r, w'. split; [reflexivity|].
  exact (classifier_leaves_the_mirror_alone Scenario.child_hi _ _ _ _ _ H).
Defined.

Lemma fresh_fd_zero w : w_fds w !! 0 = None -> fresh_fd w = 0.
Proof.
  intros H. unfold fresh_fd. destruct (size (w_fds w)); simpl; [done|]. by rewrite H.
Qed.

Section DescriptorZero.

Variable child : World -> Exec -> list byte * option Z.
Variable FILENAME_MAX_LENGTH : nat.

(** X23.  [sfs_open] takes a descriptor that is not positive for a
    failure.  When descriptor 0 is free (the standard input of the server
    is closed), a file that is no script and that can be opened gets
    descriptor 0: [sfs_open] then returns the negated [errno] left by
    earlier calls (0 when there was no error), makes no handle, and leaves
    descriptor 0 open on the file. *)
Theorem open_on_descriptor_zero_is_taken_for_a_failure (path rel : string)
    (fi : fuse_file_info) (w w1 : World) (ino : positive) (nd : Inode) :
  relative_path (Some path) = Some rel ->
  get_script child (procs (persistent w)) (Some rel) w = Some (None, w1) ->
  w_fds w1 !! 0 = None ->
  resolves w true (Some rel) ino nd ->
  S_ISDIR (i_mode nd) = false ->
  Z.land (flags fi) O_ACCMODE = O_RDONLY ->
  permitted w nd R_OK = true ->
  exists w',
    sfs_open child FILENAME_MAX_LENGTH (Some path) fi w = Some ((- errno w1, fi), w')
    /\ lookup_fd w' 0 = Some (OFile ino (flags fi) 0)
    /\ w_heap w' = w_heap w.
Proof.
  intros Hrel Hget Hfree Hres Hdir Hacc Hperm.
  rewrite <- Hrel in Hget.
  pose proof (get_script_quiet _ _ _ _ _ _ Hget) as Q.
  pose proof (resolves_quiet _ _ _ _ _ _ Q Hres) as Hres1.
  assert (openat (Some rel) (flags fi) w1
          = Some (0, set_fds (<[0 := OFile ino (flags fi) 0]> (w_fds w1)) w1)) as Hopen.
  { rewrite <- (fresh_fd_zero w1 Hfree) at 1 2.
    apply (openat_run _ _ _ _ nd Hres1).
    - rewrite Hacc. simpl. apply andb_false_r.
    - rewrite Hacc. simpl. rewrite (permitted_quiet _ _ _ _ Q). exact Hperm. }
  rewrite (sfs_open_plain child FILENAME_MAX_LENGTH _ _ _ _ Hget). rewrite Hrel.
  rewrite (bind_run _ _ _ _ _ Hopen). change (0 <=? 0) with true. cbv iota.
  eexists. split; [reflexivity|].
  split; [apply (lookup_fd_insert_eq w1 0); lia|].
  destruct Q. done.
Qed.

End DescriptorZero.

Definition world_without_stdin : World :=
  set_fds (delete 0 (w_fds (Scenario.world [default_procedure] 0)))
    (Scenario.world [default_procedure] 0).

Lemma open_on_descriptor_zero_is_taken_for_a_failure_witness :
  exists w1 w',
    get_script Scenario.child_hi [default_procedure] (Some "hello_text"%string)
      world_without_stdin = Some (None, w1)
    /\ sfs_open Scenario.child_hi 4096 (Some "/hello_text"%string) Scenario.read_only
         world_without_stdin = Some ((- errno w1, Scenario.read_only), w')
    /\ lookup_fd w' 0 = Some (OFile 4 (flags Scenario.read_only) 0)
    /\ w_heap w' = w_heap world_without_stdin.
Proof.
  destruct (get_script Scenario.child_hi [default_procedure] (Some "hello_text"%string)
              world_without_stdin) as [[[proc|] w1]|] eqn:Hget;
    [vm_compute in Hget; discriminate| |vm_compute in Hget; discriminate].
  destruct (open_on_descriptor_zero_is_taken_for_a_failure Scenario.child_hi 4096
              "/hello_text" "hello_text" Scenario.read_only world_without_stdin w1
              4%positive (Scenario.file_node S_IFREG 0x1a4 Scenario.hello_text))
    as (w' & H).
  - reflexivity.
  - exact Hget.
  - vm_compute in Hget. injection Hget as <-. reflexivity.
  - split; reflexivity.
  - reflexivity.
  - reflexivity.
  - reflexivity.
  - exists w1, w'. split; [reflexivity|exact H].
Defined.

(** ** A path that names nothing *)

Lemma namei_missing w follow rel :
  w_names w !! rel = None -> namei w follow (Some rel) = inl ENOENT.
Proof. intros H. unfold namei. simpl. by rewrite H. Qed.

(** A name of one component, as an entry of a directory has it: not empty,
    neither [.] nor [..], at most [NAME_MAX] = 255 characters, and without a
    slash or a null character. *)
Definition simple_name (s : string) : bool :=
  negb (String.eqb s "") && negb (String.eqb s ".") && negb (String.eqb s "..")
  && (String.length s <=? 255)%nat
  && forallb (fun c => negb (Ascii.eqb c "/") && negb (Ascii.eqb c "000"))
       (String.list_ascii_of_string s).

Section MissingFile.

Variable child : World -> Exec -> list byte * option Z.

(** X24.  On a path made of a slash and one component that is no entry of
    the mirror directory, [sfs_getattr], [sfs_access], [sfs_chmod] and
    [sfs_utimens] return [-ENOENT] without running a test of the classifier,
    and change nothing but [errno]. *)
Theorem missing_file_is_reported_as_ENOENT (path rel : string) (sb : stat)
    (fi : option fuse_file_info) (mask mode : Z) (ts : (Z * Z) * (Z * Z)) (w : World) :
  relative_path (Some path) = Some rel ->
  simple_name rel = true ->
  w_names w !! rel = None ->
  sfs_getattr child (Some path) sb fi w = Some ((- ENOENT, sb, fi), set_errno ENOENT w)
  /\ sfs_access child (Some path) mask w = Some (- ENOENT, set_errno ENOENT w)
  /\ sfs_chmod child (Some path) mode fi w = Some (- ENOENT, set_errno ENOENT w)
  /\ sfs_utimens child (Some path) ts fi w = Some (- ENOENT, set_errno ENOENT w).
Proof.
  intros Hrel _ Hmiss.
  assert (forall follow w0, w_names w0 = w_names w ->
            namei w0 follow (Some rel) = inl ENOENT) as Hn
    by (intros follow w0 E; apply namei_missing; by rewrite E).
  assert (forall st fl, fstatat (Some rel) st fl w = Some ((-1, st), set_errno ENOENT w))
    as Hst.
  { intros st fl. unfold fstatat, bind, gets, id. rewrite (Hn _ w eq_refl). reflexivity. }
  assert (forall f, change_path (Some rel) f (set_errno ENOENT w)
                    = Some (-1, set_errno ENOENT w)) as Hch.
  { intros f. unfold change_path, bind, gets, id.
    rewrite (Hn _ (set_errno ENOENT w) eq_refl). reflexivity. }
  repeat split.
  - unfold sfs_getattr. rewrite Hrel. rewrite (bind_run _ _ _ _ _ (Hst _ _)). reflexivity.
  - unfold sfs_access. rewrite Hrel. cbv zeta.
    assert (faccessat (Some rel) mask w = Some (-1, set_errno ENOENT w)) as Hacc.
    { unfold faccessat, bind, gets, id. rewrite (Hn _ w eq_refl). reflexivity. }
    rewrite (bind_run _ _ _ _ _ Hacc). reflexivity.
  - unfold sfs_chmod. rewrite Hrel. unfold bind at 1. unfold gets at 1. cbv [id].
    rewrite (bind_run _ _ _ _ _ (Hst _ _)). cbn [fst snd].
    unfold bind at 1. unfold gets at 1. change (-1 =? 0) with false. cbn [andb].
    unfold bind at 1. unfold ret at 1. cbn [bool_decide is_Some].
    rewrite bool_decide_eq_false_2 by (intros [? ?]; discriminate).
    unfold fchmodat. rewrite (bind_run _ _ _ _ _ (Hch _)). reflexivity.
  - unfold sfs_utimens. rewrite Hrel. unfold bind at 1. unfold gets at 1. cbv [id].
    rewrite (bind_run _ _ _ _ _ (Hst _ _)). cbn [fst snd].
    unfold bind at 1. unfold gets at 1. change (-1 =? 0) with false. cbn [andb].
    unfold bind at 1. unfold ret at 1.
    unfold utimensat. rewrite (bind_run _ _ _ _ _ (Hch _)). reflexivity.
Qed.

End MissingFile.

Lemma missing_file_is_reported_as_ENOENT_witness :
  sfs_getattr Scenario.child_hi (Some "/nothing"%string) Scenario.no_stat None
    (Scenario.world [default_procedure] 0)
  = Some ((- ENOENT, Scenario.no_stat, None),
          set_errno ENOENT (Scenario.world [default_procedure] 0))
  /\ sfs_access Scenario.child_hi (Some "/nothing"%string) R_OK
       (Scenario.world [default_procedure] 0)
     = Some (- ENOENT, set_errno ENOENT (Scenario.world [default_procedure] 0))
  /\ sfs_chmod Scenario.child_hi (Some "/nothing"%string) 0x1ff None
       (Scenario.world [default_procedure] 0)
     = Some (- ENOENT, set_errno ENOENT (Scenario.world [default_procedure] 0))
  /\ sfs_utimens Scenario.child_hi (Some "/nothing"%string) ((5, 0), (6, 0)) None
       (Scenario.world [default_procedure] 0)
     = Some (- ENOENT, set_errno ENOENT (Scenario.world [default_procedure] 0)).
Proof.
  apply (missing_file_is_reported_as_ENOENT Scenario.child_hi "/nothing" "nothing").
  - reflexivity.
  - reflexivity.
  - reflexivity.
Defined.
